(** * Marketing-analytics data preparation: the cleaning and unification pipeline

    A shallow embedding of [src/utils/data_prep.py]: the four functions
    [clean_business_data], [clean_marketing_data], [combine_marketing_data]
    and [create_unified_dataset], written over a small model of the part of
    pandas and numpy they call, and [fetch_data_from_url] over an interface
    to the network.

    - Numbers are IEEE-754 binary64 values (the kernel's primitive floats),
      so division by zero yields an infinity or NaN exactly as numpy does.
      Every numeric column is a float column; an integer-valued cell is the
      float of the same value.
    - A data frame is a list of labelled rows over string-keyed cells; a
      cell a row does not hold reads as NaN, pandas' missing marker.
    - Data frames are objects in a store: [df.copy()] allocates, the
      assignment [df[c] = ...] updates in place, and every other call used
      here builds a new frame.
    - pandas' string parsers, numpy's argsort and the grouped sum are taken
      as an interface ([Lib]); what is assumed of them is stated where it is
      used. The sort [sort_values] runs by default, numpy's quicksort, is
      written out as well ([npysort]).
    - A date column holds text or timestamps. What pandas does with a
      missing or numeric date, with a key column that is not a timestamp
      column, and with repeated column names is outside the model: such a
      call raises [ModelLimit], which no Python program raises.

    The file has four parts: the definitions (the library model, the
    program, its functional model and the example tables), the proofs that
    the program computes its functional model and what that model does row
    by row, the claims, and further properties of the code. *)

From Stdlib Require Import Floats ZArith Ascii String Permutation Sorted.
From stdpp Require Import gmap strings list sorting.

Open Scope float_scope.
Open Scope Z_scope.
Open Scope nat_scope.

(** ** Numbers *)

Definition NaN : float := nan.

(** 2^52: every binary64 value of at least this magnitude is an integer. *)
Definition two52 : float := 4503599627370496%float.

(** [numpy.rint]: round to the nearest integer, ties to even, in the
    default rounding mode. The result has the sign of the argument, also
    when it is a zero: [rint(-0.0)] and [rint(-0.3)] are [-0.0]. *)
Definition rint (x : float) : float :=
  if (abs x <? two52)%float then
    if get_sign x then (- ((- x + two52) - two52))%float
    else ((x + two52) - two52)%float
  else x.

(** [numpy.round(x, 2)]: scale by 100, [rint], scale back. *)
Definition np_round2 (x : float) : float := (rint (x * 100) / 100)%float.

(** ** Cells, exceptions *)

Inductive cell :=
  | Num (x : float)      (* a number; [Num NaN] is the missing value *)
  | Str (s : string)     (* text, as read from a delimited file *)
  | Date (t : Z).        (* a timestamp, as [pandas.to_datetime] yields it *)

Inductive exn :=
  | KeyError (c : string)  (* a column that is not in the frame *)
  | ValueError             (* an unparseable date, a length mismatch *)
  | TypeError              (* arithmetic or comparison on a non-number *)
  | ModelLimit.            (* behaviour of pandas outside this model *)

Inductive result (A : Type) :=
  | Ok (a : A)
  | Raise (e : exn).
Arguments Ok {A} a.
Arguments Raise {A} e.

#[global] Instance result_ret : MRet result := @Ok.
#[global] Instance result_bind : MBind result := fun A B f m =>
  match m with Ok a => f a | Raise e => Raise e end.
#[global] Instance result_fmap : FMap result := fun A B f m =>
  match m with Ok a => Ok (f a) | Raise e => Raise e end.

Definition is_na (c : cell) : bool :=
  match c with Num x => is_nan x | _ => false end.

(** Equality of keys as pandas' hashing sees it ([drop_duplicates]): numbers
    by value with NaN equal to NaN, text and timestamps by identity. *)
Definition cell_eqb (a b : cell) : bool :=
  match a, b with
  | Num x, Num y => (x =? y)%float || (is_nan x && is_nan y)
  | Str s, Str t => String.eqb s t
  | Date s, Date t => Z.eqb s t
  | _, _ => false
  end.

(** ** The library interface

    The parts of pandas and numpy whose implementation is not part of this
    program. *)
Class Lib := {
  (** the number a text denotes, for [pandas.to_numeric] *)
  parse_float : string -> option float;
  (** the timestamp a text denotes, for [pandas.to_datetime] *)
  parse_datetime : string -> option Z;
  (** [numpy.argsort] of integer keys with [kind='quicksort'], the default
      of [DataFrame.sort_values] *)
  argsort : list Z -> list nat;
  (** the sum of one group of a column, for [groupby(...).agg('sum')] *)
  group_sum : list float -> float
}.

(** ** Series: one column of cells *)

Abbreviation Series := (list cell).

Module Series.

Definition num1 {A} (f : float -> A) (a : cell) : result A :=
  match a with Num x => Ok (f x) | _ => Raise TypeError end.

Definition num2 (f : float -> float -> float) (ab : cell * cell) : result cell :=
  match ab with (Num x, Num y) => Ok (Num (f x y)) | _ => Raise TypeError end.

(** [s / t] *)
Definition truediv (s t : Series) : result Series :=
  mapM (num2 PrimFloat.div) (zip s t).

(** [s * k] for a scalar [k] *)
Definition mul (s : Series) (k : float) : result Series :=
  mapM (num1 (fun x => Num (x * k)%float)) s.

(** [s.round(2)] *)
Definition round2 (s : Series) : result Series :=
  mapM (num1 (fun x => Num (np_round2 x))) s.

(** [s > k] for a scalar [k] *)
Definition gt (s : Series) (k : float) : result (list bool) :=
  mapM (num1 (fun x => (k <? x)%float)) s.

End Series.

Module np.

(** [numpy.where(cond, s, other)] with a scalar [other] *)
Definition where_ (cond : list bool) (s : Series) (other : float) : Series :=
  zip_with (fun (b : bool) v => if b then v else Num other) cond s.

End np.

(** ** Text *)

(** [str.replace(a, t)]: every occurrence of the character [a] becomes [t]. *)
Fixpoint str_replace (a : Ascii.ascii) (t : string) (s : string) : string :=
match s with
| EmptyString => EmptyString
| String b s' =>
    if Ascii.eqb a b then (t +:+ str_replace a t s')%string
    else String b (str_replace a t s')
end.

(** ** Data frames *)

Record Row := mkRow { label : nat; cells : gmap string cell }.

Record DataFrame := mkDF { columns : list string; rows : list Row }.

(** The value of column [c] in a row; an absent cell is missing. *)
Definition cell_at (r : Row) (c : string) : cell :=
default (Num NaN) (cells r !! c).

Definition set_cell (c : string) (v : cell) (r : Row) : Row :=
mkRow (label r) (<[c := v]> (cells r)).

Definition has_column (df : DataFrame) (c : string) : bool :=
bool_decide (c ∈ columns df).

Definition add_column (cols : list string) (c : string) : list string :=
if bool_decide (c ∈ cols) then cols else cols ++ [c].

Module pd.
Section with_lib.
Context {L : Lib}.

Definition datetime_of (c : cell) : result cell :=
  match c with
  | Str s => match parse_datetime s with
             | Some t => Ok (Date t)
             | None => Raise ValueError
             end
  | Date t => Ok (Date t)
  | Num _ => Raise ModelLimit
  end.

(** [pandas.to_datetime(s)] with the default [errors='raise']. *)
Definition to_datetime (s : Series) : result Series := mapM datetime_of s.

Definition numeric_of (c : cell) : cell :=
  match c with
  | Num x => Num x
  | Str s => Num (default NaN (parse_float s))
  | Date _ => Num NaN
  end.

(** [pandas.to_numeric(s, errors='coerce')]. *)
Definition to_numeric (s : Series) : Series := map numeric_of s.

End with_lib.
End pd.

(** Rows picked by a boolean mask. *)
Fixpoint select {A} (mask : list bool) (l : list A) : list A :=
  match mask, l with
  | b :: mask', x :: l' => if b then x :: select mask' l' else select mask' l'
  | _, _ => []
  end.

(** The rows whose key was not seen before, in order ([keep='first']). *)
Fixpoint first_occurrences (c : string) (seen : list cell) (rs : list Row) : list Row :=
  match rs with
  | [] => []
  | r :: rs' =>
      if existsb (cell_eqb (cell_at r c)) seen then first_occurrences c seen rs'
      else r :: first_occurrences c (cell_at r c :: seen) rs'
  end.

(** A fresh [RangeIndex]: the rows are labelled 0, 1, 2, ... *)
Definition reindex (rs : list Row) : list Row :=
  imap (fun i r => mkRow i (cells r)) rs.

(** Insertion into an ascending list of distinct keys. *)
Fixpoint insert_sorted (k : Z) (l : list Z) : list Z :=
  match l with
  | [] => [k]
  | x :: l' =>
      if (k <? x)%Z then k :: l
      else if (k =? x)%Z then l
      else x :: insert_sorted k l'
  end.

(** The distinct keys in ascending order. *)
Definition sorted_unique (l : list Z) : list Z := foldr insert_sorted [] l.

(** The rows of one group: those whose key column holds the timestamp [k]. *)
Definition group (c : string) (k : Z) (rs : list Row) : list Row :=
  filter (fun r => cell_eqb (cell_at r c) (Date k)) rs.

(** [fillna(v)] on one cell. *)
Definition fill (v c : cell) : cell := if is_na c then v else c.

(** The columns besides the join key, and those of them both frames have. *)
Definition others (on : string) (cols : list string) : list string :=
  filter (fun c => c ≠ on) cols.

Definition shared (on : string) (lcols rcols : list string) : list string :=
  filter (fun c => c ∈ others on rcols) (others on lcols).

(** The name a shared column gets in the merged frame. *)
Definition suffixed (overlap : list string) (sfx c : string) : string :=
  if bool_decide (c ∈ overlap) then (c +:+ sfx)%string else c.

Module DataFrame.
Section with_lib.
Context {L : Lib}.

(** [df[c]] *)
Definition getitem (df : DataFrame) (c : string) : result Series :=
  if has_column df c then Ok (map (fun r => cell_at r c) (rows df))
  else Raise (KeyError c).

(** [df[c] = s] for a series of the frame's length *)
Definition setitem (df : DataFrame) (c : string) (s : Series) : result DataFrame :=
  if bool_decide (length s = length (rows df)) then
    Ok (mkDF (add_column (columns df) c)
             (zip_with (fun r v => set_cell c v r) (rows df) s))
  else Raise ValueError.

(** [df[c] = v] for a scalar, broadcast to every row *)
Definition setitem_scalar (df : DataFrame) (c : string) (v : cell) : DataFrame :=
  mkDF (add_column (columns df) c) (map (set_cell c v) (rows df)).

Definition rename_row (old new : list string) (r : Row) : Row :=
  mkRow (label r) (list_to_map (zip new (map (cell_at r) old))).

(** [df.columns = names], one new name per column; frames with repeated
    column names are outside the model. *)
Definition set_columns (df : DataFrame) (names : list string) : result DataFrame :=
  if bool_decide (length names = length (columns df)) then
    if bool_decide (NoDup names) then
      Ok (mkDF names (map (rename_row (columns df) names) (rows df)))
    else Raise ModelLimit
  else Raise ValueError.

Definition fillna_row (cols : list string) (v : cell) (r : Row) : Row :=
  mkRow (label r)
        (foldr (fun c m => <[c := fill v (cell_at r c)]> m) (cells r) cols).

(** [df.fillna(v)]: every missing cell of every column becomes [v]. *)
Definition fillna (df : DataFrame) (v : cell) : DataFrame :=
  mkDF (columns df) (map (fillna_row (columns df) v) (rows df)).

(** [df[mask]] for a boolean mask of the frame's length; labels are kept. *)
Definition getitem_mask (df : DataFrame) (mask : list bool) : result DataFrame :=
  if bool_decide (length mask = length (rows df)) then
    Ok (mkDF (columns df) (select mask (rows df)))
  else Raise ValueError.

(** [df.drop_duplicates(subset=[c])], with the default [keep='first']. *)
Definition drop_duplicates (df : DataFrame) (c : string) : result DataFrame :=
  if has_column df c then Ok (mkDF (columns df) (first_occurrences c [] (rows df)))
  else Raise (KeyError c).

(** [pandas.concat(dfs, ignore_index=True)]: the union of the columns, the
    rows of every frame in order, relabelled. *)
Definition concat (dfs : list DataFrame) : DataFrame :=
  mkDF (foldl (fun cols df => foldl add_column cols (columns df)) [] dfs)
       (reindex (mjoin (map rows dfs))).

Definition date_key (c : cell) : result Z :=
  match c with Date t => Ok t | _ => Raise ModelLimit end.

(** The key column as timestamps; other key types are outside the model. *)
Definition keys (df : DataFrame) (c : string) : result (list Z) :=
  s ← getitem df c; mapM date_key s.

(** [df.take(idx)]: the rows at the given positions. *)
Definition take (rs : list Row) (idx : list nat) : list Row :=
  omap (fun i => rs !! i) idx.

(** [df.sort_values(c)]: the rows in the order [argsort] gives for the
    keys; labels are kept. *)
Definition sort_values (df : DataFrame) (c : string) : result DataFrame :=
  ks ← keys df c;
  Ok (mkDF (columns df) (take (rows df) (argsort ks))).

Definition num_of (c : cell) : result float :=
  match c with Num x => Ok x | _ => Raise ModelLimit end.

Definition agg_sum (g : list Row) (c : string) : result cell :=
  xs ← mapM (fun r => num_of (cell_at r c)) g;
  Ok (Num (group_sum xs)).

Definition group_row (key : string) (cols : list string) (rs : list Row) (k : Z)
  : result (gmap string cell) :=
  vs ← mapM (agg_sum (group key k rs)) cols;
  Ok (list_to_map ((key, Date k) :: zip cols vs)).

(** [df.groupby(key).agg({c: 'sum' for c in cols}).reset_index()]: one row
    per distinct key, keys ascending, each listed column summed over the
    group. *)
Definition groupby_sum (df : DataFrame) (key : string) (cols : list string)
  : result DataFrame :=
  ks ← keys df key;
  _ ← mapM (getitem df) cols;
  rs ← mapM (group_row key cols (rows df)) (sorted_unique ks);
  Ok (mkDF (key :: cols) (imap mkRow rs)).

Definition side (o : option Row) (c : string) : cell :=
  match o with Some r => cell_at r c | None => Num NaN end.

Definition merged_row (on : string) (lcols rcols overlap : list string)
    (k : Z) (lo ro : option Row) : gmap string cell :=
  list_to_map ((on, Date k)
     :: map (fun c => (suffixed overlap "_x" c, side lo c)) lcols
     ++ map (fun c => (suffixed overlap "_y" c, side ro c)) rcols).

Definition merged_group (on : string) (lcols rcols overlap : list string)
    (lrows rrows : list Row) (k : Z) : list (gmap string cell) :=
  match group on k lrows, group on k rrows with
  | [], R => map (fun r => merged_row on lcols rcols overlap k None (Some r)) R
  | L, [] => map (fun l => merged_row on lcols rcols overlap k (Some l) None) L
  | L, R => l ← L; r ← R; [merged_row on lcols rcols overlap k (Some l) (Some r)]
  end.

(** [pandas.merge(left, right, on=on, how='outer')]: every key of either
    frame, keys ascending; a key of both frames yields every pairing of its
    rows; the columns of the absent side are missing. A column name the
    frames share besides the key gets the suffixes [_x] and [_y]. *)
Definition merge_outer (left right : DataFrame) (on : string) : result DataFrame :=
  lk ← keys left on;
  rk ← keys right on;
  let lcols := others on (columns left) in
  let rcols := others on (columns right) in
  let overlap := shared on (columns left) (columns right) in
  let names := on :: map (suffixed overlap "_x") lcols
                  ++ map (suffixed overlap "_y") rcols in
  if bool_decide (NoDup names) then
    Ok (mkDF (map (fun c => if bool_decide (c = on) then c
                            else suffixed overlap "_x" c) (columns left)
              ++ map (suffixed overlap "_y") rcols)
             (imap mkRow (mjoin (map (merged_group on lcols rcols overlap
                                        (rows left) (rows right))
                                     (sorted_unique (lk ++ rk))))))
  else Raise ModelLimit.

End with_lib.
End DataFrame.

(** ** The object store

    A Python variable that holds a data frame holds a reference to it. A
    computation takes the store and returns a value or a raised exception,
    and the store it leaves behind. *)

Abbreviation ref := nat.
Abbreviation heap := (list DataFrame).
Definition py (A : Type) : Type := heap -> result A * heap.

#[global] Instance py_ret : MRet py := fun A a h => (Ok a, h).
#[global] Instance py_bind : MBind py := fun A B f m h =>
  match m h with
  | (Ok a, h') => f a h'
  | (Raise e, h') => (Raise e, h')
  end.

(** A pure library call: its value, or its exception. *)
Definition lift {A} (r : result A) : py A := fun h => (r, h).

Definition alloc (df : DataFrame) : py ref := fun h => (Ok (length h), h ++ [df]).

Definition load (l : ref) : py DataFrame := fun h =>
  match h !! l with
  | Some df => (Ok df, h)
  | None => (Raise ModelLimit, h)
  end.

Definition store (l : ref) (df : DataFrame) : py unit := fun h =>
  (Ok tt, <[l := df]> h).

(** [for a in l: body(a)] *)
Definition for_ {A} (l : list A) (body : A -> py unit) : py unit :=
  foldr (fun a k => body a;; k) (mret tt) l.

(** The methods of a data frame object. *)
Module Obj.
Section with_lib.
Context {L : Lib}.

Definition copy (l : ref) : py ref :=
  df ← load l; alloc df.

Definition getitem (l : ref) (c : string) : py Series :=
  df ← load l; lift (DataFrame.getitem df c).

Definition setitem (l : ref) (c : string) (s : Series) : py unit :=
  df ← load l; df' ← lift (DataFrame.setitem df c s); store l df'.

Definition setitem_scalar (l : ref) (c : string) (v : cell) : py unit :=
  df ← load l; store l (DataFrame.setitem_scalar df c v).

Definition get_columns (l : ref) : py (list string) :=
  df ← load l; mret (columns df).

Definition set_columns (l : ref) (names : list string) : py unit :=
  df ← load l; df' ← lift (DataFrame.set_columns df names); store l df'.

Definition fillna (l : ref) (v : cell) : py ref :=
  df ← load l; alloc (DataFrame.fillna df v).

Definition getitem_mask (l : ref) (mask : list bool) : py ref :=
  df ← load l; df' ← lift (DataFrame.getitem_mask df mask); alloc df'.

Definition drop_duplicates (l : ref) (c : string) : py ref :=
  df ← load l; df' ← lift (DataFrame.drop_duplicates df c); alloc df'.

Definition concat (ls : list ref) : py ref :=
  dfs ← mapM load ls; alloc (DataFrame.concat dfs).

Definition sort_values (l : ref) (c : string) : py ref :=
  df ← load l; df' ← lift (DataFrame.sort_values df c); alloc df'.

Definition groupby_sum (l : ref) (key : string) (cols : list string) : py ref :=
  df ← load l; df' ← lift (DataFrame.groupby_sum df key cols); alloc df'.

Definition merge_outer (left right : ref) (on : string) : py ref :=
  a ← load left; b ← load right;
  df' ← lift (DataFrame.merge_outer a b on); alloc df'.

End with_lib.
End Obj.

(** ** The program: [src/utils/data_prep.py] *)

Section program.
Context {L : Lib}.

(** [for col in numeric_columns: if col in cleaned_df.columns:
      cleaned_df[col] = pd.to_numeric(cleaned_df[col], errors='coerce')] *)
Definition coerce_numeric (cleaned_df : ref) (numeric_columns : list string) : py unit :=
  for_ numeric_columns (fun col =>
    cols ← Obj.get_columns cleaned_df;
    if bool_decide (col ∈ cols) then
      s ← Obj.getitem cleaned_df col;
      Obj.setitem cleaned_df col (pd.to_numeric s)
    else mret tt).

Definition normalize_name (c : string) : string :=
  str_replace " "%char "_" (str_replace "#"%char "num" c).

(** [(df[num] / df[den] * scale).round(2)], or without [* scale]. *)
Definition ratio (df : ref) (num den : string) (scale : option float) : py Series :=
  a ← Obj.getitem df num;
  b ← Obj.getitem df den;
  q ← lift (Series.truediv a b);
  q ← lift (match scale with Some k => Series.mul q k | None => Ok q end);
  lift (Series.round2 q).

(** [df[c] > 0] *)
Definition positive (df : ref) (c : string) : py (list bool) :=
  g ← Obj.getitem df c;
  lift (Series.gt g 0).

Definition clean_business_data (df : ref) : py ref :=
  (* Make a copy to avoid modifying original *)
  cleaned_df ← Obj.copy df;
  (* Convert date column *)
  d ← Obj.getitem cleaned_df "date";
  d ← lift (pd.to_datetime d);
  Obj.setitem cleaned_df "date" d;;
  (* Clean column names - remove special characters and spaces *)
  cols ← Obj.get_columns cleaned_df;
  Obj.set_columns cleaned_df (map normalize_name cols);;
  (* Convert numeric columns *)
  coerce_numeric cleaned_df ["total_revenue"; "gross_profit"; "COGS"];;
  (* Handle missing values *)
  cleaned_df ← Obj.fillna cleaned_df (Num 0);
  (* Calculate additional metrics *)
  profit_margin ← ratio cleaned_df "gross_profit" "total_revenue" (Some 100%float);
  Obj.setitem cleaned_df "profit_margin" profit_margin;;
  avg_order_value ← ratio cleaned_df "total_revenue" "num_of_orders" None;
  Obj.setitem cleaned_df "avg_order_value" avg_order_value;;
  (* Remove any duplicate dates *)
  cleaned_df ← Obj.drop_duplicates cleaned_df "date";
  mret cleaned_df.

(** [np.where(df[guard] > 0, (df[num] / df[den] * scale).round(2), 0)];
    the arguments are evaluated in this order, each on the whole column. *)
Definition guarded_ratio (df : ref) (guard num den : string) (scale : option float)
  : py Series :=
  cond ← positive df guard;
  q ← ratio df num den scale;
  mret (np.where_ cond q 0).

Definition clean_marketing_data (df : ref) (platform_name : string) : py ref :=
  (* Make a copy to avoid modifying original *)
  cleaned_df ← Obj.copy df;
  (* Convert date column *)
  d ← Obj.getitem cleaned_df "date";
  d ← lift (pd.to_datetime d);
  Obj.setitem cleaned_df "date" d;;
  (* Add platform identifier *)
  Obj.setitem_scalar cleaned_df "platform" (Str platform_name);;
  (* Convert numeric columns *)
  coerce_numeric cleaned_df ["impression"; "clicks"; "spend"; "attributed revenue"];;
  (* Handle missing values *)
  cleaned_df ← Obj.fillna cleaned_df (Num 0);
  (* Calculate derived metrics *)
  ctr ← guarded_ratio cleaned_df "impression" "clicks" "impression" (Some 100%float);
  Obj.setitem cleaned_df "ctr" ctr;;
  cpc ← guarded_ratio cleaned_df "clicks" "spend" "clicks" None;
  Obj.setitem cleaned_df "cpc" cpc;;
  roas ← guarded_ratio cleaned_df "spend" "attributed revenue" "spend" None;
  Obj.setitem cleaned_df "roas" roas;;
  cpm ← guarded_ratio cleaned_df "impression" "spend" "impression" (Some 1000%float);
  Obj.setitem cleaned_df "cpm" cpm;;
  (* Remove rows with zero impressions (likely invalid data) *)
  mask ← positive cleaned_df "impression";
  cleaned_df ← Obj.getitem_mask cleaned_df mask;
  mret cleaned_df.

Definition combine_marketing_data (facebook_df google_df tiktok_df : ref) : py ref :=
  (* Clean each platform's data *)
  facebook_clean ← clean_marketing_data facebook_df "Facebook";
  google_clean ← clean_marketing_data google_df "Google";
  tiktok_clean ← clean_marketing_data tiktok_df "TikTok";
  (* Combine all platforms *)
  combined_df ← Obj.concat [facebook_clean; google_clean; tiktok_clean];
  (* Sort by date *)
  combined_df ← Obj.sort_values combined_df "date";
  mret combined_df.

Definition create_unified_dataset (business_df marketing_df : ref) : py ref :=
  (* Aggregate marketing data by date *)
  daily_marketing ← Obj.groupby_sum marketing_df "date"
                      ["spend"; "attributed revenue"; "clicks"; "impression"];
  (* Calculate daily marketing metrics *)
  daily_roas ← guarded_ratio daily_marketing "spend" "attributed revenue" "spend" None;
  Obj.setitem daily_marketing "daily_roas" daily_roas;;
  daily_ctr ← guarded_ratio daily_marketing "impression" "clicks" "impression"
                 (Some 100%float);
  Obj.setitem daily_marketing "daily_ctr" daily_ctr;;
  (* Merge with business data *)
  unified_df ← Obj.merge_outer business_df daily_marketing "date";
  (* Fill missing values *)
  unified_df ← Obj.fillna unified_df (Num 0);
  (* Calculate correlation metrics *)
  marketing_efficiency ← guarded_ratio unified_df "spend" "total_revenue" "spend" None;
  Obj.setitem unified_df "marketing_efficiency" marketing_efficiency;;
  mret unified_df.

(** The whole run, in the order the stages are specified: clean the
    business table, clean and combine the three platform tables, unify. *)
Definition run_pipeline (business facebook google tiktok : ref) : py ref :=
  business_clean ← clean_business_data business;
  marketing ← combine_marketing_data facebook google tiktok;
  create_unified_dataset business_clean marketing.

End program.

(** ** A reference instance of the library

    Used to run the program on concrete tables: ISO dates ([YYYY-MM-DD])
    numbered so that the numbers order the dates, unsigned decimal
    integers, a stable argsort (positions ordered by key, ties by
    position) and a left-to-right sum. *)

Module RefLib.

Definition digit (a : ascii) : option Z :=
  let n := nat_of_ascii a in
  if (48 <=? n) && (n <=? 57) then Some (Z.of_nat (n - 48)) else None.

Fixpoint digits (acc : Z) (s : string) : option Z :=
  match s with
  | EmptyString => Some acc
  | String a s' => d ← digit a; digits (10 * acc + d)%Z s'
  end.

Definition iso_date (s : string) : option Z :=
  if bool_decide (String.length s = 10) then
    y ← digits 0 (substring 0 4 s);
    m ← digits 0 (substring 5 2 s);
    d ← digits 0 (substring 8 2 s);
    if String.eqb (substring 4 1 s) "-" && String.eqb (substring 7 1 s) "-"
       && (1 <=? m)%Z && (m <=? 12)%Z && (1 <=? d)%Z && (d <=? 31)%Z
    then Some (y * 10000 + m * 100 + d)%Z else None
  else None.

Definition unsigned (s : string) : option float :=
  match s with
  | EmptyString => None
  | _ => z ← digits 0 s; Some (of_uint63 (Uint63.of_Z z))
  end.

(** Keys with their positions, ordered by key and then by position. *)
Definition lex_le (a b : Z * nat) : Prop :=
  (a.1 < b.1)%Z ∨ (a.1 = b.1 ∧ a.2 ≤ b.2).

#[global] Instance lex_le_dec a b : Decision (lex_le a b).
Proof. unfold lex_le. apply _. Defined.

Definition stable_argsort (ks : list Z) : list nat :=
  (merge_sort lex_le (zip ks (seq 0 (length ks)))).*2.

Definition sum (xs : list float) : float := foldl PrimFloat.add 0%float xs.

#[global] Instance lib : Lib := {|
  parse_float := unsigned;
  parse_datetime := iso_date;
  argsort := stable_argsort;
  group_sum := sum
|}.

End RefLib.

(** ** The sort that [sort_values] runs

    [sort_values('date')] has [kind='quicksort'], so pandas sorts the
    timestamps with numpy's [argsort] of that kind. For a [datetime64]
    column this is [aquicksort_] of numpy's [npysort/quicksort.cpp], an
    introsort on the array of positions: while a range spans more than
    [SMALL_QUICKSORT] positions it is partitioned around the median of its
    first, middle and last key; a shorter range is sorted by insertion; a
    range is heap-sorted when the depth budget of twice the binary
    logarithm of the length is spent. The code is numpy's, not the
    repository's; it is written out here because the order of equal keys
    is decided in it. Every loop of the C code is a recursion on a bound
    the loop cannot exceed. *)

Module npysort.

Definition SMALL_QUICKSORT : Z := 16.

Section with_keys.
Variable v : list Z.

(** [v[i]] and [Tag::less]. *)
Definition key (i : nat) : Z := default 0%Z (v !! i).
Definition less (x y : Z) : bool := (x <? y)%Z.

(** [*p] and [*p = i], for a position [p] of the array [tosort]. *)
Definition get (a : list nat) (p : Z) : nat := default 0 (a !! Z.to_nat p).
Definition put (a : list nat) (p : Z) (i : nat) : list nat := <[Z.to_nat p := i]> a.

(** [INTP_SWAP( *p, *q)] *)
Definition swap (a : list nat) (p q : Z) : list nat :=
  let tmp := get a q in put (put a q (get a p)) p tmp.

(** [if (Tag::less(v[*p], v[*q])) INTP_SWAP( *p, *q);] *)
Definition swap_if_less (a : list nat) (p q : Z) : list nat :=
  if less (key (get a p)) (key (get a q)) then swap a p q else a.

(** [do { ++pi; } while (Tag::less(v[*pi], vp));] *)
Fixpoint scan_up (fuel : nat) (a : list nat) (vp : Z) (pi : Z) : Z :=
  let pi := (pi + 1)%Z in
  match fuel with
  | 0 => pi
  | S fuel => if less (key (get a pi)) vp then scan_up fuel a vp pi else pi
  end.

(** [do { --pj; } while (Tag::less(vp, v[*pj]));] *)
Fixpoint scan_down (fuel : nat) (a : list nat) (vp : Z) (pj : Z) : Z :=
  let pj := (pj - 1)%Z in
  match fuel with
  | 0 => pj
  | S fuel => if less vp (key (get a pj)) then scan_down fuel a vp pj else pj
  end.

(** [for (;;) { scan up; scan down; if (pi >= pj) break;
               INTP_SWAP( *pi, *pj); }] *)
Fixpoint partition (fuel : nat) (a : list nat) (vp : Z) (pi pj : Z) : list nat * Z :=
  let pi := scan_up (length a) a vp pi in
  let pj := scan_down (length a) a vp pj in
  if (pj <=? pi)%Z then (a, pi)
  else match fuel with
       | 0 => (a, pi)
       | S fuel => partition fuel (swap a pi pj) vp pi pj
       end.

(** A range put aside on the stack, with the depth budget left for it. *)
Definition range : Type := Z * Z * Z.

(** [while ((pr - pl) > SMALL_QUICKSORT) { ... }]: the pivot is the median
    of three, parked at [pr - 1] during the partition; the larger part goes
    on the stack and the smaller one is split further. *)
Fixpoint split (fuel : nat) (a : list nat) (pl pr : Z) (stack : list range) (cdepth : Z)
  : list nat * Z * Z * list range :=
  match fuel with
  | 0 => (a, pl, pr, stack)
  | S fuel =>
      if (SMALL_QUICKSORT <? pr - pl)%Z then
        let pm := (pl + Z.shiftr (pr - pl) 1)%Z in
        let a := swap_if_less a pm pl in
        let a := swap_if_less a pr pm in
        let a := swap_if_less a pm pl in
        let vp := key (get a pm) in
        let a := swap a pm (pr - 1) in
        let '(a, pi) := partition (length a) a vp pl (pr - 1) in
        let a := swap a pi (pr - 1) in
        let cdepth := (cdepth - 1)%Z in
        if (pi - pl <? pr - pi)%Z
        then split fuel a pl (pi - 1)%Z ((pi + 1, pr, cdepth)%Z :: stack) cdepth
        else split fuel a (pi + 1)%Z pr ((pl, pi - 1, cdepth)%Z :: stack) cdepth
      else (a, pl, pr, stack)
  end.

(** [while (pj > pl && Tag::less(vp, v[*pk])) { *pj-- = *pk--; }], with
    [pk = pj - 1] throughout. *)
Fixpoint shift (fuel : nat) (a : list nat) (vp : Z) (pl pj : Z) : list nat * Z :=
  match fuel with
  | 0 => (a, pj)
  | S fuel =>
      if (pl <? pj)%Z && less vp (key (get a (pj - 1)))
      then shift fuel (put a pj (get a (pj - 1))) vp pl (pj - 1)%Z
      else (a, pj)
  end.

(** [vi = *pi; vp = v[vi]; pj = pi; pk = pi - 1; while ...; *pj = vi;] *)
Definition place (a : list nat) (pl pi : Z) : list nat :=
  let vi := get a pi in
  let '(a, pj) := shift (length a) a (key vi) pl pi in
  put a pj vi.

(** [for (pi = pl + 1; pi <= pr; ++pi) { ... }] *)
Fixpoint insertion_from (fuel : nat) (a : list nat) (pl pi pr : Z) : list nat :=
  match fuel with
  | 0 => a
  | S fuel => if (pi <=? pr)%Z then insertion_from fuel (place a pl pi) pl (pi + 1)%Z pr
              else a
  end.

Definition insertion (a : list nat) (pl pr : Z) : list nat :=
  insertion_from (length a) a pl (pl + 1)%Z pr.

(** [aheapsort_], on the [n] positions from [pl]; the heap is indexed from
    1, which is position [base + 1].
    [for (i = ..., j = ...; j <= n;) { if (j < n && less(v[a[j]], v[a[j+1]]))
       j += 1; if (less(v[tmp], v[a[j]])) { a[i] = a[j]; i = j; j += j; }
       else break; }] *)
Fixpoint sift (fuel : nat) (a : list nat) (base n : Z) (tmp : nat) (i j : Z)
  : list nat * Z :=
  match fuel with
  | 0 => (a, i)
  | S fuel =>
      if (j <=? n)%Z then
        let j := if (j <? n)%Z
                    && less (key (get a (base + j))) (key (get a (base + j + 1)))
                 then (j + 1)%Z else j in
        if less (key tmp) (key (get a (base + j)))
        then sift fuel (put a (base + i) (get a (base + j))) base n tmp j (j + j)%Z
        else (a, i)
      else (a, i)
  end.

Definition sift_down (a : list nat) (base n : Z) (tmp : nat) (i j : Z) : list nat :=
  let '(a, i) := sift (length a) a base n tmp i j in put a (base + i) tmp.

(** [for (l = n >> 1; l > 0; --l) { tmp = a[l]; sift from l; a[i] = tmp; }] *)
Fixpoint build (fuel : nat) (a : list nat) (base n l : Z) : list nat :=
  match fuel with
  | 0 => a
  | S fuel =>
      if (0 <? l)%Z
      then build fuel (sift_down a base n (get a (base + l)) l (Z.shiftl l 1))
                 base n (l - 1)%Z
      else a
  end.

(** [for (; n > 1;) { tmp = a[n]; a[n] = a[1]; n -= 1; sift from 1;
                     a[i] = tmp; }] *)
Fixpoint drain (fuel : nat) (a : list nat) (base n : Z) : list nat :=
  match fuel with
  | 0 => a
  | S fuel =>
      if (1 <? n)%Z then
        let tmp := get a (base + n) in
        let a := put a (base + n) (get a (base + 1)) in
        let n := (n - 1)%Z in
        drain fuel (sift_down a base n tmp 1 2) base n
      else a
  end.

Definition aheapsort (a : list nat) (pl n : Z) : list nat :=
  let base := (pl - 1)%Z in
  drain (length a) (build (length a) a base n (Z.shiftr n 1)) base n.

(** [while (1) { if (cdepth < 0) { heapsort the range; goto stack_pop; }
                 split; insertion sort;
                 stack_pop: if (sptr == stack) break; pop; }] *)
Fixpoint run (fuel : nat) (a : list nat) (pl pr : Z) (stack : list range) (cdepth : Z)
  : list nat :=
  match fuel with
  | 0 => a
  | S fuel =>
      let '(a, stack) :=
        if (cdepth <? 0)%Z then (aheapsort a pl (pr - pl + 1), stack)
        else let '(a, pl, pr, stack) := split (length a) a pl pr stack cdepth in
             (insertion a pl pr, stack) in
      match stack with
      | [] => a
      | (pl, pr, cdepth) :: stack => run fuel a pl pr stack cdepth
      end
  end.

(** [argsort] starts from the positions in order; the depth budget is
    [npy_get_msb(num) * 2]. *)
Definition aquicksort : list nat :=
  let num := Z.of_nat (length v) in
  run (S (length v)) (seq 0 (length v)) 0 (num - 1) [] (2 * Z.log2 num).

End with_keys.
End npysort.

(** The reference library with numpy's quicksort as its argsort. *)
Module QuicksortLib.

Definition lib : Lib := {|
  parse_float := RefLib.unsigned;
  parse_datetime := RefLib.iso_date;
  argsort := npysort.aquicksort;
  group_sum := RefLib.sum
|}.

End QuicksortLib.

(** ** Example tables *)

Definition row_of (i : nat) (l : list (string * cell)) : Row := mkRow i (list_to_map l).

(** The business record and the ad record of the specification's scenario. *)
Definition business_2024 : DataFrame :=
  mkDF ["date"; "total_revenue"; "gross_profit"; "num_of_orders"]
       [row_of 0 [("date", Str "2024-01-01"); ("total_revenue", Num 1000);
                  ("gross_profit", Num 400); ("num_of_orders", Num 10)]].

Definition ads_2024 : DataFrame :=
  mkDF ["date"; "impression"; "clicks"; "spend"; "attributed revenue"]
       [row_of 0 [("date", Str "2024-01-01"); ("impression", Num 2000);
                  ("clicks", Num 40); ("spend", Num 100);
                  ("attributed revenue", Num 150)]].

(** The business record under the column names of the source file. *)
Definition business_2024_raw : DataFrame :=
  mkDF ["date"; "total revenue"; "gross profit"; "# of orders"]
       [row_of 0 [("date", Str "2024-01-01"); ("total revenue", Num 1000);
                  ("gross profit", Num 400); ("# of orders", Num 10)]].

(** A platform without records. *)
Definition no_ads : DataFrame :=
  mkDF ["date"; "impression"; "clicks"; "spend"; "attributed revenue"] [].

(** ** The functional model

    What each function computes from the frames its arguments refer to:
    the same library calls in the same order, on values. The store and the
    in-place updates are gone; that the program computes exactly this is
    proved below ([refines]). *)

Section model.
Context {L : Lib}.

Definition coerce_step (df : DataFrame) (col : string) : result DataFrame :=
  if bool_decide (col ∈ columns df) then
    s ← DataFrame.getitem df col;
    DataFrame.setitem df col (pd.to_numeric s)
  else Ok df.

Fixpoint coerce_numeric_frame (df : DataFrame) (numeric_columns : list string)
  : result DataFrame :=
  match numeric_columns with
  | [] => Ok df
  | col :: rest => df' ← coerce_step df col; coerce_numeric_frame df' rest
  end.

Definition ratio_series (df : DataFrame) (num den : string) (scale : option float)
  : result Series :=
  a ← DataFrame.getitem df num;
  b ← DataFrame.getitem df den;
  q ← Series.truediv a b;
  q ← match scale with Some k => Series.mul q k | None => Ok q end;
  Series.round2 q.

Definition positive_series (df : DataFrame) (c : string) : result (list bool) :=
  g ← DataFrame.getitem df c;
  Series.gt g 0.

Definition guarded_ratio_series (df : DataFrame) (guard num den : string)
    (scale : option float) : result Series :=
  cond ← positive_series df guard;
  q ← ratio_series df num den scale;
  Ok (np.where_ cond q 0).

(** [df[c] = f(df)] *)
Definition assign (df : DataFrame) (c : string) (f : DataFrame -> result Series)
  : result DataFrame :=
  s ← f df; DataFrame.setitem df c s.

Definition clean_business_frame (df : DataFrame) : result DataFrame :=
  df ← assign df "date" (fun df => d ← DataFrame.getitem df "date"; pd.to_datetime d);
  df ← DataFrame.set_columns df (map normalize_name (columns df));
  df ← coerce_numeric_frame df ["total_revenue"; "gross_profit"; "COGS"];
  let df := DataFrame.fillna df (Num 0) in
  df ← assign df "profit_margin" (fun df =>
          ratio_series df "gross_profit" "total_revenue" (Some 100%float));
  df ← assign df "avg_order_value" (fun df =>
          ratio_series df "total_revenue" "num_of_orders" None);
  DataFrame.drop_duplicates df "date".

(** The frame [clean_marketing_data] holds before its last line. *)
Definition derive_marketing_frame (df : DataFrame) (platform_name : string)
  : result DataFrame :=
  df ← assign df "date" (fun df => d ← DataFrame.getitem df "date"; pd.to_datetime d);
  let df := DataFrame.setitem_scalar df "platform" (Str platform_name) in
  df ← coerce_numeric_frame df ["impression"; "clicks"; "spend"; "attributed revenue"];
  let df := DataFrame.fillna df (Num 0) in
  df ← assign df "ctr" (fun df =>
          guarded_ratio_series df "impression" "clicks" "impression" (Some 100%float));
  df ← assign df "cpc" (fun df =>
          guarded_ratio_series df "clicks" "spend" "clicks" None);
  df ← assign df "roas" (fun df =>
          guarded_ratio_series df "spend" "attributed revenue" "spend" None);
  assign df "cpm" (fun df =>
          guarded_ratio_series df "impression" "spend" "impression" (Some 1000%float)).

Definition clean_marketing_frame (df : DataFrame) (platform_name : string)
  : result DataFrame :=
  df ← derive_marketing_frame df platform_name;
  mask ← positive_series df "impression";
  DataFrame.getitem_mask df mask.

Definition combine_marketing_frames (facebook_df google_df tiktok_df : DataFrame)
  : result DataFrame :=
  facebook_clean ← clean_marketing_frame facebook_df "Facebook";
  google_clean ← clean_marketing_frame google_df "Google";
  tiktok_clean ← clean_marketing_frame tiktok_df "TikTok";
  DataFrame.sort_values
    (DataFrame.concat [facebook_clean; google_clean; tiktok_clean]) "date".

(** The daily-aggregated ad table, with its two derived columns. *)
Definition daily_marketing_frame (marketing_df : DataFrame) : result DataFrame :=
  df ← DataFrame.groupby_sum marketing_df "date"
         ["spend"; "attributed revenue"; "clicks"; "impression"];
  df ← assign df "daily_roas" (fun df =>
          guarded_ratio_series df "spend" "attributed revenue" "spend" None);
  assign df "daily_ctr" (fun df =>
          guarded_ratio_series df "impression" "clicks" "impression" (Some 100%float)).

Definition create_unified_frame (business_df marketing_df : DataFrame)
  : result DataFrame :=
  daily_marketing ← daily_marketing_frame marketing_df;
  df ← DataFrame.merge_outer business_df daily_marketing "date";
  let df := DataFrame.fillna df (Num 0) in
  assign df "marketing_efficiency" (fun df =>
          guarded_ratio_series df "spend" "total_revenue" "spend" None).


End model.

(** What a run of [m] from the store [h] leaves: the store extended by the
    frames [ext] it allocated, and a reference to the last of them, or the
    exception of [v]. *)
Definition outcome (h : heap) (ext : list DataFrame) (v : result DataFrame)
  : result ref * heap :=
  (match v with Ok _ => Ok (length h + length ext - 1) | Raise e => Raise e end,
   h ++ ext).

(** [m] run from [h] computes [v]: it leaves [h] as it was, allocates
    beyond it, and returns a reference to the frame [v], or raises as [v]
    does. *)
Definition refines (m : py ref) (h : heap) (v : result DataFrame) : Prop :=
  ∃ ext, m h = outcome h ext v ∧ ∀ out, v = Ok out -> last ext = Some out.

(** The store of the scenario: the business table, the Facebook table,
    and no Google or TikTok records. *)
Definition st_2024 : heap := [business_2024; ads_2024; no_ads; no_ads].

(** A column of the frame a run returned, or the exception it raised. *)
Definition column_of (x : result ref * heap) (c : string) : result Series :=
  match x with
  | (Ok l, st) => match st !! l with
                  | Some d => Ok (map (fun r => cell_at r c) (rows d))
                  | None => Raise ModelLimit
                  end
  | (Raise e, _) => Raise e
  end.

(** A day without revenue and without orders. *)
Definition business_idle_day : DataFrame :=
  mkDF ["date"; "total_revenue"; "gross_profit"; "num_of_orders"]
       [row_of 0 [("date", Str "2024-01-02"); ("total_revenue", Num 0);
                  ("gross_profit", Num 400); ("num_of_orders", Num 0)]].

(** A second record whose date is not a date. *)
Definition ads_bad_date : DataFrame :=
  mkDF ["date"; "impression"; "clicks"; "spend"; "attributed revenue"]
       [row_of 0 [("date", Str "2024-01-01"); ("impression", Num 2000);
                  ("clicks", Num 40); ("spend", Num 100);
                  ("attributed revenue", Num 150)];
        row_of 1 [("date", Str "not-a-date"); ("impression", Num 500);
                  ("clicks", Num 5); ("spend", Num 10);
                  ("attributed revenue", Num 20)]].


(** A table without one of its columns. *)
Definition without_column (c : string) (df : DataFrame) : DataFrame :=
  mkDF (filter (fun c' => c' ≠ c) (columns df))
       (map (fun r => mkRow (label r) (delete c (cells r))) (rows df)).

(** ** Predicates used in the statements *)

(** A row and its image hold the same label and the same cell in [c]. *)
Definition keeps (c : string) (r r' : Row) : Prop :=
  label r' = label r ∧ cell_at r' c = cell_at r c.

Definition is_date (c : cell) : Prop := ∃ t, c = Date t.

(** The date of a record as the cleaners read it: the timestamp its date
    cell denotes, or the exception [pandas.to_datetime] raises on it. *)
Definition date_of {L : Lib} (r : Row) : result cell := pd.datetime_of (cell_at r "date").

(** [m] run from the store [st] returns a reference to the frame [d]. *)
Definition returns (m : py ref) (st : heap) (d : DataFrame) : Prop :=
  ∃ l st', m st = (Ok l, st') ∧ st' !! l = Some d.

(** What any sorting routine guarantees of [argsort]: the positions of the
    keys, each once, in an order in which the keys ascend. *)
Definition argsort_sorts (L : Lib) : Prop :=
  ∀ ks, argsort ks ≡ₚ seq 0 (length ks)
        ∧ Sorted Z.le (omap (fun i => ks !! i) (argsort ks)).

(** A stable routine also lists positions that hold equal keys in
    ascending order. *)
Definition argsort_stable (L : Lib) : Prop :=
  ∀ ks i j a b, i < j -> argsort ks !! i = Some a -> argsort ks !! j = Some b ->
                ks !! a = ks !! b -> a < b.

(** The dates a frame holds. *)
Definition dates (df : DataFrame) : list cell := (fun r => cell_at r "date") <$> rows df.

(** The columns of the daily-aggregated ad table besides the date. *)
Definition ad_columns : list string :=
  ["spend"; "attributed revenue"; "clicks"; "impression"; "daily_roas"; "daily_ctr"].

(** ** More example tables *)

(** An ad table whose first record has no impressions. *)
Definition ads_idle_campaign : DataFrame :=
  mkDF ["date"; "impression"; "clicks"; "spend"; "attributed revenue"]
       [row_of 0 [("date", Str "2024-01-01"); ("impression", Num 0);
                  ("clicks", Num 7); ("spend", Num 30);
                  ("attributed revenue", Num 90)];
        row_of 1 [("date", Str "2024-01-01"); ("impression", Num 2000);
                  ("clicks", Num 40); ("spend", Num 100);
                  ("attributed revenue", Num 150)]].

(** Two ad records of one date, told apart by their clicks. *)
Definition ads_same_day : DataFrame :=
  mkDF ["date"; "impression"; "clicks"; "spend"; "attributed revenue"]
       [row_of 0 [("date", Str "2024-01-01"); ("impression", Num 2000);
                  ("clicks", Num 40); ("spend", Num 100);
                  ("attributed revenue", Num 150)];
        row_of 1 [("date", Str "2024-01-01"); ("impression", Num 3000);
                  ("clicks", Num 41); ("spend", Num 120);
                  ("attributed revenue", Num 160)]].

(** Business records with a repeated date. *)
Definition business_repeated_date : DataFrame :=
  mkDF ["date"; "total_revenue"; "gross_profit"; "num_of_orders"]
       [row_of 0 [("date", Str "2024-01-01"); ("total_revenue", Num 1000);
                  ("gross_profit", Num 400); ("num_of_orders", Num 10)];
        row_of 1 [("date", Str "2024-01-01"); ("total_revenue", Num 2000);
                  ("gross_profit", Num 500); ("num_of_orders", Num 20)];
        row_of 2 [("date", Str "2024-01-02"); ("total_revenue", Num 3000);
                  ("gross_profit", Num 600); ("num_of_orders", Num 30)]].

(** A cleaned business table and a combined ad table that share one date
    and hold one date each that the other lacks. *)
Definition business_two_days : DataFrame :=
  mkDF ["date"; "total_revenue"]
       [row_of 0 [("date", Date 20240101); ("total_revenue", Num 1000)];
        row_of 1 [("date", Date 20240102); ("total_revenue", Num 3000)]].

Definition ads_two_days : DataFrame :=
  mkDF ["date"; "spend"; "attributed revenue"; "clicks"; "impression"]
       [row_of 0 [("date", Date 20240101); ("spend", Num 100);
                  ("attributed revenue", Num 150); ("clicks", Num 40);
                  ("impression", Num 2000)];
        row_of 1 [("date", Date 20240103); ("spend", Num 50);
                  ("attributed revenue", Num 60); ("clicks", Num 10);
                  ("impression", Num 700)]].

(** Ad records out of date order. *)
Definition ads_three_days : DataFrame :=
  mkDF ["date"; "impression"; "clicks"; "spend"; "attributed revenue"]
       [row_of 0 [("date", Str "2024-01-03"); ("impression", Num 700);
                  ("clicks", Num 10); ("spend", Num 50);
                  ("attributed revenue", Num 60)];
        row_of 1 [("date", Str "2024-01-01"); ("impression", Num 2000);
                  ("clicks", Num 39); ("spend", Num 100);
                  ("attributed revenue", Num 150)];
        row_of 2 [("date", Str "2024-01-02"); ("impression", Num 900);
                  ("clicks", Num 12); ("spend", Num 70);
                  ("attributed revenue", Num 80)]].

(** The ad records of one day, one per campaign, told apart by their
    clicks. *)
Definition campaigns (day : string) (clicks : list Z) : DataFrame :=
  mkDF ["date"; "impression"; "clicks"; "spend"; "attributed revenue"]
       (imap (fun i k => row_of i [("date", Str day); ("impression", Num 1000);
                                   ("clicks", Num (of_uint63 (Uint63.of_Z k)));
                                   ("spend", Num 100);
                                   ("attributed revenue", Num 150)])
             clicks).


(** ** Definitions for the further properties *)

(** The quotient as the ratio scales it: [q * k], or [q]. *)
Definition scaled (scale : option float) (q : float) : float :=
  match scale with Some k => (q * k)%float | None => q end.

(** The columns [clean_marketing_data] coerces, and those it derives. *)
Definition marketing_numeric : list string :=
  ["impression"; "clicks"; "spend"; "attributed revenue"].

Definition marketing_metrics : list string := ["ctr"; "cpc"; "roas"; "cpm"].

(** A record survives [clean_marketing_data] when its impression count,
    coerced to a number with a missing value read as 0, is positive. *)
Definition has_impressions {L : Lib} (r : Row) : bool :=
  match fill (Num 0) (pd.numeric_of (cell_at r "impression")) with
  | Num x => (0 <? x)%float
  | _ => false
  end.

(** Every cell of column [c] is a number (possibly the missing one). *)
Definition numeric_in (df : DataFrame) (c : string) : Prop :=
  Forall (fun r => ∃ x, cell_at r c = Num x) (rows df).

(** The columns [clean_business_data] coerces, those it derives and those
    the derivation reads. *)
Definition business_numeric : list string := ["total_revenue"; "gross_profit"; "COGS"].

Definition business_metrics : list string := ["profit_margin"; "avg_order_value"].

Definition business_inputs : list string :=
  ["gross_profit"; "total_revenue"; "num_of_orders"].

(** Whether the character [a] occurs in [s]. *)
Fixpoint occurs (a : Ascii.ascii) (s : string) : bool :=
  match s with
  | EmptyString => false
  | String b s' => Ascii.eqb a b || occurs a s'
  end.

(** The platform names [combine_marketing_data] tags the records with. *)
Definition platforms : list string := ["Facebook"; "Google"; "TikTok"].

(** The numbers column [c] holds in the rows [rs]. *)
Definition numbers (c : string) (rs : list Row) : list float :=
  omap (fun r => match cell_at r c with Num x => Some x | _ => None end) rs.

(** The sum of column [c] over the records of the day [k]. *)
Definition day_sum {L : Lib} (df : DataFrame) (c : string) (k : Z) : float :=
  group_sum (numbers c (group "date" k (rows df))).

(** The columns [create_unified_dataset] sums. *)
Definition summed : list string := ["spend"; "attributed revenue"; "clicks"; "impression"].

(** ** Fetching a table: [fetch_data_from_url]

    The network and the standard output are outside the program. A call
    into [requests] or [pandas] answers with a value or raises an
    [Exception], of which the program reads [str(e)] only. *)

Module fetch.

Inductive answer (A : Type) :=
  | Returned (a : A)
  | Raised (message : string).
Arguments Returned {A} a.
Arguments Raised {A} message.

Class Net := {
  world : Type;
  (** [requests.get(url)]: the status code of the response *)
  requests_get : string -> world -> answer nat * world;
  (** [pandas.read_csv(url)] *)
  read_csv : string -> world -> answer DataFrame * world;
  (** the text of the [HTTPError] that [raise_for_status] raises *)
  http_error_text : nat -> string -> string
}.

Section with_net.
Context {N : Net}.

Record state := mkState { net : world; stdout : list string }.

Definition io (A : Type) : Type := state -> answer A * state.

#[global] Instance io_ret : MRet io := fun A a s => (Returned a, s).
#[global] Instance io_bind : MBind io := fun A B f m s =>
  match m s with
  | (Returned a, s') => f a s'
  | (Raised e, s') => (Raised e, s')
  end.

(** A call that moves the world on. *)
Definition call {A} (f : world -> answer A * world) : io A := fun s =>
  let (a, w) := f (net s) in (a, mkState w (stdout s)).

(** [response.raise_for_status()]: an [HTTPError] for a status code from
    400 to 599. *)
Definition raise_for_status (url : string) (status_code : nat) : io unit := fun s =>
  if (400 <=? status_code) && (status_code <? 600)
  then (Raised (http_error_text status_code url), s)
  else (Returned tt, s).

Definition print (line : string) : io unit := fun s =>
  (Returned tt, mkState (net s) (stdout s ++ [line])).

(** [try: body except Exception as e: handler(str(e))] *)
Definition try_except {A} (body : io A) (handler : string -> io A) : io A := fun s =>
  match body s with
  | (Returned a, s') => (Returned a, s')
  | (Raised e, s') => handler e s'
  end.

Definition fetch_data_from_url (url : string) : io (option DataFrame) :=
  try_except
    (response ← call (requests_get url);
     raise_for_status url response;;
     df ← call (read_csv url);
     mret (Some df))
    (fun e =>
       print ("Error fetching data from " +:+ url +:+ ": " +:+ e);;
       mret None).

End with_net.
End fetch.

(** A platform table as a delimited file may yield it: counts as text, a
    spend and an impression count that are no numbers, a missing revenue,
    a record without a state. *)
Definition ads_raw : DataFrame :=
  mkDF ["date"; "impression"; "clicks"; "spend"; "attributed revenue"; "state"; "campaign"]
       [row_of 0 [("date", Str "2024-01-01"); ("impression", Str "2000");
                  ("clicks", Num 40); ("spend", Str "n/a");
                  ("attributed revenue", Num 150); ("state", Str "NY");
                  ("campaign", Str "spring")];
        row_of 1 [("date", Str "2024-01-02"); ("impression", Str "none");
                  ("clicks", Num 5); ("spend", Num 10);
                  ("attributed revenue", Num 20); ("state", Str "CA");
                  ("campaign", Str "spring")];
        row_of 2 [("date", Str "2024-01-03"); ("impression", Num 500);
                  ("clicks", Num 0); ("spend", Num 25);
                  ("attributed revenue", Num NaN); ("campaign", Str "summer")]].

(** A business table under the column names of the source file, with a
    revenue as text, a cost that is no number and a missing customer
    count. *)
Definition business_raw : DataFrame :=
  mkDF ["date"; "total revenue"; "gross profit"; "COGS"; "# of orders"; "new customers"]
       [row_of 0 [("date", Str "2024-01-01"); ("total revenue", Str "1000");
                  ("gross profit", Num 400); ("COGS", Str "n/a");
                  ("# of orders", Num 10); ("new customers", Num 3)];
        row_of 1 [("date", Str "2024-01-02"); ("total revenue", Num 0);
                  ("gross profit", Num 50); ("COGS", Num 20);
                  ("# of orders", Num 0)]].

(** A business table whose order count is text. *)
Definition business_text_orders : DataFrame :=
  mkDF ["date"; "total_revenue"; "gross_profit"; "num_of_orders"]
       [row_of 0 [("date", Str "2024-01-01"); ("total_revenue", Num 1000);
                  ("gross_profit", Num 400); ("num_of_orders", Str "ten")]].

(** A combined ad table with two records on the first of its two days. *)
Definition ads_busy_day : DataFrame :=
  mkDF ["date"; "spend"; "attributed revenue"; "clicks"; "impression"]
       [row_of 0 [("date", Date 20240101); ("spend", Num 100);
                  ("attributed revenue", Num 150); ("clicks", Num 40);
                  ("impression", Num 2000)];
        row_of 1 [("date", Date 20240101); ("spend", Num 120);
                  ("attributed revenue", Num 160); ("clicks", Num 41);
                  ("impression", Num 3000)];
        row_of 2 [("date", Date 20240103); ("spend", Num 50);
                  ("attributed revenue", Num 60); ("clicks", Num 10);
                  ("impression", Num 700)]].

(** A day of refunds: a negative revenue and no gross profit. *)
Definition business_refund_day : DataFrame :=
  mkDF ["date"; "total_revenue"; "gross_profit"; "num_of_orders"]
       [row_of 0 [("date", Str "2024-01-04"); ("total_revenue", Num (-5));
                  ("gross_profit", Num 0); ("num_of_orders", Num 1)]].

(** * Proofs

    ** Running computations on the store *)

Lemma py_bind_run {A B} (m : py A) (f : A -> py B) (st : heap) :
  (m ≫= f) st = match m st with
                | (Ok a, st') => f a st'
                | (Raise e, st') => (Raise e, st')
                end.
Proof. reflexivity. Qed.

Lemma py_bind_assoc {A B C} (m : py A) (f : A -> py B) (g : B -> py C) (st : heap) :
  ((m ≫= f) ≫= g) st = (m ≫= (fun a => f a ≫= g)) st.
Proof. rewrite !py_bind_run. destruct (m st) as [[a|e] st']; reflexivity. Qed.

Lemma run_ret_bind {A B} (a : A) (f : A -> py B) (st : heap) : (mret a ≫= f) st = f a st.
Proof. reflexivity. Qed.

Lemma run_ret {A} (a : A) (st : heap) : (mret a : py A) st = (Ok a, st).
Proof. reflexivity. Qed.

Lemma run_lift_bind {A B} (r : result A) (f : A -> py B) (st : heap) :
  (lift r ≫= f) st = match r with Ok a => f a st | Raise e => (Raise e, st) end.
Proof. destruct r; reflexivity. Qed.

Lemma run_load_bind {B} (f : DataFrame -> py B) (st : heap) l d :
  st !! l = Some d -> (load l ≫= f) st = f d st.
Proof. intros Hl. rewrite py_bind_run. unfold load. by rewrite Hl. Qed.

Lemma run_pure_bind {A B} (m : py A) (f : A -> py B) (st : heap) v :
  m st = (v, st) ->
  (m ≫= f) st = match v with Ok a => f a st | Raise e => (Raise e, st) end.
Proof. intros Hm. rewrite py_bind_run, Hm. by destruct v. Qed.

Lemma lookup_new (h ext : heap) k d :
  ext !! k = Some d -> (h ++ ext) !! (length h + k) = Some d.
Proof.
  intros. rewrite lookup_app_r by lia.
  by replace (length h + k - length h) with k by lia.
Qed.

(** The methods, one step each. *)
Section exec.
Context {L : Lib}.

Lemma run_copy {B} (f : ref -> py B) (st : heap) l d :
  st !! l = Some d -> (Obj.copy l ≫= f) st = f (length st) (st ++ [d]).
Proof. intros Hl. unfold Obj.copy. by rewrite py_bind_assoc, (run_load_bind _ _ _ _ Hl). Qed.

Lemma run_getitem (st : heap) l d c :
  st !! l = Some d -> Obj.getitem l c st = (DataFrame.getitem d c, st).
Proof. intros Hl. unfold Obj.getitem. by rewrite (run_load_bind _ _ _ _ Hl). Qed.

Lemma run_get_columns {B} (f : list string -> py B) (st : heap) l d :
  st !! l = Some d -> (Obj.get_columns l ≫= f) st = f (columns d) st.
Proof. intros Hl. unfold Obj.get_columns. by rewrite py_bind_assoc, (run_load_bind _ _ _ _ Hl). Qed.

Lemma run_setitem {B} (f : unit -> py B) (st : heap) l d c s :
  st !! l = Some d ->
  (Obj.setitem l c s ≫= f) st
  = match DataFrame.setitem d c s with
    | Ok d' => f tt (<[l := d']> st)
    | Raise e => (Raise e, st)
    end.
Proof.
  intros Hl. unfold Obj.setitem.
  rewrite py_bind_assoc, (run_load_bind _ _ _ _ Hl), py_bind_assoc, run_lift_bind.
  by destruct (DataFrame.setitem d c s).
Qed.

Lemma run_setitem_scalar {B} (f : unit -> py B) (st : heap) l d c v :
  st !! l = Some d ->
  (Obj.setitem_scalar l c v ≫= f) st = f tt (<[l := DataFrame.setitem_scalar d c v]> st).
Proof.
  intros Hl. unfold Obj.setitem_scalar.
  by rewrite py_bind_assoc, (run_load_bind _ _ _ _ Hl).
Qed.

Lemma run_set_columns {B} (f : unit -> py B) (st : heap) l d names :
  st !! l = Some d ->
  (Obj.set_columns l names ≫= f) st
  = match DataFrame.set_columns d names with
    | Ok d' => f tt (<[l := d']> st)
    | Raise e => (Raise e, st)
    end.
Proof.
  intros Hl. unfold Obj.set_columns.
  rewrite py_bind_assoc, (run_load_bind _ _ _ _ Hl), py_bind_assoc, run_lift_bind.
  by destruct (DataFrame.set_columns d names).
Qed.

Lemma run_new {B} (f : ref -> py B) (st : heap) l d (g : DataFrame -> result DataFrame) :
  st !! l = Some d ->
  ((df ← load l; df' ← lift (g df); alloc df') ≫= f) st
  = match g d with
    | Ok d' => f (length st) (st ++ [d'])
    | Raise e => (Raise e, st)
    end.
Proof.
  intros Hl.
  rewrite py_bind_assoc, (run_load_bind _ _ _ _ Hl), py_bind_assoc, run_lift_bind.
  by destruct (g d).
Qed.

Lemma run_fillna {B} (f : ref -> py B) (st : heap) l d v :
  st !! l = Some d ->
  (Obj.fillna l v ≫= f) st = f (length st) (st ++ [DataFrame.fillna d v]).
Proof.
  intros Hl. unfold Obj.fillna.
  by rewrite py_bind_assoc, (run_load_bind _ _ _ _ Hl).
Qed.

Lemma run_getitem_mask {B} (f : ref -> py B) (st : heap) l d mask :
  st !! l = Some d ->
  (Obj.getitem_mask l mask ≫= f) st
  = match DataFrame.getitem_mask d mask with
    | Ok d' => f (length st) (st ++ [d'])
    | Raise e => (Raise e, st)
    end.
Proof. intros Hl. by apply (run_new f st l d (fun d => DataFrame.getitem_mask d mask)). Qed.

Lemma run_drop_duplicates {B} (f : ref -> py B) (st : heap) l d c :
  st !! l = Some d ->
  (Obj.drop_duplicates l c ≫= f) st
  = match DataFrame.drop_duplicates d c with
    | Ok d' => f (length st) (st ++ [d'])
    | Raise e => (Raise e, st)
    end.
Proof. intros Hl. by apply (run_new f st l d (fun d => DataFrame.drop_duplicates d c)). Qed.

Lemma run_sort_values {B} (f : ref -> py B) (st : heap) l d c :
  st !! l = Some d ->
  (Obj.sort_values l c ≫= f) st
  = match DataFrame.sort_values d c with
    | Ok d' => f (length st) (st ++ [d'])
    | Raise e => (Raise e, st)
    end.
Proof. intros Hl. by apply (run_new f st l d (fun d => DataFrame.sort_values d c)). Qed.

Lemma run_groupby_sum {B} (f : ref -> py B) (st : heap) l d key cols :
  st !! l = Some d ->
  (Obj.groupby_sum l key cols ≫= f) st
  = match DataFrame.groupby_sum d key cols with
    | Ok d' => f (length st) (st ++ [d'])
    | Raise e => (Raise e, st)
    end.
Proof. intros Hl. by apply (run_new f st l d (fun d => DataFrame.groupby_sum d key cols)). Qed.

Lemma run_merge_outer {B} (f : ref -> py B) (st : heap) l1 l2 d1 d2 on :
  st !! l1 = Some d1 -> st !! l2 = Some d2 ->
  (Obj.merge_outer l1 l2 on ≫= f) st
  = match DataFrame.merge_outer d1 d2 on with
    | Ok d' => f (length st) (st ++ [d'])
    | Raise e => (Raise e, st)
    end.
Proof.
  intros H1 H2. unfold Obj.merge_outer.
  rewrite py_bind_assoc, (run_load_bind _ _ _ _ H1).
  rewrite py_bind_assoc, (run_load_bind _ _ _ _ H2), py_bind_assoc, run_lift_bind.
  by destruct (DataFrame.merge_outer d1 d2 on).
Qed.

Lemma run_concat3 {B} (f : ref -> py B) (st : heap) l1 l2 l3 d1 d2 d3 :
  st !! l1 = Some d1 -> st !! l2 = Some d2 -> st !! l3 = Some d3 ->
  (Obj.concat [l1; l2; l3] ≫= f) st
  = f (length st) (st ++ [DataFrame.concat [d1; d2; d3]]).
Proof.
  intros H1 H2 H3. unfold Obj.concat.
  rewrite py_bind_assoc. cbn [mapM].
  rewrite py_bind_assoc, (run_load_bind _ _ _ _ H1).
  rewrite !py_bind_assoc, (run_load_bind _ _ _ _ H2).
  rewrite !py_bind_assoc, (run_load_bind _ _ _ _ H3).
  reflexivity.
Qed.


Lemma run_ratio (st : heap) l d num den scale :
  st !! l = Some d ->
  ratio l num den scale st = (ratio_series d num den scale, st).
Proof.
  intros Hl. unfold ratio, ratio_series.
  rewrite (run_pure_bind _ _ _ _ (run_getitem _ _ _ _ Hl)).
  destruct (DataFrame.getitem d num) as [a|]; [|reflexivity]; cbn [mbind result_bind].
  rewrite (run_pure_bind _ _ _ _ (run_getitem _ _ _ _ Hl)).
  destruct (DataFrame.getitem d den) as [b|]; [|reflexivity]; cbn [mbind result_bind].
  rewrite run_lift_bind.
  destruct (Series.truediv a b) as [q|]; [|reflexivity]; cbn [mbind result_bind].
  rewrite run_lift_bind.
  destruct (match scale with Some k => Series.mul q k | None => Ok q end) as [q'|];
    reflexivity.
Qed.

Lemma run_positive (st : heap) l d c :
  st !! l = Some d -> positive l c st = (positive_series d c, st).
Proof.
  intros Hl. unfold positive, positive_series.
  rewrite (run_pure_bind _ _ _ _ (run_getitem _ _ _ _ Hl)).
  destruct (DataFrame.getitem d c); reflexivity.
Qed.

Lemma run_guarded_ratio (st : heap) l d g num den scale :
  st !! l = Some d ->
  guarded_ratio l g num den scale st = (guarded_ratio_series d g num den scale, st).
Proof.
  intros Hl. unfold guarded_ratio, guarded_ratio_series.
  rewrite (run_pure_bind _ _ _ _ (run_positive _ _ _ _ Hl)).
  destruct (positive_series d g) as [cond|]; [|reflexivity]; cbn [mbind result_bind].
  rewrite (run_pure_bind _ _ _ _ (run_ratio _ _ _ _ _ _ Hl)).
  destruct (ratio_series d num den scale); reflexivity.
Qed.

Lemma coerce_step_ok df col : ∃ df', coerce_step df col = Ok df'.
Proof.
  unfold coerce_step. case_bool_decide as Hc; [|by eexists].
  unfold DataFrame.getitem, has_column. rewrite bool_decide_eq_true_2 by done.
  cbn [mbind result_bind]. unfold DataFrame.setitem, pd.to_numeric.
  rewrite bool_decide_eq_true_2; [by eexists|]. by rewrite !length_map.
Qed.

Lemma coerce_numeric_frame_ok cols : ∀ df, ∃ df', coerce_numeric_frame df cols = Ok df'.
Proof.
  induction cols as [|col cols IH]; intros df; cbn [coerce_numeric_frame]; [by eexists|].
  destruct (coerce_step_ok df col) as [df' ->]. cbn [mbind result_bind]. apply IH.
Qed.

Lemma run_coerce_numeric {B} (f : unit -> py B) cols : ∀ (st : heap) l d d',
  st !! l = Some d ->
  coerce_numeric_frame d cols = Ok d' ->
  (coerce_numeric l cols ≫= f) st = f tt (<[l := d']> st).
Proof.
  unfold coerce_numeric.
  induction cols as [|col cols IH]; intros st l d d' Hl Hd;
    cbn [coerce_numeric_frame for_ foldr] in *.
  - injection Hd as <-. rewrite run_ret_bind. by rewrite list_insert_id.
  - destruct (coerce_step d col) as [d1|] eqn:H1; [|done]. cbn [mbind result_bind] in Hd.
    rewrite !py_bind_assoc, (run_get_columns _ _ _ _ Hl). unfold coerce_step in H1.
    assert (Hstep : ∀ st', st' !! l = Some d1 ->
      (for_ cols (fun col => cols ← Obj.get_columns l;
         if bool_decide (col ∈ cols)
         then s ← Obj.getitem l col; Obj.setitem l col (pd.to_numeric s)
         else mret ()) ≫= f) st' = f () (<[l:=d']> st')) by (intros; by eapply IH).
    case_bool_decide.
    + rewrite !py_bind_assoc, (run_pure_bind _ _ _ _ (run_getitem _ _ _ _ Hl)).
      destruct (DataFrame.getitem d col) as [s|]; [|done]. cbn [mbind result_bind] in H1.
      rewrite (run_setitem _ _ _ _ _ _ Hl), H1.
      unfold for_ in Hstep. rewrite Hstep.
      * by rewrite list_insert_insert_eq.
      * by apply list_lookup_insert_eq, lookup_lt_Some with d.
    + injection H1 as <-. rewrite run_ret_bind. unfold for_ in Hstep. by rewrite Hstep.
Qed.


End exec.

Ltac look :=
  first [ eassumption
        | apply lookup_new; reflexivity
        | apply lookup_app_l_Some; eassumption ].

Ltac norm_in E :=
  repeat match type of E with
    | context [length (?a ++ ?b)] => rewrite (length_app a b) in E
    | context [(?a ++ ?b) ++ ?c] => rewrite <- (app_assoc a b c) in E
    | context [<[length ?a + ?k := ?x]> (?a ++ ?b)] =>
        rewrite (insert_app_r a b k x) in E
    end;
  cbn [length app insert list_insert Nat.add] in E.

Ltac exec_in E :=
  first
    [ rewrite py_bind_assoc in E
    | rewrite run_ret_bind in E
    | rewrite run_lift_bind in E
    | erewrite run_copy in E by look
    | erewrite (run_pure_bind (Obj.getitem _ _)) in E by (apply run_getitem; look)
    | erewrite (run_pure_bind (guarded_ratio _ _ _ _ _)) in E
        by (apply run_guarded_ratio; look)
    | erewrite (run_pure_bind (ratio _ _ _ _)) in E by (apply run_ratio; look)
    | erewrite (run_pure_bind (positive _ _)) in E by (apply run_positive; look)
    | erewrite run_get_columns in E by look
    | erewrite run_setitem in E by look
    | erewrite run_setitem_scalar in E by look
    | erewrite run_set_columns in E by look
    | erewrite run_fillna in E by look
    | erewrite run_getitem_mask in E by look
    | erewrite run_drop_duplicates in E by look
    | erewrite run_sort_values in E by look
    | erewrite run_groupby_sum in E by look
    | erewrite run_merge_outer in E by look
    | erewrite run_concat3 in E by look
    | match goal with
      | |- context [coerce_numeric_frame ?d ?cols] =>
          let d' := fresh "d" in
          let Hc := fresh "Hc" in
          destruct (coerce_numeric_frame_ok cols d) as [d' Hc];
          rewrite Hc; cbn [mbind result_bind];
          erewrite run_coerce_numeric in E; [|look|exact Hc]
      end ];
  norm_in E.

(** A raising branch: the exception of the model, the store extended. *)
Ltac raised E :=
  injection E as <- <-;
  repeat match goal with
    | |- context [(?a ++ ?b) ++ ?c] => rewrite <- (app_assoc a b c)
    end;
  eexists; split; [reflexivity | discriminate].

Ltac case_in E :=
  match type of E with
  | context [match ?X with Ok _ => _ | Raise _ => _ end] =>
      destruct X eqn:?; cbn [mbind result_bind]; [norm_in E | raised E]
  end.

Ltac returned E :=
  rewrite run_ret in E; injection E as <- <-;
  match goal with
  | |- ∃ ext, (_, _ ++ ?e) = _ ∧ _ => exists e
  end;
  split;
  [ cbn [length]; f_equal; f_equal; lia
  | intros ? [= <-]; reflexivity ].

Lemma lookup_last_app (st ext : heap) d :
  last ext = Some d -> (st ++ ext) !! (length st + length ext - 1) = Some d.
Proof.
  intros Hd. rewrite last_lookup in Hd.
  destruct ext as [|x ext]; [done|]. cbn [length] in *.
  rewrite lookup_app_r by lia. rewrite <- Hd. f_equal. lia.
Qed.

Lemma lookup_snoc_new (st : heap) d : (st ++ [d]) !! length st = Some d.
Proof. rewrite lookup_app_r by lia. by rewrite Nat.sub_diag. Qed.

Ltac look_deep :=
  first [ eassumption
        | apply lookup_snoc_new
        | apply lookup_last_app; eassumption
        | apply lookup_app_l_Some; look_deep ].

(** After a call of a function already shown to refine its model. *)
Ltac called E R L :=
  rewrite py_bind_run, R in E; unfold outcome in E;
  match type of E with
  | context [match ?X with Ok _ => _ | Raise _ => _ end] =>
      destruct X eqn:?; cbn [mbind result_bind];
      [specialize (L _ eq_refl) | raised E]
  end.

(** ** The program computes its functional model *)

Section refinement.
Context {L : Lib}.

Lemma clean_marketing_data_refines (h : heap) l d0 p :
  h !! l = Some d0 ->
  refines (clean_marketing_data l p) h (clean_marketing_frame d0 p).
Proof.
  intros Hl. unfold refines, outcome.
  destruct (clean_marketing_data l p h) as [r st] eqn:E.
  unfold clean_marketing_data in E.
  unfold clean_marketing_frame, derive_marketing_frame, assign.
  replace h with (h ++ []) in E by apply app_nil_r.
  repeat (first [exec_in E | case_in E]).
  returned E.
Qed.

Lemma clean_business_data_refines (h : heap) l d0 :
  h !! l = Some d0 ->
  refines (clean_business_data l) h (clean_business_frame d0).
Proof.
  intros Hl. unfold refines, outcome.
  destruct (clean_business_data l h) as [r st] eqn:E.
  unfold clean_business_data in E.
  unfold clean_business_frame, assign.
  replace h with (h ++ []) in E by apply app_nil_r.
  repeat (first [exec_in E | case_in E]).
  returned E.
Qed.

Lemma create_unified_dataset_refines (h : heap) b m db dm :
  h !! b = Some db -> h !! m = Some dm ->
  refines (create_unified_dataset b m) h (create_unified_frame db dm).
Proof.
  intros Hb Hm. unfold refines, outcome.
  destruct (create_unified_dataset b m h) as [r st] eqn:E.
  unfold create_unified_dataset in E.
  unfold create_unified_frame, daily_marketing_frame, assign.
  replace h with (h ++ []) in E by apply app_nil_r.
  repeat (first [exec_in E | case_in E]).
  returned E.
Qed.

Lemma combine_marketing_data_refines (h : heap) f g t df dg dt :
  h !! f = Some df -> h !! g = Some dg -> h !! t = Some dt ->
  refines (combine_marketing_data f g t) h (combine_marketing_frames df dg dt).
Proof.
  intros Hf Hg Ht. unfold refines.
  destruct (combine_marketing_data f g t h) as [r st] eqn:E.
  unfold combine_marketing_data in E. unfold combine_marketing_frames, outcome.
  destruct (clean_marketing_data_refines h f df "Facebook") as (ext & R & Lst);
    [done|]. called E R Lst.
  destruct (clean_marketing_data_refines (h ++ ext) g dg "Google") as (ext0 & R0 & L0);
    [look_deep|]. called E R0 L0.
  destruct (clean_marketing_data_refines ((h ++ ext) ++ ext0) t dt "TikTok")
    as (ext1 & R1 & L1); [look_deep|]. called E R1 L1.
  erewrite run_concat3 in E by look_deep.
  erewrite run_sort_values in E by look_deep.
  case_in E. rewrite run_ret in E. injection E as <- <-.
  exists (ext ++ ext0 ++ ext1 ++ [DataFrame.concat [a; a0; a1]; a2]). split.
  - f_equal. f_equal. rewrite !length_app. cbn [length]. lia.
  - intros ? [= <-]. rewrite !last_app. reflexivity.
Qed.


End refinement.
(** ** What a refining run returns *)

Lemma refines_returns (m : py ref) (h : heap) v r h' :
  refines m h v -> m h = (Ok r, h') ->
  ∃ out ext, v = Ok out ∧ h' = h ++ ext ∧ h' !! r = Some out.
Proof.
  intros (ext & Hrun & Hlast) Hm. rewrite Hrun in Hm. unfold outcome in Hm.
  destruct v as [out|e]; [|done]. injection Hm as <- <-.
  exists out, ext. split_and!; [done..|]. by apply lookup_last_app, Hlast.
Qed.

Lemma refines_raises (m : py ref) (h : heap) v e h' :
  refines m h v -> m h = (Raise e, h') -> v = Raise e ∧ ∃ ext, h' = h ++ ext.
Proof.
  intros (ext & Hrun & _) Hm. rewrite Hrun in Hm. unfold outcome in Hm.
  destruct v as [out|e']; [done|]. injection Hm as <- <-. eauto.
Qed.


(** ** Results and series *)

Lemma bind_Ok {A B} (m : result A) (f : A -> result B) b :
  m ≫= f = Ok b -> ∃ a, m = Ok a ∧ f a = Ok b.
Proof. destruct m as [a|e]; [eauto | done]. Qed.

Lemma mapM_Ok {A B} (f : A -> result B) l k :
  mapM f l = Ok k <-> Forall2 (fun x y => f x = Ok y) l k.
Proof.
  revert k. induction l as [|x l IH]; intros k; cbn [mapM].
  - split; [intros [= <-]; constructor | by inversion 1].
  - split.
    + intros (y & Hy & (k' & Hk' & [= <-])%bind_Ok)%bind_Ok.
      constructor; [done | by apply IH].
    + inversion 1 as [|? y ? k' Hy Hk']; subst. rewrite Hy. cbn [mbind result_bind].
      apply IH in Hk'. by rewrite Hk'.
Qed.


Ltac inv_ok H :=
  repeat match type of H with
    | _ ≫= _ = Ok _ =>
        let a := fresh "a" in
        let Ha := fresh "Ha" in
        apply bind_Ok in H as (a & Ha & H)
    end.

Lemma Forall2_compose {A B C} (R : A -> B -> Prop) (S : B -> C -> Prop)
    (T : A -> C -> Prop) l k m :
  (∀ x y z, R x y -> S y z -> T x z) ->
  Forall2 R l k -> Forall2 S k m -> Forall2 T l m.
Proof.
  intros HT Hlk. revert m. induction Hlk; inversion 1; subst; constructor; eauto.
Qed.

Lemma Forall2_chain {A B C} (R : A -> B -> Prop) (S : B -> C -> Prop) l k m :
  Forall2 R l k -> Forall2 S k m -> Forall2 (fun x z => ∃ y, R x y ∧ S y z) l m.
Proof. apply Forall2_compose. eauto. Qed.

(** ** Rows through the frame operations *)

Lemma cell_at_set_cell c v r c' :
  cell_at (set_cell c v r) c' = if bool_decide (c = c') then v else cell_at r c'.
Proof.
  unfold cell_at, set_cell. cbn [cells]. case_bool_decide as Hc.
  - subst. by rewrite lookup_insert_eq.
  - by rewrite lookup_insert_ne.
Qed.

Lemma keeps_refl c l : Forall2 (keeps c) l l.
Proof. induction l; constructor; done. Qed.

Lemma keeps_trans c l k m :
  Forall2 (keeps c) l k -> Forall2 (keeps c) k m -> Forall2 (keeps c) l m.
Proof.
  apply Forall2_compose. unfold keeps. intros ??? [? ?] [? ?]. split; congruence.
Qed.

Section frames.
Context {L : Lib}.

Lemma getitem_Ok df c s :
  DataFrame.getitem df c = Ok s ->
  c ∈ columns df ∧ s = map (fun r => cell_at r c) (rows df).
Proof.
  unfold DataFrame.getitem, has_column. case_bool_decide; [|done]. by intros [= <-].
Qed.

Lemma setitem_Ok df c s df' :
  DataFrame.setitem df c s = Ok df' ->
  columns df' = add_column (columns df) c
  ∧ Forall3 (fun r v r' => r' = set_cell c v r) (rows df) s (rows df').
Proof.
  unfold DataFrame.setitem. case_bool_decide as Hlen; [|done]. intros [= <-].
  cbn [columns rows]. split; [done|].
  revert s Hlen. generalize (rows df). intros l.
  induction l as [|r l IH]; intros [|v s] Hlen; cbn [zip_with]; try done.
  - constructor.
  - constructor; [done|]. apply IH. by injection Hlen.
Qed.

Lemma setitem_Forall2 (P : Row -> cell -> Prop) df c s df' :
  DataFrame.setitem df c s = Ok df' ->
  Forall2 P (rows df) s ->
  Forall2 (fun r r' => ∃ v, P r v ∧ r' = set_cell c v r) (rows df) (rows df').
Proof.
  intros [_ H3]%setitem_Ok. induction H3 as [|r v r' l s l' -> _ IH].
  - constructor.
  - inversion 1; subst. constructor; eauto.
Qed.

Lemma setitem_rows df c s df' :
  DataFrame.setitem df c s = Ok df' ->
  Forall2 (fun r r' => label r' = label r
                       ∧ ∀ c', c' ≠ c -> cell_at r' c' = cell_at r c')
          (rows df) (rows df').
Proof.
  intros [_ H3]%setitem_Ok. induction H3 as [|r v r' l s l' -> _ IH].
  - constructor.
  - constructor; [|done]. split; [done|].
    intros c' Hc'. by rewrite cell_at_set_cell, bool_decide_eq_false_2.
Qed.

Lemma setitem_keeps df c' s df' c :
  DataFrame.setitem df c' s = Ok df' -> c ≠ c' ->
  Forall2 (keeps c) (rows df) (rows df').
Proof.
  intros Hrows%setitem_rows Hc.
  eapply Forall2_impl; [exact Hrows|]. intros r r' (? & Hother). split; auto.
Qed.

Lemma assign_Ok df c f df' :
  assign df c f = Ok df' -> ∃ s, f df = Ok s ∧ DataFrame.setitem df c s = Ok df'.
Proof. unfold assign. intros H'. inv_ok H'. eauto. Qed.

Lemma guarded_ratio_series_Ok df g num den scale s :
  guarded_ratio_series df g num den scale = Ok s ->
  ∃ cond q, positive_series df g = Ok cond
            ∧ ratio_series df num den scale = Ok q
            ∧ s = np.where_ cond q 0.
Proof.
  unfold guarded_ratio_series. intros H'. inv_ok H'. injection H' as <-. eauto.
Qed.

Lemma assign_keeps df c' f df' c :
  assign df c' f = Ok df' -> c ≠ c' -> Forall2 (keeps c) (rows df) (rows df').
Proof. unfold assign. intros H'. inv_ok H'. by eapply setitem_keeps. Qed.

Lemma setitem_scalar_keeps df c' v c :
  c ≠ c' -> Forall2 (keeps c) (rows df) (rows (DataFrame.setitem_scalar df c' v)).
Proof.
  intros Hc. cbn [DataFrame.setitem_scalar rows]. apply Forall2_fmap_r, Forall_Forall2_diag.
  apply Forall_forall. intros r _. split; [done|].
  by rewrite cell_at_set_cell, bool_decide_eq_false_2.
Qed.


Lemma numeric_of_idemp c : pd.numeric_of (pd.numeric_of c) = pd.numeric_of c.
Proof. by destruct c. Qed.

Lemma coerce_step_columns df col df' :
  coerce_step df col = Ok df' -> columns df' = columns df.
Proof.
  unfold coerce_step. case_bool_decide as Hc; [|by intros [= <-]].
  intros H'. inv_ok H'. apply setitem_Ok in H' as [-> _].
  unfold add_column. by rewrite bool_decide_eq_true_2.
Qed.

Lemma coerce_step_rows df col df' c :
  coerce_step df col = Ok df' ->
  Forall2 (fun r r' => label r' = label r
             ∧ cell_at r' c = if bool_decide (c = col ∧ col ∈ columns df)
                              then pd.numeric_of (cell_at r c) else cell_at r c)
          (rows df) (rows df').
Proof.
  unfold coerce_step. case_bool_decide as Hc.
  - intros H'. inv_ok H'. apply getitem_Ok in Ha as [_ ->].
    eapply (setitem_Forall2 (fun r v => v = pd.numeric_of (cell_at r col))) in H'.
    2:{ unfold pd.to_numeric. rewrite map_map. apply Forall2_fmap_r, Forall_Forall2_diag.
        apply Forall_forall. intros r _. reflexivity. }
    eapply Forall2_impl; [exact H'|]. cbn beta. intros r r' (v & -> & ->).
    split; [done|]. rewrite cell_at_set_cell.
    repeat case_bool_decide; subst; try done; exfalso; intuition.
  - intros [= <-]. apply Forall_Forall2_diag, Forall_forall. intros r _.
    by rewrite bool_decide_eq_false_2 by (by intros [_ ?]).
Qed.

Lemma coerce_numeric_frame_columns cols : ∀ df df',
  coerce_numeric_frame df cols = Ok df' -> columns df' = columns df.
Proof.
  induction cols as [|col cols IH]; intros df df' H'; cbn [coerce_numeric_frame] in H'.
  - by injection H' as <-.
  - inv_ok H'. rewrite (IH _ _ H'). by eapply coerce_step_columns.
Qed.

Lemma coerce_numeric_frame_keeps cols c : ∀ df df',
  coerce_numeric_frame df cols = Ok df' -> c ∉ cols ->
  Forall2 (keeps c) (rows df) (rows df').
Proof.
  induction cols as [|col cols IH]; intros df df' H' Hc; cbn [coerce_numeric_frame] in H'.
  - injection H' as <-. apply keeps_refl.
  - inv_ok H'. apply not_elem_of_cons in Hc as [Hne Hc].
    eapply keeps_trans; [|by eapply IH].
    eapply Forall2_impl; [by eapply (coerce_step_rows _ _ _ c)|].
    intros r r' [? Hcell]. split; [done|].
    by rewrite bool_decide_eq_false_2 in Hcell by (by intros [? _]).
Qed.

Lemma coerce_numeric_frame_sets cols c : ∀ df df',
  coerce_numeric_frame df cols = Ok df' -> c ∈ cols -> c ∈ columns df ->
  Forall2 (fun r r' => label r' = label r ∧ cell_at r' c = pd.numeric_of (cell_at r c))
          (rows df) (rows df').
Proof.
  induction cols as [|col cols IH]; intros df df' H' Hc Hin; cbn [coerce_numeric_frame] in H'.
  - by apply elem_of_nil in Hc.
  - inv_ok H'. pose proof (coerce_step_rows _ _ _ c Ha) as H1.
    destruct (decide (c ∈ cols)) as [Hcols|Hcols].
    + eapply Forall2_compose; [|exact H1|eapply IH; [done..|]].
      * cbn beta. intros r r1 r2 [L1 E1] [L2 E2]. split; [congruence|].
        rewrite E2, E1. case_bool_decide; [apply numeric_of_idemp|done].
      * by rewrite (coerce_step_columns _ _ _ Ha).
    + apply elem_of_cons in Hc as [->|]; [|done].
      eapply Forall2_compose; [|exact H1|by eapply coerce_numeric_frame_keeps].
      cbn beta. intros r r1 r2 [L1 E1] [L2 E2]. split; [congruence|].
      rewrite E2, E1. by rewrite bool_decide_eq_true_2.
Qed.

Lemma fill_idemp v c : fill v (fill v c) = fill v c.
Proof. unfold fill. destruct (is_na c) eqn:Hc; [|by rewrite Hc]. by destruct (is_na v). Qed.

Lemma cell_at_fillna_row cols v r c :
  cell_at (DataFrame.fillna_row cols v r) c
  = if bool_decide (c ∈ cols) then fill v (cell_at r c) else cell_at r c.
Proof.
  unfold cell_at at 1, DataFrame.fillna_row. cbn [cells].
  induction cols as [|c' cols IH]; cbn [foldr].
  - by rewrite bool_decide_eq_false_2 by apply not_elem_of_nil.
  - destruct (decide (c' = c)) as [->|Hne].
    + rewrite lookup_insert_eq, bool_decide_eq_true_2 by left. done.
    + rewrite lookup_insert_ne by done. rewrite IH.
      apply (f_equal (fun b : bool => if b then _ else _)).
      apply bool_decide_ext. rewrite elem_of_cons. intuition congruence.
Qed.

Lemma fillna_rows df v c :
  Forall2 (fun r r' => label r' = label r
             ∧ cell_at r' c = if bool_decide (c ∈ columns df)
                              then fill v (cell_at r c) else cell_at r c)
          (rows df) (rows (DataFrame.fillna df v)).
Proof.
  cbn [DataFrame.fillna rows]. apply Forall2_fmap_r, Forall_Forall2_diag, Forall_forall.
  intros r _. split; [done|]. apply cell_at_fillna_row.
Qed.


Lemma positive_series_Ok df c mask :
  positive_series df c = Ok mask ->
  c ∈ columns df
  ∧ Forall2 (fun r (b : bool) => ∃ x, cell_at r c = Num x ∧ b = (0 <? x)%float)
            (rows df) mask.
Proof.
  unfold positive_series. intros H'. inv_ok H'. apply getitem_Ok in Ha as [Hc ->].
  split; [done|]. apply mapM_Ok in H'. apply Forall2_fmap_l in H'.
  eapply Forall2_impl; [exact H'|]. cbn. intros r b Hb.
  destruct (cell_at r c); try done. injection Hb as <-. eauto.
Qed.

Lemma select_lookup {A} (P : A -> bool -> Prop) (l : list A) mask x :
  Forall2 P l mask -> x ∈ select mask l -> ∃ i, l !! i = Some x ∧ P x true.
Proof.
  induction 1 as [|y b l mask Hy _ IH]; cbn [select]; [by intros ?%elem_of_nil|].
  destruct b.
  - intros [->|Hx]%elem_of_cons; [by exists 0|].
    destruct (IH Hx) as (i & ? & ?). by exists (S i).
  - intros Hx. destruct (IH Hx) as (i & ? & ?). by exists (S i).
Qed.

Lemma getitem_mask_Ok df mask df' :
  DataFrame.getitem_mask df mask = Ok df' ->
  columns df' = columns df ∧ rows df' = select mask (rows df).
Proof.
  unfold DataFrame.getitem_mask. case_bool_decide; [|done]. by intros [= <-].
Qed.

(** The frame before the last line of [clean_marketing_data], row by row:
    labels are the input's, impressions are the input's made numeric with
    missing values at 0. *)
Lemma derive_marketing_frame_impression df p pre :
  derive_marketing_frame df p = Ok pre ->
  Forall2 (fun r r' => label r' = label r
             ∧ cell_at r' "impression"
               = fill (Num 0) (pd.numeric_of (cell_at r "impression")))
          (rows df) (rows pre).
Proof.
  unfold derive_marketing_frame. intros H'. inv_ok H'.
  rename a into d1, a0 into d2, a1 into d3, a2 into d4, a3 into d5.
  pose proof (assign_keeps _ _ _ _ "impression" Ha ltac:(done)) as K1.
  pose proof (setitem_scalar_keeps d1 "platform" (Str p) "impression" ltac:(done)) as K2.
  assert (Hin : "impression" ∈ columns d2).
  { apply assign_Ok in Ha1 as (s & (cond & q & Hp & _)%guarded_ratio_series_Ok & _).
    by apply positive_series_Ok in Hp as [Hin _]. }
  pose proof Ha0 as Hcols%coerce_numeric_frame_columns.
  eapply (coerce_numeric_frame_sets _ "impression") in Ha0;
    [|apply (bool_decide_unpack _); vm_compute; exact I|by rewrite <- Hcols].
  pose proof (fillna_rows d2 (Num 0) "impression") as K4.
  rewrite bool_decide_eq_true_2 in K4 by done.
  pose proof (assign_keeps _ _ _ _ "impression" Ha1 ltac:(done)) as K5.
  pose proof (assign_keeps _ _ _ _ "impression" Ha2 ltac:(done)) as K6.
  pose proof (assign_keeps _ _ _ _ "impression" Ha3 ltac:(done)) as K7.
  pose proof (assign_keeps _ _ _ _ "impression" H' ltac:(done)) as K8.
  pose proof (keeps_trans _ _ _ _ K1 K2) as K12.
  pose proof (keeps_trans _ _ _ _ (keeps_trans _ _ _ _ (keeps_trans _ _ _ _ K5 K6) K7) K8)
    as K58.
  pose proof (Forall2_chain _ _ _ _ _ K12
                (Forall2_chain _ _ _ _ _ Ha0 (Forall2_chain _ _ _ _ _ K4 K58))) as K.
  eapply Forall2_impl; [exact K|]. cbn beta. unfold keeps.
  intros r r' (r1 & [L1 E1] & r2 & [L2 E2] & r3 & [L3 E3] & [L4 E4]).
  split; [congruence|]. rewrite E4, E3. congruence.
Qed.


Lemma clean_marketing_frame_Ok df p out :
  clean_marketing_frame df p = Ok out ->
  ∃ pre mask, derive_marketing_frame df p = Ok pre
              ∧ positive_series pre "impression" = Ok mask
              ∧ rows out = select mask (rows pre)
              ∧ columns out = columns pre.
Proof.
  unfold clean_marketing_frame. intros H'. inv_ok H'.
  apply getitem_mask_Ok in H' as [? ?]. eauto 10.
Qed.

End frames.


(** ** The business table: dates and de-duplication *)

Lemma cell_eqb_refl c : cell_eqb c c = true.
Proof.
  destruct c as [x|s|t]; cbn [cell_eqb].
  - unfold is_nan. by destruct (x =? x)%float.
  - apply String.eqb_refl.
  - apply Z.eqb_refl.
Qed.

Lemma cell_eqb_date a b : is_date b -> (cell_eqb a b = true <-> a = b).
Proof.
  intros [t ->]. split; [|intros ->; apply cell_eqb_refl].
  destruct a; cbn [cell_eqb]; try done. by intros ->%Z.eqb_eq.
Qed.

Lemma existsb_cell_eqb k seen :
  Forall is_date seen -> (existsb (cell_eqb k) seen = true <-> k ∈ seen).
Proof.
  intros Hseen. rewrite existsb_exists. setoid_rewrite <- list_elem_of_In. split.
  - intros (s & Hs & Heq). apply cell_eqb_date in Heq as ->; [done|].
    by eapply Forall_forall in Hseen.
  - intros Hk. exists k. split; [done | apply cell_eqb_refl].
Qed.

(** With timestamps as keys, a row is kept by [first_occurrences] exactly
    when no row before it holds its key. *)
Lemma first_occurrences_spec c rs : ∀ seen o,
  Forall is_date seen ->
  Forall (fun r => is_date (cell_at r c)) rs ->
  (o ∈ first_occurrences c seen rs <->
   ∃ i, rs !! i = Some o
        ∧ (cell_at o c ∉ seen)
        ∧ (∀ j r, j < i -> rs !! j = Some r -> cell_at r c ≠ cell_at o c)).
Proof.
  induction rs as [|r rs IH]; intros seen o Hseen Hrs; cbn [first_occurrences].
  - split; [by intros ?%elem_of_nil | by intros (i & ? & _)].
  - apply Forall_cons in Hrs as [Hr Hrs].
    destruct (existsb (cell_eqb (cell_at r c)) seen) eqn:Hex.
    + apply existsb_cell_eqb in Hex; [|done]. rewrite IH by done. split.
      * intros (i & Hi & Hs' & Hbefore). exists (S i). split_and!; [done..|].
        intros [|j] r' Hj Hr'; [|apply (Hbefore j); [lia|done]].
        injection Hr' as <-. congruence.
      * intros ([|i] & Hi & Hs' & Hbefore).
        -- injection Hi as ->. done.
        -- exists i. split_and!; [done..|].
           intros j r' Hj Hr'. apply (Hbefore (S j)); [lia|done].
    + assert (cell_at r c ∉ seen) as Hnew.
      { intros Hin. apply existsb_cell_eqb in Hin; [congruence|done]. }
      rewrite elem_of_cons, IH by (try apply Forall_cons; done). split.
      * intros [->|(i & Hi & Hs' & Hbefore)].
        -- exists 0. split_and!; [done..|intros; lia].
        -- apply not_elem_of_cons in Hs' as [Hne Hs'].
           exists (S i). split_and!; [done..|].
           intros [|j] r' Hj Hr'; [|apply (Hbefore j); [lia|done]].
           injection Hr' as <-. congruence.
      * intros ([|i] & Hi & Hs' & Hbefore).
        -- left. by injection Hi.
        -- right. exists i. split_and!; [done| |].
           ++ apply not_elem_of_cons. split; [|done].
              intros Heq. by apply (Hbefore 0 r); [lia| |].
           ++ intros j r' Hj Hr'. apply (Hbefore (S j)); [lia|done].
Qed.

(** The kept rows hold pairwise distinct keys. *)
Lemma first_occurrences_NoDup c rs : ∀ seen,
  NoDup ((fun r => cell_at r c) <$> first_occurrences c seen rs)
  ∧ ∀ o, o ∈ first_occurrences c seen rs ->
         existsb (cell_eqb (cell_at o c)) seen = false.
Proof.
  induction rs as [|r rs IH]; intros seen; cbn [first_occurrences].
  - split; [constructor | by intros ? ?%elem_of_nil].
  - destruct (existsb (cell_eqb (cell_at r c)) seen) eqn:Hex; [apply IH|].
    destruct (IH (cell_at r c :: seen)) as [IH1 IH2]. split.
    + cbn [fmap list_fmap]. constructor; [|done].
      intros (o & Heq & Ho)%list_elem_of_fmap. apply IH2 in Ho.
      cbn [existsb] in Ho. rewrite <- Heq, cell_eqb_refl in Ho. done.
    + intros o [->|Ho]%elem_of_cons; [done|]. apply IH2 in Ho.
      cbn [existsb] in Ho. by apply orb_false_elim in Ho as [_ ?].
Qed.

Section business.
Context {L : Lib}.

Lemma datetime_of_is_date c v : pd.datetime_of c = Ok v -> is_date v.
Proof.
  destruct c as [x|s|t]; cbn [pd.datetime_of]; [done| |intros [= <-]; by eexists].
  destruct (parse_datetime s); [intros [= <-]; by eexists | done].
Qed.

(** [df['date'] = pd.to_datetime(df['date'])], row by row. *)
Lemma assign_date_rows df df' :
  assign df "date" (fun df => d ← DataFrame.getitem df "date"; pd.to_datetime d) = Ok df' ->
  "date" ∈ columns df ∧ columns df' = columns df
  ∧ Forall2 (fun r r' => label r' = label r ∧ date_of r = Ok (cell_at r' "date"))
            (rows df) (rows df').
Proof.
  intros (s & Hs & Hset)%assign_Ok. inv_ok Hs. apply getitem_Ok in Ha as [Hc ->].
  split; [done|]. split.
  { apply setitem_Ok in Hset as [-> _]. unfold add_column.
    by rewrite bool_decide_eq_true_2. }
  apply mapM_Ok, Forall2_fmap_l in Hs.
  eapply (setitem_Forall2 _ _ _ _ _ Hset) in Hs.
  eapply Forall2_impl; [exact Hs|]. cbn. intros r r' (v & Hv & ->).
  split; [done|]. by rewrite cell_at_set_cell, bool_decide_eq_true_2.
Qed.

Lemma zip_fmap_fmap {A B C} (f : A -> B) (g : A -> C) (l : list A) :
  zip (f <$> l) (g <$> l) = (fun x => (f x, g x)) <$> l.
Proof. induction l; cbn; [done | by f_equal]. Qed.

Lemma rename_row_cell (f : string -> string) cols r c :
  c ∈ cols -> NoDup (f <$> cols) ->
  cell_at (DataFrame.rename_row cols (f <$> cols) r) (f c) = cell_at r c.
Proof.
  intros Hc Hnd. unfold cell_at at 1, DataFrame.rename_row. cbn [cells].
  change (map (cell_at r) cols) with (cell_at r <$> cols).
  rewrite zip_fmap_fmap.
  erewrite (proj1 (elem_of_list_to_map _ (f c) (cell_at r c) _)); [done|].
  apply list_elem_of_fmap. by exists c.
  Unshelve. by rewrite <- list_fmap_compose.
Qed.

Lemma set_columns_rows df (f : string -> string) df' c :
  DataFrame.set_columns df (f <$> columns df) = Ok df' ->
  c ∈ columns df ->
  columns df' = f <$> columns df
  ∧ Forall2 (fun r r' => label r' = label r ∧ cell_at r' (f c) = cell_at r c)
            (rows df) (rows df').
Proof.
  unfold DataFrame.set_columns. case_bool_decide; [|done].
  case_bool_decide as Hnd; [|done]. intros [= <-] Hc. cbn [columns rows].
  split; [done|]. apply Forall2_fmap_r, Forall_Forall2_diag, Forall_forall.
  intros r _. split; [done|]. by apply rename_row_cell.
Qed.

(** The frame [clean_business_data] holds before de-duplication, row by
    row: the label is the input's, the date is the input's date parsed. *)
Lemma clean_business_frame_Ok df out :
  clean_business_frame df = Ok out ->
  ∃ pre, Forall2 (fun r r' => label r' = label r ∧ date_of r = Ok (cell_at r' "date"))
                 (rows df) (rows pre)
         ∧ rows out = first_occurrences "date" [] (rows pre).
Proof.
  unfold clean_business_frame. intros H'. inv_ok H'.
  rename a into d1, a0 into d2, a1 into d3, a2 into d4, a3 into d5.
  apply assign_date_rows in Ha as (Hin & Hcols & K1).
  apply (set_columns_rows _ normalize_name _ "date") in Ha0 as [Hcols2 K2];
    [|by rewrite Hcols].
  change (normalize_name "date") with "date" in K2.
  pose proof (coerce_numeric_frame_keeps _ "date" _ _ Ha1 ltac:(apply (bool_decide_unpack _); vm_compute; exact I)) as K3.
  pose proof (fillna_rows d3 (Num 0) "date") as K4.
  pose proof (assign_keeps _ _ _ _ "date" Ha2 ltac:(done)) as K5.
  pose proof (assign_keeps _ _ _ _ "date" Ha3 ltac:(done)) as K6.
  exists d5. split.
  - pose proof (Forall2_chain _ _ _ _ _ K1 (Forall2_chain _ _ _ _ _ K2
       (Forall2_chain _ _ _ _ _ K3 (Forall2_chain _ _ _ _ _ K4
          (keeps_trans _ _ _ _ K5 K6))))) as K.
    eapply Forall2_impl; [exact K|]. cbn beta. unfold keeps.
    intros r r' (r1 & [L1 E1] & r2 & [L2 E2] & r3 & [L3 E3] & r4 & [L4 E4] & [L5 E5]).
    split; [congruence|]. rewrite E1. f_equal.
    rewrite E5, E4, E3, E2. apply datetime_of_is_date in E1 as [t ->].
    unfold fill. cbn [is_na]. by case_bool_decide.
  - unfold DataFrame.drop_duplicates in H'. destruct (has_column d5 "date"); [|done].
    by injection H' as <-.
Qed.

End business.

(** Every key of the table is the key of a kept row. *)
Lemma first_occurrences_covers c rs : ∀ seen p,
  Forall is_date seen ->
  Forall (fun r => is_date (cell_at r c)) rs ->
  p ∈ rs ->
  cell_at p c ∈ seen
  ∨ ∃ o, o ∈ first_occurrences c seen rs ∧ cell_at o c = cell_at p c.
Proof.
  induction rs as [|r rs IH]; intros seen p Hseen Hrs Hp; [by apply elem_of_nil in Hp|].
  apply Forall_cons in Hrs as [Hr Hrs]. cbn [first_occurrences].
  destruct (existsb (cell_eqb (cell_at r c)) seen) eqn:Hex.
  - apply existsb_cell_eqb in Hex; [|done].
    apply elem_of_cons in Hp as [->|Hp]; [by left | by apply IH].
  - apply elem_of_cons in Hp as [->|Hp]; [right; exists r; split; [left|done]|].
    destruct (IH (cell_at r c :: seen) p) as [Hin|(o & Ho & Heq)];
      [by apply Forall_cons|done..| |].
    + apply elem_of_cons in Hin as [Heq|Hin]; [|by left].
      right. exists r. split; [left|done].
    + right. exists o. split; [by right|done].
Qed.

Section business_rows.
Context {L : Lib}.

Lemma date_keys df pre :
  Forall2 (fun r r' => label r' = label r ∧ date_of r = Ok (cell_at r' "date"))
          (rows df) pre ->
  Forall (fun r => is_date (cell_at r "date")) pre.
Proof.
  intros K. apply Forall_forall. intros p Hp.
  apply list_elem_of_lookup in Hp as [i Hi].
  destruct (Forall2_lookup_r _ _ _ _ _ K Hi) as (r & _ & _ & Hd).
  by apply datetime_of_is_date in Hd.
Qed.

End business_rows.

(** ** Sorting: the two reference argsorts meet the contract *)

Lemma omap_lookup_seq_from {A} (l pre : list A) :
  omap (fun i => (pre ++ l) !! i) (seq (length pre) (length l)) = l.
Proof.
  revert pre. induction l as [|x l IH]; intros pre; [done|].
  cbn [length seq]. change (omap ?f (?i :: ?js)) with
    (match f i with Some y => y :: omap f js | None => omap f js end).
  cbn beta. rewrite list_lookup_middle by done. f_equal.
  specialize (IH (pre ++ [x])). rewrite <- app_assoc in IH. cbn [app] in IH.
  rewrite length_app in IH. cbn [length] in IH. by rewrite Nat.add_1_r in IH.
Qed.

Lemma omap_lookup_seq {A} (l : list A) :
  omap (fun i => l !! i) (seq 0 (length l)) = l.
Proof. apply (omap_lookup_seq_from l []). Qed.

Lemma StronglySorted_lookup {A} (R : relation A) l i j x y :
  StronglySorted R l -> i < j -> l !! i = Some x -> l !! j = Some y -> R x y.
Proof.
  intros Hl. revert i j. induction Hl as [|z l _ IH Hz]; intros i j Hij Hi Hj; [done|].
  destruct j as [|j]; [lia|]. destruct i as [|i].
  - injection Hi as ->. eapply Forall_forall in Hz; [done|].
    by eapply list_elem_of_lookup_2.
  - apply (IH i j); [lia|done..].
Qed.

Section argsort_by.
Context (R : relation (Z * nat)) `{!RelDecision R, !Total R}.
Context (R_le : ∀ a b, R a b -> (a.1 ≤ b.1)%Z).

Lemma zip_seq_lookup (ks : list Z) p :
  p ∈ zip ks (seq 0 (length ks)) -> ks !! p.2 = Some p.1.
Proof.
  intros [i Hi]%list_elem_of_lookup. unfold zip in Hi.
  apply lookup_zip_with_Some in Hi as (k & j & -> & Hk & Hj).
  apply lookup_seq in Hj as [-> _]. done.
Qed.

Lemma merge_sort_positions ks :
  (merge_sort R (zip ks (seq 0 (length ks)))).*2 ≡ₚ seq 0 (length ks).
Proof.
  rewrite merge_sort_Permutation. by rewrite snd_zip by (by rewrite length_seq).
Qed.

Lemma merge_sort_keys ks :
  omap (fun i => ks !! i) (merge_sort R (zip ks (seq 0 (length ks)))).*2
  = (merge_sort R (zip ks (seq 0 (length ks)))).*1.
Proof.
  assert (Forall (fun p => ks !! p.2 = Some p.1)
                 (merge_sort R (zip ks (seq 0 (length ks))))) as Hall.
  { apply Forall_forall. intros p Hp. apply zip_seq_lookup.
    by rewrite merge_sort_Permutation in Hp. }
  induction Hall as [|p ps Hp _ IH]; [done|].
  cbn [fmap list_fmap omap list_omap]. rewrite Hp. by f_equal.
Qed.

Lemma merge_sort_ascending ks :
  Sorted Z.le (omap (fun i => ks !! i) (merge_sort R (zip ks (seq 0 (length ks)))).*2).
Proof.
  rewrite merge_sort_keys. apply (Sorted_fmap _ R); [done|].
  by apply Sorted_merge_sort.
Qed.

End argsort_by.

#[global] Instance lex_le_total : Total RefLib.lex_le.
Proof. intros [k1 i1] [k2 i2]. unfold RefLib.lex_le. cbn. lia. Qed.

#[global] Instance lex_le_trans : Transitive RefLib.lex_le.
Proof. intros [k1 i1] [k2 i2] [k3 i3]. unfold RefLib.lex_le. cbn. lia. Qed.

Lemma stable_argsort_sorts : argsort_sorts RefLib.lib.
Proof.
  intros ks. split.
  - apply merge_sort_positions.
  - apply merge_sort_ascending; [apply _|].
    intros a b. unfold RefLib.lex_le. lia.
Qed.

Lemma stable_argsort_stable : argsort_stable RefLib.lib.
Proof.
  intros ks i j a b Hij Ha Hb Hsame. cbn [argsort RefLib.lib] in Ha, Hb.
  unfold RefLib.stable_argsort in Ha, Hb.
  set (ps := merge_sort RefLib.lex_le (zip ks (seq 0 (length ks)))) in *.
  rewrite list_lookup_fmap in Ha, Hb.
  destruct (ps !! i) as [[ka a']|] eqn:Hi; [|done]. injection Ha as ->.
  destruct (ps !! j) as [[kb b']|] eqn:Hj; [|done]. injection Hb as ->.
  assert (Hps : ∀ p, p ∈ ps -> ks !! p.2 = Some p.1).
  { intros p Hp. apply zip_seq_lookup. unfold ps in Hp.
    by rewrite merge_sort_Permutation in Hp. }
  pose proof (Hps _ (list_elem_of_lookup_2 _ _ _ Hi)) as Hka.
  pose proof (Hps _ (list_elem_of_lookup_2 _ _ _ Hj)) as Hkb. cbn in Hka, Hkb.
  assert (RefLib.lex_le (ka, a) (kb, b)) as Hle.
  { eapply (StronglySorted_lookup _ ps i j); [|done..].
    apply StronglySorted_merge_sort; apply _. }
  assert (a ≠ b) as Hne.
  { intros ->. assert (i = j); [|lia].
    eapply (NoDup_lookup (ps.*2)); [| |]; rewrite ?list_lookup_fmap, ?Hi, ?Hj; [|done..].
    assert (Hperm : ps.*2 ≡ₚ seq 0 (length ks)) by apply merge_sort_positions.
    rewrite Hperm. apply NoDup_seq. }
  unfold RefLib.lex_le in Hle. cbn in Hle. rewrite Hka, Hkb in Hsame. 
  injection Hsame as ->. lia.
Qed.

(** ** The combined table: concatenation and sorting *)

Lemma take_Permutation (rs : list Row) idx :
  idx ≡ₚ seq 0 (length rs) -> DataFrame.take rs idx ≡ₚ rs.
Proof.
  intros Hidx. unfold DataFrame.take. rewrite Hidx. by rewrite omap_lookup_seq.
Qed.

Lemma take_lookup (rs : list Row) idx i o :
  Forall (fun a => a < length rs) idx ->
  DataFrame.take rs idx !! i = Some o ->
  ∃ a, idx !! i = Some a ∧ rs !! a = Some o.
Proof.
  unfold DataFrame.take. intros Hidx. revert i.
  induction Hidx as [|a idx Ha _ IH]; intros i; [done|].
  apply lookup_lt_is_Some in Ha as [r Hr].
  change (omap ?f (?b :: ?js)) with
    (match f b with Some y => y :: omap f js | None => omap f js end).
  cbn beta. rewrite Hr. destruct i as [|i]; cbn [lookup list_lookup].
  - intros [= <-]. eauto.
  - apply IH.
Qed.

Lemma take_keys {K} (P : Row -> K -> Prop) (rs : list Row) (ks : list K) idx :
  Forall2 P rs ks ->
  Forall2 P (DataFrame.take rs idx) (omap (fun i => ks !! i) idx).
Proof.
  intros HP. unfold DataFrame.take. induction idx as [|a idx IH]; [constructor|].
  change (omap ?f (?b :: ?js)) with
    (match f b with Some y => y :: omap f js | None => omap f js end).
  cbn beta. destruct (rs !! a) as [r|] eqn:Hr.
  - destruct (Forall2_lookup_l _ _ _ _ _ HP Hr) as (k & -> & Hk). by constructor.
  - apply (Forall2_length) in HP. apply lookup_ge_None in Hr.
    rewrite (proj2 (lookup_ge_None ks a)) by lia. done.
Qed.

Lemma reindex_lookup rs i r :
  reindex rs !! i = Some r <-> ∃ r0, rs !! i = Some r0 ∧ r = mkRow i (cells r0).
Proof.
  unfold reindex. rewrite list_lookup_imap. destruct (rs !! i) as [r0|]; cbn.
  - split; [intros [= <-]; eauto | by intros (? & [= <-] & ->)].
  - split; [done | by intros (? & ? & _)].
Qed.

Section combine.
Context {L : Lib}.

Lemma sort_values_Ok df c out :
  DataFrame.sort_values df c = Ok out ->
  ∃ ks, Forall2 (fun r k => cell_at r c = Date k) (rows df) ks
        ∧ rows out = DataFrame.take (rows df) (argsort ks)
        ∧ columns out = columns df.
Proof.
  unfold DataFrame.sort_values, DataFrame.keys.
  intros (ks & (s & Hs & Hks)%bind_Ok & [= <-])%bind_Ok.
  apply getitem_Ok in Hs as [_ ->].
  apply mapM_Ok, Forall2_fmap_l in Hks. exists ks. split_and!; [|done..].
  eapply Forall2_impl; [exact Hks|]. cbn. intros r k Hk.
  destruct (cell_at r c); try done. by injection Hk as ->.
Qed.

Lemma combine_marketing_frames_Ok df dg dt out :
  combine_marketing_frames df dg dt = Ok out ->
  ∃ c1 c2 c3, clean_marketing_frame df "Facebook" = Ok c1
              ∧ clean_marketing_frame dg "Google" = Ok c2
              ∧ clean_marketing_frame dt "TikTok" = Ok c3
              ∧ DataFrame.sort_values (DataFrame.concat [c1; c2; c3]) "date" = Ok out.
Proof. unfold combine_marketing_frames. intros H'. inv_ok H'. eauto 10. Qed.

Lemma refines_Ok_returns (m : py ref) (h : heap) d : refines m h (Ok d) -> returns m h d.
Proof.
  intros (ext & Hrun & Hlast). unfold outcome in Hrun.
  eexists _, _. split; [exact Hrun|]. by apply lookup_last_app, Hlast.
Qed.

End combine.

(** ** The guarded ratios *)

(** A float equal to zero (either sign) is not positive. *)
Lemma zero_not_positive (x : float) : (x =? 0)%float = true -> (0 <? x)%float = false.
Proof.
  rewrite FloatAxioms.eqb_spec, FloatAxioms.ltb_spec.
  change (Prim2SF 0) with (S754_zero false).
  destruct (Prim2SF x) as [s|s| |s m e]; try destruct s; cbn; try discriminate;
    try reflexivity.
  all: destruct e; cbn; discriminate.
Qed.

Section ratios.
Context {L : Lib}.

Lemma mapM_length {A B} (f : A -> result B) l k : mapM f l = Ok k -> length k = length l.
Proof. intros Hk%mapM_Ok. symmetry. by eapply Forall2_length. Qed.

Lemma ratio_series_length df num den scale q :
  ratio_series df num den scale = Ok q -> length q = length (rows df).
Proof.
  unfold ratio_series.
  intros (a & [_ ->]%getitem_Ok & (b & [_ ->]%getitem_Ok
            & (q0 & H0 & (q1 & H1 & H2)%bind_Ok)%bind_Ok)%bind_Ok)%bind_Ok.
  apply mapM_length in H0, H2. rewrite H2.
  assert (length q1 = length q0) as ->.
  { destruct scale; [by apply mapM_length in H1 | by injection H1 as ->]. }
  rewrite H0. rewrite length_zip, !length_map. lia.
Qed.

(** [np.where(df[den] > 0, (df[num] / df[den] ...).round(2), 0)] is 0 in
    every row whose denominator is not positive: zero, negative or, before
    [fillna], missing. *)
Lemma guarded_ratio_series_zero df den num scale s i r x :
  guarded_ratio_series df den num den scale = Ok s ->
  rows df !! i = Some r -> cell_at r den = Num x -> (0 <? x)%float = false ->
  s !! i = Some (Num 0).
Proof.
  intros (cond & q & [_ Hcond]%positive_series_Ok & Hq%ratio_series_length & ->)
         %guarded_ratio_series_Ok Hi Hx Hnot.
  destruct (Forall2_lookup_l _ _ _ _ _ Hcond Hi) as (b & Hb & x' & Hx' & ->).
  rewrite Hx in Hx'. injection Hx' as <-.
  destruct (lookup_lt_is_Some_2 q i) as [v Hv].
  { rewrite Hq. by eapply lookup_lt_Some. }
  unfold np.where_. rewrite lookup_zip_with, Hb. cbn. rewrite Hv. cbn. by rewrite Hnot.
Qed.

(** The same of the program's expression: this is how [ctr], [cpc], [roas],
    [cpm], [daily_roas], [daily_ctr] and [marketing_efficiency] are
    computed, each guarded on its own denominator. *)
Lemma guarded_ratio_zero_denominator (st st' : heap) l d den num scale s i r x :
  st !! l = Some d ->
  guarded_ratio l den num den scale st = (Ok s, st') ->
  rows d !! i = Some r -> cell_at r den = Num x -> (x =? 0)%float = true ->
  s !! i = Some (Num 0).
Proof.
  intros Hl Hrun Hi Hx Hzero. rewrite (run_guarded_ratio _ _ _ _ _ _ _ Hl) in Hrun.
  injection Hrun as Hs _.
  eapply guarded_ratio_series_zero; [done..|]. by apply zero_not_positive.
Qed.

End ratios.

(** ** The unified table: grouping, merging, filling *)

Lemma elem_of_insert_sorted k x l : x ∈ insert_sorted k l <-> x = k ∨ x ∈ l.
Proof.
  induction l as [|y l IH]; cbn [insert_sorted].
  - rewrite list_elem_of_singleton. set_unfold. tauto.
  - destruct (k <? y)%Z eqn:Hlt; [by rewrite elem_of_cons|].
    destruct (k =? y)%Z eqn:Heq.
    + apply Z.eqb_eq in Heq as ->. rewrite elem_of_cons. tauto.
    + rewrite !elem_of_cons, IH. tauto.
Qed.

Lemma elem_of_sorted_unique k l : k ∈ sorted_unique l <-> k ∈ l.
Proof.
  unfold sorted_unique. induction l as [|x l IH]; cbn [foldr]; [done|].
  rewrite elem_of_insert_sorted, elem_of_cons, IH. done.
Qed.

Lemma cell_at_mkRow i m c : cell_at (mkRow i m) c = default (Num NaN) (m !! c).
Proof. done. Qed.

Lemma elem_of_group c k rs r :
  r ∈ group c k rs <-> r ∈ rs ∧ cell_at r c = Date k.
Proof.
  unfold group. rewrite list_elem_of_filter, Is_true_true, cell_eqb_date by by eexists.
  tauto.
Qed.

Lemma group_nil c k rs :
  group c k rs = [] <-> ∀ r, r ∈ rs -> cell_at r c ≠ Date k.
Proof.
  split.
  - intros Hnil r Hr Hk. assert (r ∈ group c k rs) as Hin by by apply elem_of_group.
    rewrite Hnil in Hin. by apply elem_of_nil in Hin.
  - intros Hno. destruct (group c k rs) as [|r g] eqn:Hg; [done|].
    assert (r ∈ group c k rs) as [Hr Hk]%elem_of_group by (rewrite Hg; left).
    by destruct (Hno r Hr).
Qed.

Lemma elem_of_imap_mkRow (ms : list (gmap string cell)) r :
  r ∈ imap mkRow ms <-> ∃ i, ms !! i = Some (cells r) ∧ label r = i.
Proof.
  rewrite list_elem_of_lookup. setoid_rewrite list_lookup_imap. split.
  - intros (i & Hi). destruct (ms !! i) as [m|] eqn:Hm; [|done].
    injection Hi as <-. eauto.
  - intros (i & Hi & <-). exists (label r). rewrite Hi. by destruct r.
Qed.

Lemma Forall2_imap_mkRow {K} (P : gmap string cell -> K -> Prop) ms (ks : list K) :
  Forall2 P ms ks -> Forall2 (fun r k => P (cells r) k) (imap mkRow ms) ks.
Proof.
  intros HP. apply Forall2_same_length_lookup. split.
  - rewrite length_imap. by eapply Forall2_length.
  - intros i r k Hr Hk. rewrite list_lookup_imap in Hr.
    destruct (ms !! i) as [m|] eqn:Hm; [|done]. injection Hr as <-. cbn [cells].
    destruct (Forall2_lookup_l _ _ _ _ _ HP Hm) as (k' & Hk' & HPmk). congruence.
Qed.

Section unify.
Context {L : Lib}.

Lemma keys_Ok df c ks :
  DataFrame.keys df c = Ok ks ->
  c ∈ columns df ∧ Forall2 (fun r k => cell_at r c = Date k) (rows df) ks.
Proof.
  unfold DataFrame.keys. intros (s & Hs & Hks)%bind_Ok.
  apply getitem_Ok in Hs as [Hc ->]. split; [done|].
  apply mapM_Ok, Forall2_fmap_l in Hks.
  eapply Forall2_impl; [exact Hks|]. cbn. intros r k Hk.
  destruct (cell_at r c); try done. by injection Hk as ->.
Qed.

(** The keys of a frame are the timestamps of its date cells. *)
Lemma keys_dates df ks t :
  Forall2 (fun r k => cell_at r "date" = Date k) (rows df) ks ->
  t ∈ ks <-> Date t ∈ dates df.
Proof.
  intros Hks. unfold dates. rewrite list_elem_of_fmap. split.
  - intros [i Hi]%list_elem_of_lookup.
    destruct (Forall2_lookup_r _ _ _ _ _ Hks Hi) as (r & Hr & Hd).
    exists r. split; [done | by eapply list_elem_of_lookup_2].
  - intros (r & Hd & [i Hi]%list_elem_of_lookup).
    destruct (Forall2_lookup_l _ _ _ _ _ Hks Hi) as (k & Hk & Hd').
    rewrite Hd' in Hd. injection Hd as ->. by eapply list_elem_of_lookup_2.
Qed.

Lemma group_row_date key cols rs k m :
  DataFrame.group_row key cols rs k = Ok m -> m !! key = Some (Date k).
Proof.
  unfold DataFrame.group_row. intros (vs & _ & [= <-])%bind_Ok.
  cbn [list_to_map foldr]. apply lookup_insert_eq.
Qed.

Lemma groupby_sum_Ok df key cols out :
  DataFrame.groupby_sum df key cols = Ok out ->
  ∃ ks, Forall2 (fun r k => cell_at r key = Date k) (rows df) ks
        ∧ columns out = key :: cols
        ∧ Forall2 (fun r k => cell_at r key = Date k) (rows out) (sorted_unique ks).
Proof.
  unfold DataFrame.groupby_sum.
  intros (ks & Hks & (? & _ & (ms & Hms & [= <-])%bind_Ok)%bind_Ok)%bind_Ok.
  apply keys_Ok in Hks as [_ Hks]. exists ks. split_and!; [done..|].
  cbn [rows]. apply mapM_Ok in Hms.
  apply (Forall2_imap_mkRow (fun m k => default (Num NaN) (m !! key) = Date k)).
  apply Forall2_flip. eapply Forall2_impl; [exact Hms|]. cbn beta.
  intros k m Hm. by erewrite group_row_date.
Qed.


Lemma keeps_keys c (l l' : list Row) (ks : list Z) :
  Forall2 (keeps c) l l' ->
  Forall2 (fun r k => cell_at r c = Date k) l ks ->
  Forall2 (fun r k => cell_at r c = Date k) l' ks.
Proof.
  intros Hk%Forall2_flip Hl. eapply Forall2_compose; [|exact Hk|exact Hl].
  cbn beta. unfold keeps. intros r' r k [_ ->] ?. done.
Qed.

Lemma daily_marketing_frame_Ok dm daily :
  daily_marketing_frame dm = Ok daily ->
  columns daily = "date" :: ad_columns
  ∧ ∃ ks, Forall2 (fun r k => cell_at r "date" = Date k) (rows dm) ks
          ∧ Forall2 (fun r k => cell_at r "date" = Date k) (rows daily) (sorted_unique ks).
Proof.
  unfold daily_marketing_frame.
  intros (d1 & Hg & (d2 & H2 & H3)%bind_Ok)%bind_Ok.
  apply groupby_sum_Ok in Hg as (ks & Hks & Hcols & Hrows). split.
  - apply assign_Ok in H2 as (? & _ & [Hc2 _]%setitem_Ok).
    apply assign_Ok in H3 as (? & _ & [Hc3 _]%setitem_Ok).
    rewrite Hc3, Hc2, Hcols. reflexivity.
  - exists ks. split; [done|].
    eapply keeps_keys; [|exact Hrows].
    eapply keeps_trans; by eapply assign_keeps.
Qed.

Lemma merged_row_date on lcols rcols ov k lo ro :
  DataFrame.merged_row on lcols rcols ov k lo ro !! on = Some (Date k).
Proof. unfold DataFrame.merged_row. cbn [list_to_map foldr]. apply lookup_insert_eq. Qed.

Lemma merged_row_right on lcols rcols ov k lo ro c :
  NoDup (on :: (suffixed ov "_x" <$> lcols) ++ (suffixed ov "_y" <$> rcols)) ->
  c ∈ rcols ->
  DataFrame.merged_row on lcols rcols ov k lo ro !! suffixed ov "_y" c
  = Some (DataFrame.side ro c).
Proof.
  intros Hnd Hc. unfold DataFrame.merged_row. apply elem_of_list_to_map_1.
  - cbn [fmap list_fmap fst]. rewrite fmap_app, <- !list_fmap_compose. exact Hnd.
  - right. apply elem_of_app. right. apply list_elem_of_fmap. by exists c.
Qed.

Lemma merged_row_left on lcols rcols ov k lo ro c :
  NoDup (on :: (suffixed ov "_x" <$> lcols) ++ (suffixed ov "_y" <$> rcols)) ->
  c ∈ lcols ->
  DataFrame.merged_row on lcols rcols ov k lo ro !! suffixed ov "_x" c
  = Some (DataFrame.side lo c).
Proof.
  intros Hnd Hc. unfold DataFrame.merged_row. apply elem_of_list_to_map_1.
  - cbn [fmap list_fmap fst]. rewrite fmap_app, <- !list_fmap_compose. exact Hnd.
  - right. apply elem_of_app. left. apply list_elem_of_fmap. by exists c.
Qed.

(** Every row of a merged group is a merged row for its key, with a side
    absent exactly when that frame has no row of the key. *)
Lemma elem_of_merged_group on lcols rcols ov lrows rrows k m :
  m ∈ DataFrame.merged_group on lcols rcols ov lrows rrows k ->
  ∃ lo ro, m = DataFrame.merged_row on lcols rcols ov k lo ro
           ∧ (group on k lrows = [] -> lo = None)
           ∧ (group on k rrows = [] -> ro = None).
Proof.
  unfold DataFrame.merged_group.
  destruct (group on k lrows) as [|l ls]; [|destruct (group on k rrows) as [|r rs]].
  - intros (r & -> & Hr)%list_elem_of_fmap. exists None, (Some r).
    split_and!; [done..|]. intros Hnil. rewrite Hnil in Hr. by apply elem_of_nil in Hr.
  - intros (l' & -> & _)%list_elem_of_fmap. by exists (Some l'), None.
  - intros (l' & (r' & ->%list_elem_of_singleton & _)%list_elem_of_bind & _)%list_elem_of_bind.
    by exists (Some l'), (Some r').
Qed.

Lemma merged_group_nonempty on lcols rcols ov lrows rrows k :
  group on k lrows ≠ [] ∨ group on k rrows ≠ [] ->
  DataFrame.merged_group on lcols rcols ov lrows rrows k ≠ [].
Proof.
  unfold DataFrame.merged_group.
  destruct (group on k lrows) as [|l ls]; [|destruct (group on k rrows) as [|r rs]].
  - intros [?|Hr]; [done|]. by destruct (group on k rrows).
  - done.
  - done.
Qed.


Lemma merge_outer_Ok left right on merged :
  DataFrame.merge_outer left right on = Ok merged ->
  ∃ lk rk,
    Forall2 (fun r k => cell_at r on = Date k) (rows left) lk
    ∧ Forall2 (fun r k => cell_at r on = Date k) (rows right) rk
    ∧ NoDup (on :: (suffixed (shared on (columns left) (columns right)) "_x"
                      <$> others on (columns left))
                ++ (suffixed (shared on (columns left) (columns right)) "_y"
                      <$> others on (columns right)))
    ∧ (∀ c, c ∈ others on (columns left) ->
            suffixed (shared on (columns left) (columns right)) "_x" c ∈ columns merged)
    ∧ (∀ c, c ∈ others on (columns right) ->
            suffixed (shared on (columns left) (columns right)) "_y" c ∈ columns merged)
    ∧ (∀ o, o ∈ rows merged ->
         ∃ k, k ∈ lk ++ rk
              ∧ cells o ∈ DataFrame.merged_group on (others on (columns left))
                            (others on (columns right))
                            (shared on (columns left) (columns right))
                            (rows left) (rows right) k)
    ∧ (∀ k, k ∈ lk ++ rk -> ∃ o, o ∈ rows merged ∧ cell_at o on = Date k).
Proof.
  unfold DataFrame.merge_outer.
  intros (lk & [_ Hlk]%keys_Ok & (rk & [_ Hrk]%keys_Ok & Hm)%bind_Ok)%bind_Ok.
  cbn zeta in Hm. case_bool_decide as Hnd; [|done]. injection Hm as <-.
  exists lk, rk. cbn [columns rows]. split_and!; [done..| | | |].
  - intros c Hc. apply elem_of_app. left. apply list_elem_of_fmap. exists c.
    split; [|by apply list_elem_of_filter in Hc as [_ ?]].
    apply list_elem_of_filter in Hc as [Hne _]. by rewrite bool_decide_eq_false_2.
  - intros c Hc. apply elem_of_app. right. apply list_elem_of_fmap. by exists c.
  - intros o (i & Hi & _)%elem_of_imap_mkRow.
    apply list_elem_of_lookup_2, list_elem_of_join in Hi as (g & Ho & Hg).
    apply list_elem_of_fmap in Hg as (k & -> & Hk).
    apply (proj1 (elem_of_sorted_unique _ _)) in Hk. eauto.
  - intros k Hk.
    set (g := DataFrame.merged_group on (others on (columns left))
                (others on (columns right)) (shared on (columns left) (columns right))
                (rows left) (rows right) k).
    assert (g ≠ []) as Hne.
    { apply merged_group_nonempty. apply elem_of_app in Hk as [Hk|Hk].
      - left. apply list_elem_of_lookup in Hk as [i Hi].
        destruct (Forall2_lookup_r _ _ _ _ _ Hlk Hi) as (r & Hr & Hd).
        intros Hnil. eapply (proj1 (group_nil _ _ _) Hnil); [|done].
        by eapply list_elem_of_lookup_2.
      - right. apply list_elem_of_lookup in Hk as [i Hi].
        destruct (Forall2_lookup_r _ _ _ _ _ Hrk Hi) as (r & Hr & Hd).
        intros Hnil. eapply (proj1 (group_nil _ _ _) Hnil); [|done].
        by eapply list_elem_of_lookup_2. }
    destruct g as [|m g'] eqn:Hg; [done|].
    assert (m ∈ mjoin (map (DataFrame.merged_group on (others on (columns left))
                (others on (columns right)) (shared on (columns left) (columns right))
                (rows left) (rows right)) (sorted_unique (lk ++ rk)))) as Hin.
    { apply list_elem_of_join. exists (m :: g'). split; [left|].
      apply list_elem_of_fmap. exists k. split; [done|]. by apply elem_of_sorted_unique. }
    apply list_elem_of_lookup in Hin as [i Hi].
    exists (mkRow i m). split.
    + apply elem_of_imap_mkRow. by exists i.
    + rewrite cell_at_mkRow.
      assert (m ∈ g) as Hmg by (subst g; rewrite Hg; left).
      apply elem_of_merged_group in Hmg as (lo & ro & -> & _).
      by rewrite merged_row_date.
Qed.

Lemma fillna_rows_all df v :
  Forall2 (fun r r' => label r' = label r
             ∧ ∀ c, cell_at r' c = if bool_decide (c ∈ columns df)
                                   then fill v (cell_at r c) else cell_at r c)
          (rows df) (rows (DataFrame.fillna df v)).
Proof.
  cbn [DataFrame.fillna rows]. apply Forall2_fmap_r, Forall_Forall2_diag, Forall_forall.
  intros r _. split; [done|]. intros c. apply cell_at_fillna_row.
Qed.

Lemma create_unified_frame_Ok db dm out :
  create_unified_frame db dm = Ok out ->
  ∃ daily merged,
    daily_marketing_frame dm = Ok daily
    ∧ DataFrame.merge_outer db daily "date" = Ok merged
    ∧ Forall2 (fun m o => label o = label m
                 ∧ ∀ c, c ≠ "marketing_efficiency" ->
                        cell_at o c = if bool_decide (c ∈ columns merged)
                                      then fill (Num 0) (cell_at m c) else cell_at m c)
              (rows merged) (rows out).
Proof.
  unfold create_unified_frame.
  intros (daily & Hd & (merged & Hm & Ha)%bind_Ok)%bind_Ok.
  exists daily, merged. split_and!; [done..|].
  apply assign_Ok in Ha as (s & _ & Hset%setitem_rows).
  eapply Forall2_compose; [|apply (fillna_rows_all merged (Num 0))|exact Hset].
  cbn beta. intros m f o [L1 E1] [L2 E2]. split; [congruence|].
  intros c Hc. rewrite E2 by done. apply E1.
Qed.

End unify.

(** A case split of a run that is known to return. *)
Ltac case_ok_in E :=
  match type of E with
  | context [match ?X with Ok _ => _ | Raise _ => _ end] =>
      destruct X eqn:?; [norm_in E | discriminate E]
  end.

Section unify_store.
Context {L : Lib}.

(** The daily-aggregated ad table is the first frame
    [create_unified_dataset] allocates, the unified table the last. *)
Lemma create_unified_dataset_store (h : heap) b m db dm r h' :
  h !! b = Some db -> h !! m = Some dm ->
  create_unified_dataset b m h = (Ok r, h') ->
  ∃ daily out,
    daily_marketing_frame dm = Ok daily
    ∧ create_unified_frame db dm = Ok out
    ∧ h' !! length h = Some daily
    ∧ h' !! r = Some out.
Proof.
  intros Hb Hm E. unfold create_unified_dataset in E.
  replace h with (h ++ []) in E by apply app_nil_r.
  repeat (first [exec_in E | case_ok_in E]).
  rewrite run_ret in E. injection E as <- <-.
  unfold create_unified_frame, daily_marketing_frame, assign.
  repeat match goal with
    | H : _ = Ok _ |- _ => rewrite H; clear H; cbn [mbind result_bind]
    end.
  eexists _, _. split_and!; [reflexivity..| |].
  - rewrite <- (Nat.add_0_r (length h)). by apply lookup_new.
  - by apply lookup_new.
Qed.

End unify_store.

(** ** Unparseable dates *)

Section bad_dates.
Context {L : Lib}.




End bad_dates.

(** * The claims *)

Section claims.
Context {L : Lib}.

(** C2. Every row of the table [clean_marketing_data] returns has a
    positive impression count, and a record whose impression count is not
    positive (zero in particular) is not in it, whatever else it holds. *)
Theorem cleaned_impressions_positive (h : heap) l d0 p r h' :
  h !! l = Some d0 ->
  clean_marketing_data l p h = (Ok r, h') ->
  ∃ out, h' !! r = Some out
    ∧ (∀ o, o ∈ rows out ->
         ∃ x, cell_at o "impression" = Num x ∧ (0 <? x)%float = true)
    ∧ (NoDup (label <$> rows d0) ->
       ∀ r0 x, r0 ∈ rows d0 -> cell_at r0 "impression" = Num x ->
               (0 <? x)%float = false ->
               label r0 ∉ label <$> rows out).
Proof.
  intros Hl Hrun.
  destruct (refines_returns _ _ _ _ _ (clean_marketing_data_refines h l d0 p Hl) Hrun)
    as (out & ext & Hout & -> & Hr).
  exists out. split; [done|].
  apply clean_marketing_frame_Ok in Hout as (pre & mask & Hpre & Hmask & Hrows & _).
  apply positive_series_Ok in Hmask as [_ Hmask].
  apply derive_marketing_frame_impression in Hpre.
  assert (Hsel : ∀ o, o ∈ rows out ->
    ∃ i x, rows pre !! i = Some o ∧ cell_at o "impression" = Num x
           ∧ (0 <? x)%float = true).
  { intros o Ho. rewrite Hrows in Ho.
    destruct (select_lookup _ _ _ _ Hmask Ho) as (i & Hi & x & Hx & Hpos). eauto. }
  split.
  - intros o Ho. destruct (Hsel o Ho) as (i & x & _ & ? & ?). eauto.
  - intros Hnd r0 x Hr0 Hx Hnot (o & Hlab & Ho)%list_elem_of_fmap.
    destruct (Hsel o Ho) as (i & x' & Hi & Hx' & Hpos).
    destruct (Forall2_lookup_r _ _ _ _ _ Hpre Hi) as (ri & Hri & Hlab' & Himp).
    apply list_elem_of_lookup in Hr0 as [j Hj].
    assert (i = j) as ->.
    { eapply NoDup_lookup; [exact Hnd| |]; rewrite list_lookup_fmap.
      - by rewrite Hri.
      - rewrite Hj. cbn. congruence. }
    rewrite Hri in Hj. injection Hj as ->.
    rewrite Hx, Hx' in Himp. cbn in Himp. unfold fill in Himp. cbn [is_na] in Himp.
    destruct (is_nan x); injection Himp as ->; [done | congruence].
Qed.



(** C3. The table [clean_business_data] returns holds at most one record
    per date, and for every input record exactly one record of its date
    remains. *)
Theorem one_record_per_date (h : heap) l d0 r h' :
  h !! l = Some d0 ->
  clean_business_data l h = (Ok r, h') ->
  ∃ out, h' !! r = Some out
    ∧ NoDup ((fun o => cell_at o "date") <$> rows out)
    ∧ ∀ r0, r0 ∈ rows d0 ->
        ∃ i o, rows out !! i = Some o
               ∧ date_of r0 = Ok (cell_at o "date")
               ∧ ∀ j o', rows out !! j = Some o' ->
                         cell_at o' "date" = cell_at o "date" -> j = i.
Proof.
  intros Hl Hrun.
  destruct (refines_returns _ _ _ _ _ (clean_business_data_refines h l d0 Hl) Hrun)
    as (out & ext & Hout & -> & Hr).
  exists out. split; [done|].
  apply clean_business_frame_Ok in Hout as (pre & K & Hrows).
  pose proof (date_keys _ _ K) as Hdates.
  assert (Hnd : NoDup ((fun o => cell_at o "date") <$> rows out)).
  { rewrite Hrows. apply first_occurrences_NoDup. }
  split; [done|].
  intros r0 [i Hi]%list_elem_of_lookup.
  destruct (Forall2_lookup_l _ _ _ _ _ K Hi) as (p & Hp & _ & Hd).
  destruct (first_occurrences_covers "date" (rows pre) [] p) as [Hin|(o & Ho & Heq)];
    [constructor|done|by eapply list_elem_of_lookup_2| |].
  { by apply elem_of_nil in Hin. }
  rewrite <- Hrows in Ho. apply list_elem_of_lookup in Ho as [k Hk].
  exists k, o. split_and!; [done|by rewrite Heq|].
  intros j o' Hj Hsame. eapply NoDup_lookup; [exact Hnd| |]; rewrite list_lookup_fmap.
  - rewrite Hj. cbn. by rewrite Hsame.
  - by rewrite Hk.
Qed.

(** C10. Among the business records of one date, [clean_business_data]
    keeps the first in input order and discards the later ones. *)
Theorem duplicate_dates_keep_first (h : heap) l d0 r h' :
  h !! l = Some d0 ->
  clean_business_data l h = (Ok r, h') ->
  ∃ out, h' !! r = Some out
    ∧ (∀ o, o ∈ rows out ->
         ∃ i r0, rows d0 !! i = Some r0
                 ∧ label o = label r0
                 ∧ date_of r0 = Ok (cell_at o "date")
                 ∧ ∀ j rj, j < i -> rows d0 !! j = Some rj -> date_of rj ≠ date_of r0)
    ∧ (∀ i r0, rows d0 !! i = Some r0 ->
         (∀ j rj, j < i -> rows d0 !! j = Some rj -> date_of rj ≠ date_of r0) ->
         ∃ o, o ∈ rows out ∧ label o = label r0 ∧ date_of r0 = Ok (cell_at o "date"))
    ∧ (NoDup (label <$> rows d0) ->
       ∀ i j ri rj, i < j -> rows d0 !! i = Some ri -> rows d0 !! j = Some rj ->
                    date_of rj = date_of ri ->
                    label rj ∉ label <$> rows out).
Proof.
  intros Hl Hrun.
  destruct (refines_returns _ _ _ _ _ (clean_business_data_refines h l d0 Hl) Hrun)
    as (out & ext & Hout & -> & Hr).
  exists out. split; [done|].
  apply clean_business_frame_Ok in Hout as (pre & K & Hrows).
  pose proof (date_keys _ _ K) as Hdates.
  assert (Hkept : ∀ o, o ∈ rows out ->
    ∃ i r0, rows d0 !! i = Some r0 ∧ label o = label r0
            ∧ date_of r0 = Ok (cell_at o "date")
            ∧ ∀ j rj, j < i -> rows d0 !! j = Some rj -> date_of rj ≠ date_of r0).
  { intros o Ho. rewrite Hrows in Ho.
    apply first_occurrences_spec in Ho as (i & Hi & _ & Hbefore); [|constructor|done].
    destruct (Forall2_lookup_r _ _ _ _ _ K Hi) as (r0 & Hr0 & Hlab & Hd).
    exists i, r0. split_and!; [done..|].
    intros j rj Hj Hrj Heq.
    destruct (Forall2_lookup_l _ _ _ _ _ K Hrj) as (pj & Hpj & _ & Hdj).
    apply (Hbefore j pj Hj Hpj). congruence. }
  split; [done|]. split.
  - intros i r0 Hi Hfirst.
    destruct (Forall2_lookup_l _ _ _ _ _ K Hi) as (p & Hp & Hlab & Hd).
    exists p. split_and!; [|done..]. rewrite Hrows.
    apply first_occurrences_spec; [constructor|done|].
    exists i. split_and!; [done|apply not_elem_of_nil|].
    intros j pj Hj Hpj Heq.
    destruct (Forall2_lookup_r _ _ _ _ _ K Hpj) as (rj & Hrj & _ & Hdj).
    apply (Hfirst j rj Hj Hrj). congruence.
  - intros Hnd i j ri rj Hij Hi Hj Hsame (o & Hlab & Ho)%list_elem_of_fmap.
    destruct (Hkept o Ho) as (i' & r0 & Hi' & Hlab' & _ & Hfirst).
    assert (i' = j) as ->.
    { eapply NoDup_lookup; [exact Hnd| |]; rewrite list_lookup_fmap.
      - by rewrite Hi'.
      - rewrite Hj. cbn. congruence. }
    rewrite Hj in Hi'. injection Hi' as <-.
    by apply (Hfirst i ri Hij Hi).
Qed.

End claims.

Section combine_claim.
Context {L : Lib}.

(** C6, as far as the code goes. The combined table holds the rows of the
    three cleaned platform tables, each once, relabelled by their position
    in the concatenation, in ascending order of date. Rows of one date keep
    their input order when the sort the library runs is stable. *)
Theorem combined_sorted_by_date (h : heap) f g t df dg dt r h' :
  argsort_sorts L ->
  h !! f = Some df -> h !! g = Some dg -> h !! t = Some dt ->
  combine_marketing_data f g t h = (Ok r, h') ->
  ∃ out c1 c2 c3,
    h' !! r = Some out
    ∧ returns (clean_marketing_data f "Facebook") h c1
    ∧ returns (clean_marketing_data g "Google") h c2
    ∧ returns (clean_marketing_data t "TikTok") h c3
    ∧ rows out ≡ₚ reindex (rows c1 ++ rows c2 ++ rows c3)
    ∧ (∃ ks, Forall2 (fun o k => cell_at o "date" = Date k) (rows out) ks
             ∧ Sorted Z.le ks)
    ∧ (argsort_stable L ->
       ∀ i j oi oj, i < j -> rows out !! i = Some oi -> rows out !! j = Some oj ->
                    cell_at oi "date" = cell_at oj "date" -> label oi < label oj).
Proof.
  intros Hsorts Hf Hg Ht Hrun.
  destruct (refines_returns _ _ _ _ _
              (combine_marketing_data_refines h f g t df dg dt Hf Hg Ht) Hrun)
    as (out & ext & Hout & -> & Hr).
  apply combine_marketing_frames_Ok in Hout as (c1 & c2 & c3 & H1 & H2 & H3 & Hsort).
  exists out, c1, c2, c3. split; [done|].
  pose proof (clean_marketing_data_refines h f df "Facebook" Hf) as R1.
  pose proof (clean_marketing_data_refines h g dg "Google" Hg) as R2.
  pose proof (clean_marketing_data_refines h t dt "TikTok" Ht) as R3.
  rewrite H1 in R1. rewrite H2 in R2. rewrite H3 in R3.
  split_and!; [by apply refines_Ok_returns..| | |].
  all: apply sort_values_Ok in Hsort as (ks & Hks & Hrows & _).
  all: cbn [DataFrame.concat rows map mjoin list_join] in Hks, Hrows.
  all: rewrite (app_nil_r (rows c3)) in Hks, Hrows.
  all: set (rs := reindex (rows c1 ++ rows c2 ++ rows c3)) in *.
  all: destruct (Hsorts ks) as [Hperm Hasc].
  all: pose proof (Forall2_length _ _ _ Hks) as Hlen.
  - rewrite Hrows. apply take_Permutation. by rewrite Hlen.
  - exists (omap (fun i => ks !! i) (argsort ks)). split; [|done].
    rewrite Hrows. by apply take_keys.
  - intros Hstable i j oi oj Hij Hi Hj Hsame. rewrite Hrows in Hi, Hj.
    assert (Forall (fun a => a < length rs) (argsort ks)) as Hvalid.
    { rewrite Hperm, Hlen. apply Forall_forall. by intros a [_ ?]%elem_of_seq. }
    destruct (take_lookup _ _ _ _ Hvalid Hi) as (a & Ha & Hoi).
    destruct (take_lookup _ _ _ _ Hvalid Hj) as (b & Hb & Hoj).
    destruct (Forall2_lookup_l _ _ _ _ _ Hks Hoi) as (ka & Hka & Hda).
    destruct (Forall2_lookup_l _ _ _ _ _ Hks Hoj) as (kb & Hkb & Hdb).
    apply reindex_lookup in Hoi as (? & _ & ->).
    apply reindex_lookup in Hoj as (? & _ & ->). cbn [label].
    apply (Hstable ks i j a b Hij Ha Hb). rewrite Hka, Hkb. congruence.
Qed.

End combine_claim.

Section unify_claim.
Context {L : Lib}.

(** C4. The dates of the unified table are those of the business table
    together with those of the daily-aggregated ad table, and a record
    whose date one side lacks holds 0 in every column of that side. A
    column both sides have besides the date carries pandas' suffix. *)
Theorem unified_outer_join (h : heap) b m db dm r h' :
  h !! b = Some db -> h !! m = Some dm ->
  create_unified_dataset b m h = (Ok r, h') ->
  ∃ out daily,
    h' !! r = Some out
    ∧ h' !! length h = Some daily
    ∧ (∀ c, c ∈ dates daily <-> c ∈ dates dm)
    ∧ (∀ c, c ∈ dates out <-> c ∈ dates db ∨ c ∈ dates daily)
    ∧ (∀ o c, o ∈ rows out -> cell_at o "date" ∉ dates daily -> c ∈ ad_columns ->
              cell_at o (suffixed (shared "date" (columns db) (columns daily)) "_y" c)
              = Num 0)
    ∧ (∀ o c, o ∈ rows out -> cell_at o "date" ∉ dates db ->
              c ∈ columns db -> c ≠ "date" -> c ≠ "marketing_efficiency" ->
              cell_at o (suffixed (shared "date" (columns db) (columns daily)) "_x" c)
              = Num 0).
Proof.
  intros Hb Hm Hrun.
  destruct (create_unified_dataset_store h b m db dm r h' Hb Hm Hrun)
    as (daily & out & Hdaily & Hout & Hld & Hlr).
  exists out, daily. split; [done|]. split; [done|].
  apply create_unified_frame_Ok in Hout as (daily' & merged & Hdaily' & Hmerge & Hrows).
  rewrite Hdaily in Hdaily'. injection Hdaily' as <-.
  apply daily_marketing_frame_Ok in Hdaily as (Hdcols & ks & Hks & Hdks).
  apply merge_outer_Ok in Hmerge
    as (lk & rk & Hlk & Hrk & Hnd & Hlcols & Hrcols & Hmrows & Hmkeys).
  set (ov := shared "date" (columns db) (columns daily)) in *.
  (* every unified row comes from a merged row of some key *)
  assert (Hfrom : ∀ o, o ∈ rows out ->
    ∃ mr k lo ro,
      (k ∈ lk ∨ k ∈ rk)
      ∧ cells mr = DataFrame.merged_row "date" (others "date" (columns db))
                     (others "date" (columns daily)) ov k lo ro
      ∧ (Date k ∉ dates db -> lo = None)
      ∧ (Date k ∉ dates daily -> ro = None)
      ∧ cell_at o "date" = Date k
      ∧ ∀ c, c ≠ "marketing_efficiency" ->
             cell_at o c = if bool_decide (c ∈ columns merged)
                           then fill (Num 0) (cell_at mr c) else cell_at mr c).
  { intros o [i Hi]%list_elem_of_lookup.
    destruct (Forall2_lookup_r _ _ _ _ _ Hrows Hi) as (mr & Hmr & _ & Hcells).
    destruct (Hmrows mr (list_elem_of_lookup_2 _ _ _ Hmr)) as (k & Hk & Hg).
    apply elem_of_merged_group in Hg as (lo & ro & Heq & Hlo & Hro).
    exists mr, k, lo, ro. split_and!; [by apply elem_of_app in Hk|done| | | |done].
    - intros Hno. apply Hlo, group_nil. intros r' Hr' Hd. apply Hno.
      apply list_elem_of_fmap. by exists r'.
    - intros Hno. apply Hro, group_nil. intros r' Hr' Hd. apply Hno.
      apply list_elem_of_fmap. by exists r'.
    - rewrite Hcells by done.
      assert (cell_at mr "date" = Date k) as ->
        by (unfold cell_at; by rewrite Heq, merged_row_date).
      by destruct (bool_decide _). }
  split_and!.
  - (* the daily table holds the dates of the ad table *)
    intros c. split.
    + intros (r' & -> & [i Hi]%list_elem_of_lookup)%list_elem_of_fmap.
      destruct (Forall2_lookup_l _ _ _ _ _ Hdks Hi) as (k & Hk & ->).
      apply list_elem_of_lookup_2 in Hk.
      apply (proj1 (elem_of_sorted_unique _ _)) in Hk.
      by apply (keys_dates dm ks).
    + intros (r' & -> & [i Hi]%list_elem_of_lookup)%list_elem_of_fmap.
      destruct (Forall2_lookup_l _ _ _ _ _ Hks Hi) as (k & Hk & ->).
      apply (keys_dates daily (sorted_unique ks)); [done|].
      apply elem_of_sorted_unique. by eapply list_elem_of_lookup_2.
  - (* outer join of the dates *)
    intros c. split.
    + intros (o & -> & Ho)%list_elem_of_fmap.
      destruct (Hfrom o Ho) as (mr & k & lo & ro & Hk & _ & _ & _ & -> & _).
      destruct Hk as [Hk|Hk]; [left; by apply (keys_dates db lk)
                              |right; by apply (keys_dates daily rk)].
    + intros Hc.
      assert (∃ k, c = Date k ∧ k ∈ lk ++ rk) as (k & -> & Hk).
      { destruct Hc as [(r' & -> & [i Hi]%list_elem_of_lookup)%list_elem_of_fmap
                       |(r' & -> & [i Hi]%list_elem_of_lookup)%list_elem_of_fmap].
        - destruct (Forall2_lookup_l _ _ _ _ _ Hlk Hi) as (k & Hk & ->).
          exists k. split; [done|]. apply elem_of_app. left.
          by eapply list_elem_of_lookup_2.
        - destruct (Forall2_lookup_l _ _ _ _ _ Hrk Hi) as (k & Hk & ->).
          exists k. split; [done|]. apply elem_of_app. right.
          by eapply list_elem_of_lookup_2. }
      destruct (Hmkeys k Hk) as (mr & [i Hi]%list_elem_of_lookup & Hd).
      destruct (Forall2_lookup_l _ _ _ _ _ Hrows Hi) as (o & Ho & _ & Hcells).
      apply list_elem_of_fmap. exists o. split; [|by eapply list_elem_of_lookup_2].
      rewrite Hcells by done. rewrite Hd. by destruct (bool_decide _).
  - (* a date the ad table lacks: its columns hold 0 *)
    intros o c Ho Hno Hc.
    destruct (Hfrom o Ho) as (mr & k & lo & ro & _ & Heq & _ & Hro & Hd & Hcells).
    rewrite Hd in Hno. rewrite (Hro Hno) in Heq.
    assert (c ∈ others "date" (columns daily)) as Hc'.
    { rewrite Hdcols. revert Hc. unfold ad_columns. rewrite !elem_of_cons.
      intros [->|[->|[->|[->|[->|[->|[]%elem_of_nil]]]]]];
        apply (bool_decide_unpack _); vm_compute; exact I. }
    rewrite Hcells.
    + rewrite bool_decide_eq_true_2 by by apply Hrcols.
      unfold cell_at. by rewrite Heq, merged_row_right.
    + unfold suffixed. revert Hc. unfold ad_columns. rewrite !elem_of_cons.
      intros Hc. repeat (destruct Hc as [Hc|Hc]; [rewrite Hc; by case_bool_decide|]).
      by apply elem_of_nil in Hc.
  - (* a date the business table lacks: its columns hold 0 *)
    intros o c Ho Hno Hc Hne Hme.
    destruct (Hfrom o Ho) as (mr & k & lo & ro & _ & Heq & Hlo & _ & Hd & Hcells).
    rewrite Hd in Hno. rewrite (Hlo Hno) in Heq.
    assert (c ∈ others "date" (columns db)) as Hc' by by apply list_elem_of_filter.
    rewrite Hcells.
    + rewrite bool_decide_eq_true_2 by by apply Hlcols.
      unfold cell_at. by rewrite Heq, merged_row_left.
    + unfold suffixed. case_bool_decide as Hov; [|done].
      apply list_elem_of_filter in Hov as [Hov _]. rewrite Hdcols in Hov.
      apply list_elem_of_filter in Hov as [_ Hov]. revert Hov.
      unfold ad_columns. rewrite !elem_of_cons.
      intros Hov. repeat (destruct Hov as [Hov|Hov]; [by rewrite Hov|]).
      by apply elem_of_nil in Hov.
Qed.

End unify_claim.

Section date_claim.
Context {L : Lib}.


End date_claim.

(** * The claims on concrete tables *)

(** C5. The specification's scenario: the ad record of 2024-01-01 gets
    ctr 2.0, cpc 2.5, roas 1.5 and cpm 50.0, and the unified record of that
    date has marketing efficiency 10.0, also when the business table comes
    with the column names of the source file. *)
Theorem scenario_2024 :
  let ads := clean_marketing_data (L:=RefLib.lib) 1 "Facebook" st_2024 in
  let unified := run_pipeline (L:=RefLib.lib) 0 1 2 3 st_2024 in
  let unified_raw := run_pipeline (L:=RefLib.lib) 0 1 2 3
                       [business_2024_raw; ads_2024; no_ads; no_ads] in
  column_of ads "platform" = Ok [Str "Facebook"]
  ∧ column_of ads "ctr" = Ok [Num 2]
  ∧ column_of ads "cpc" = Ok [Num 2.5]
  ∧ column_of ads "roas" = Ok [Num 1.5]
  ∧ column_of ads "cpm" = Ok [Num 50]
  ∧ column_of unified "date" = Ok [Date 20240101]
  ∧ column_of unified "total_revenue" = Ok [Num 1000]
  ∧ column_of unified "spend" = Ok [Num 100]
  ∧ column_of unified "marketing_efficiency" = Ok [Num 10]
  ∧ column_of unified_raw "date" = Ok [Date 20240101]
  ∧ column_of unified_raw "marketing_efficiency" = Ok [Num 10].
Proof. vm_compute. repeat split. Qed.

(** C1, where the code departs from it. On a day without revenue and
    without orders [clean_business_data] divides by zero unguarded: the
    profit margin is an infinity and the average order value is NaN. *)
Theorem business_ratios_unguarded :
  let cleaned := clean_business_data (L:=RefLib.lib) 0 [business_idle_day] in
  column_of cleaned "total_revenue" = Ok [Num 0]
  ∧ column_of cleaned "num_of_orders" = Ok [Num 0]
  ∧ column_of cleaned "profit_margin" = Ok [Num infinity]
  ∧ column_of cleaned "avg_order_value" = Ok [Num NaN].
Proof. vm_compute. repeat split. Qed.

(** C8, where the code departs from it. A platform table that lacks one of
    the expected columns makes [clean_marketing_data] raise a [KeyError]
    for that column. *)
Theorem missing_column_raises :
  let clean c := (clean_marketing_data (L:=RefLib.lib) 0 "Facebook"
                    [without_column c ads_2024]).1 in
  clean "impression" = Raise (KeyError "impression")
  ∧ clean "clicks" = Raise (KeyError "clicks")
  ∧ clean "spend" = Raise (KeyError "spend")
  ∧ clean "attributed revenue" = Raise (KeyError "attributed revenue").
Proof. vm_compute. repeat split. Qed.


(** C6 fails as stated. Eighteen ad records of one date, six per platform:
    the sort that [sort_values('date')] runs partitions a range of more
    than seventeen keys, and the partition exchanges equal keys. Fifteen
    of the records come out of [combine_marketing_data] in the reverse of
    their input order, TikTok's ahead of Google's ahead of Facebook's. *)
Lemma default_sort_reorders_ties :
  let h := [campaigns "2024-01-01" [1; 2; 3; 4; 5; 6];
            campaigns "2024-01-01" [7; 8; 9; 10; 11; 12];
            campaigns "2024-01-01" [13; 14; 15; 16; 17; 18]]%Z in
  let combined := combine_marketing_data (L:=QuicksortLib.lib) 0 1 2 h in
  column_of (clean_marketing_data (L:=QuicksortLib.lib) 0 "Facebook" h) "clicks"
  = Ok [Num 1; Num 2; Num 3; Num 4; Num 5; Num 6]
  ∧ column_of (clean_marketing_data (L:=QuicksortLib.lib) 1 "Google" h) "clicks"
    = Ok [Num 7; Num 8; Num 9; Num 10; Num 11; Num 12]
  ∧ column_of (clean_marketing_data (L:=QuicksortLib.lib) 2 "TikTok" h) "clicks"
    = Ok [Num 13; Num 14; Num 15; Num 16; Num 17; Num 18]
  ∧ column_of combined "date" = Ok (replicate 18 (Date 20240101))
  ∧ column_of combined "clicks"
    = Ok [Num 1; Num 16; Num 15; Num 14; Num 13; Num 12; Num 11; Num 10; Num 9;
          Num 8; Num 7; Num 6; Num 5; Num 4; Num 3; Num 2; Num 17; Num 18]
  ∧ column_of combined "platform"
    = Ok (Str <$> ["Facebook"; "TikTok"; "TikTok"; "TikTok"; "TikTok";
                   "Google"; "Google"; "Google"; "Google"; "Google"; "Google";
                   "Facebook"; "Facebook"; "Facebook"; "Facebook"; "Facebook";
                   "TikTok"; "TikTok"]).
Proof. vm_compute. repeat split. Qed.

(** Up to seventeen records that sort sorts by insertion, which keeps equal
    keys in input order: six records over three dates come out by date,
    those of one date in the order Facebook, Google, TikTok. *)
Lemma few_records_keep_ties :
  let h := [ads_three_days; ads_same_day; ads_2024] in
  let combined := combine_marketing_data (L:=QuicksortLib.lib) 0 1 2 h in
  column_of combined "date"
  = Ok [Date 20240101; Date 20240101; Date 20240101; Date 20240101;
        Date 20240102; Date 20240103]
  ∧ column_of combined "clicks"
    = Ok [Num 39; Num 40; Num 41; Num 40; Num 12; Num 10]
  ∧ column_of combined "platform"
    = Ok (Str <$> ["Facebook"; "Google"; "Google"; "TikTok"; "Facebook"; "Facebook"])
  ∧ combine_marketing_data (L:=RefLib.lib) 0 1 2 h = combined.
Proof. vm_compute. repeat split. Qed.

(** ** Instances of the theorems *)

Lemma cleaned_impressions_positive_witness :
  let run := clean_marketing_data (L:=RefLib.lib) 0 "Facebook" [ads_idle_campaign] in
  ∃ out, run.2 !! 3 = Some out
    ∧ (∀ o, o ∈ rows out ->
         ∃ x, cell_at o "impression" = Num x ∧ (0 <? x)%float = true)
    ∧ (NoDup (label <$> rows ads_idle_campaign) ->
       ∀ r0 x, r0 ∈ rows ads_idle_campaign -> cell_at r0 "impression" = Num x ->
               (0 <? x)%float = false ->
               label r0 ∉ label <$> rows out).
Proof.
  intros run.
  apply (cleaned_impressions_positive (L:=RefLib.lib) [ads_idle_campaign] 0
           ads_idle_campaign "Facebook" 3 run.2 eq_refl).
  vm_compute. reflexivity.
Defined.

Lemma one_record_per_date_witness :
  let run := clean_business_data (L:=RefLib.lib) 0 [business_repeated_date] in
  ∃ out, run.2 !! 3 = Some out
    ∧ NoDup ((fun o => cell_at o "date") <$> rows out)
    ∧ ∀ r0, r0 ∈ rows business_repeated_date ->
        ∃ i o, rows out !! i = Some o
               ∧ date_of (L:=RefLib.lib) r0 = Ok (cell_at o "date")
               ∧ ∀ j o', rows out !! j = Some o' ->
                         cell_at o' "date" = cell_at o "date" -> j = i.
Proof.
  intros run.
  apply (one_record_per_date (L:=RefLib.lib) [business_repeated_date] 0
           business_repeated_date 3 run.2 eq_refl).
  vm_compute. reflexivity.
Defined.

Lemma duplicate_dates_keep_first_witness :
  let d0 := business_repeated_date in
  let run := clean_business_data (L:=RefLib.lib) 0 [d0] in
  ∃ out, run.2 !! 3 = Some out
    ∧ (∀ o, o ∈ rows out ->
         ∃ i r0, rows d0 !! i = Some r0
                 ∧ label o = label r0
                 ∧ date_of (L:=RefLib.lib) r0 = Ok (cell_at o "date")
                 ∧ ∀ j rj, j < i -> rows d0 !! j = Some rj ->
                           date_of (L:=RefLib.lib) rj ≠ date_of r0)
    ∧ (∀ i r0, rows d0 !! i = Some r0 ->
         (∀ j rj, j < i -> rows d0 !! j = Some rj ->
                  date_of (L:=RefLib.lib) rj ≠ date_of r0) ->
         ∃ o, o ∈ rows out ∧ label o = label r0
              ∧ date_of (L:=RefLib.lib) r0 = Ok (cell_at o "date"))
    ∧ (NoDup (label <$> rows d0) ->
       ∀ i j ri rj, i < j -> rows d0 !! i = Some ri -> rows d0 !! j = Some rj ->
                    date_of (L:=RefLib.lib) rj = date_of ri ->
                    label rj ∉ label <$> rows out).
Proof.
  intros d0 run.
  apply (duplicate_dates_keep_first (L:=RefLib.lib) [d0] 0 d0 3 run.2 eq_refl).
  vm_compute. reflexivity.
Defined.

Lemma unified_outer_join_witness :
  let db := business_two_days in
  let dm := ads_two_days in
  let run := create_unified_dataset (L:=RefLib.lib) 0 1 [db; dm] in
  ∃ out daily,
    run.2 !! 4 = Some out
    ∧ run.2 !! 2 = Some daily
    ∧ (∀ c, c ∈ dates daily <-> c ∈ dates dm)
    ∧ (∀ c, c ∈ dates out <-> c ∈ dates db ∨ c ∈ dates daily)
    ∧ (∀ o c, o ∈ rows out -> cell_at o "date" ∉ dates daily -> c ∈ ad_columns ->
              cell_at o (suffixed (shared "date" (columns db) (columns daily)) "_y" c)
              = Num 0)
    ∧ (∀ o c, o ∈ rows out -> cell_at o "date" ∉ dates db ->
              c ∈ columns db -> c ≠ "date" -> c ≠ "marketing_efficiency" ->
              cell_at o (suffixed (shared "date" (columns db) (columns daily)) "_x" c)
              = Num 0).
Proof.
  intros db dm run.
  apply (unified_outer_join (L:=RefLib.lib) [db; dm] 0 1 db dm 4 run.2 eq_refl eq_refl).
  vm_compute. reflexivity.
Defined.

Lemma combined_sorted_by_date_witness :
  let h := [ads_three_days; ads_same_day; ads_2024] in
  let run := combine_marketing_data (L:=RefLib.lib) 0 1 2 h in
  ∃ out c1 c2 c3,
    run.2 !! 13 = Some out
    ∧ returns (clean_marketing_data (L:=RefLib.lib) 0 "Facebook") h c1
    ∧ returns (clean_marketing_data (L:=RefLib.lib) 1 "Google") h c2
    ∧ returns (clean_marketing_data (L:=RefLib.lib) 2 "TikTok") h c3
    ∧ rows out ≡ₚ reindex (rows c1 ++ rows c2 ++ rows c3)
    ∧ (∃ ks, Forall2 (fun o k => cell_at o "date" = Date k) (rows out) ks
             ∧ Sorted Z.le ks)
    ∧ (argsort_stable RefLib.lib ->
       ∀ i j oi oj, i < j -> rows out !! i = Some oi -> rows out !! j = Some oj ->
                    cell_at oi "date" = cell_at oj "date" -> label oi < label oj).
Proof.
  intros h run.
  apply (combined_sorted_by_date (L:=RefLib.lib) h 0 1 2 ads_three_days ads_same_day
           ads_2024 13 run.2 stable_argsort_sorts eq_refl eq_refl eq_refl).
  vm_compute. reflexivity.
Defined.



(** * Further properties of the code

    What the four functions and the fetch do beyond the claims: cell by
    cell, on missing columns and bad values, and when composed. *)

(** ** Series and column assignments, row by row *)

Lemma Forall2_forall {A B C} `{Inhabited C} (P : C -> A -> B -> Prop) l k :
  (∀ c, Forall2 (P c) l k) -> Forall2 (fun x y => ∀ c, P c x y) l k.
Proof.
  intros HP. apply Forall2_same_length_lookup_2.
  - eapply Forall2_length, (HP inhabitant).
  - intros i x y Hx Hy c. by eapply Forall2_lookup_lr.
Qed.

Lemma Forall2_and {A B} (P Q : A -> B -> Prop) l k :
  Forall2 P l k -> Forall2 Q l k -> Forall2 (fun x y => P x y ∧ Q x y) l k.
Proof.
  intros HP. induction HP; inversion 1; subst; constructor; auto.
Qed.

Section more_frames.
Context {L : Lib}.

Lemma setitem_assigns (P : Row -> cell -> Prop) df c s df' :
  DataFrame.setitem df c s = Ok df' ->
  Forall2 P (rows df) s ->
  Forall2 (fun r r' => label r' = label r
             ∧ (∀ c', c' ≠ c -> cell_at r' c' = cell_at r c')
             ∧ P r (cell_at r' c))
          (rows df) (rows df').
Proof.
  intros Hset HP.
  eapply Forall2_impl; [exact (setitem_Forall2 P _ _ _ _ Hset HP)|].
  cbn beta. intros r r' (v & Hv & ->). split_and!; [done| |].
  - intros c' Hc'. rewrite cell_at_set_cell. by rewrite bool_decide_eq_false_2.
  - rewrite cell_at_set_cell. by rewrite bool_decide_eq_true_2.
Qed.

Lemma ratio_series_rows df num den scale q :
  ratio_series df num den scale = Ok q ->
  Forall2 (fun r v => ∃ xn xd, cell_at r num = Num xn ∧ cell_at r den = Num xd
                      ∧ v = Num (np_round2 (scaled scale (xn / xd))))
          (rows df) q.
Proof.
  unfold ratio_series.
  intros (a & [_ ->]%getitem_Ok & (b & [_ ->]%getitem_Ok
            & (q0 & H0 & (q1 & H1 & H2)%bind_Ok)%bind_Ok)%bind_Ok)%bind_Ok.
  unfold Series.truediv in H0. apply mapM_Ok in H0.
  change (map ?f ?l) with (f <$> l) in H0. rewrite zip_fmap_fmap in H0.
  apply Forall2_fmap_l in H0.
  unfold Series.round2 in H2. apply mapM_Ok in H2.
  assert (Hq : Forall2 (fun r w => ∃ xn xd, cell_at r num = Num xn ∧ cell_at r den = Num xd
                          ∧ w = Num (scaled scale (xn / xd))) (rows df) q1).
  { destruct scale as [k|]; cbn [scaled].
    - unfold Series.mul in H1. apply mapM_Ok in H1.
      eapply Forall2_compose; [|exact H0|exact H1]. cbn beta.
      intros r v w Hv Hw. cbn in Hv.
      destruct (cell_at r num) as [xn| |]; try done.
      destruct (cell_at r den) as [xd| |]; try done.
      injection Hv as <-. cbn in Hw. injection Hw as <-. eauto.
    - injection H1 as <-. eapply Forall2_impl; [exact H0|]. cbn beta.
      intros r v Hv. cbn in Hv.
      destruct (cell_at r num) as [xn| |]; try done.
      destruct (cell_at r den) as [xd| |]; try done.
      injection Hv as <-. eauto. }
  eapply Forall2_compose; [|exact Hq|exact H2]. cbn beta.
  intros r v w (xn & xd & Hn & Hd & ->) Hw. cbn in Hw. injection Hw as <-. eauto.
Qed.

Lemma guarded_ratio_series_rows df g num den scale s :
  guarded_ratio_series df g num den scale = Ok s ->
  Forall2 (fun r v => ∃ xg xn xd,
             cell_at r g = Num xg ∧ cell_at r num = Num xn ∧ cell_at r den = Num xd
             ∧ v = Num (if (0 <? xg)%float then np_round2 (scaled scale (xn / xd))
                        else 0%float))
          (rows df) s.
Proof.
  intros (cond & q & [_ Hcond]%positive_series_Ok & Hq%ratio_series_rows & ->)
         %guarded_ratio_series_Ok.
  unfold np.where_. apply Forall2_same_length_lookup_2.
  - rewrite length_zip_with. apply Forall2_length in Hcond, Hq. lia.
  - intros i r v Hr Hv. apply lookup_zip_with_Some in Hv as (b & w & -> & Hb & Hw).
    destruct (Forall2_lookup_lr _ _ _ _ _ _ Hcond Hr Hb) as (xg & Hg & ->).
    destruct (Forall2_lookup_lr _ _ _ _ _ _ Hq Hr Hw) as (xn & xd & Hn & Hd & ->).
    exists xg, xn, xd. split_and!; [done..|]. by destruct (0 <? xg)%float.
Qed.

Lemma guarded_ratio_series_columns df g num den scale s :
  guarded_ratio_series df g num den scale = Ok s ->
  g ∈ columns df ∧ num ∈ columns df ∧ den ∈ columns df.
Proof.
  intros (cond & q & [Hg _]%positive_series_Ok & Hq & _)%guarded_ratio_series_Ok.
  unfold ratio_series in Hq.
  apply bind_Ok in Hq as (a & [Hn _]%getitem_Ok & (b & [Hd _]%getitem_Ok & _)%bind_Ok).
  done.
Qed.

Lemma setitem_columns df c s df' :
  DataFrame.setitem df c s = Ok df' -> columns df' = add_column (columns df) c.
Proof. by intros [? _]%setitem_Ok. Qed.

(** [df[c] = np.where(df[g] > 0, (df[num] / df[den] ...).round(2), 0)], row
    by row. *)
Lemma assign_guarded_rows df c g num den scale df' :
  assign df c (fun df => guarded_ratio_series df g num den scale) = Ok df' ->
  (g ∈ columns df ∧ num ∈ columns df ∧ den ∈ columns df)
  ∧ columns df' = add_column (columns df) c
  ∧ Forall2 (fun r r' => label r' = label r
               ∧ (∀ c', c' ≠ c -> cell_at r' c' = cell_at r c')
               ∧ ∃ xg xn xd,
                   cell_at r g = Num xg ∧ cell_at r num = Num xn ∧ cell_at r den = Num xd
                   ∧ cell_at r' c
                     = Num (if (0 <? xg)%float then np_round2 (scaled scale (xn / xd))
                            else 0%float))
            (rows df) (rows df').
Proof.
  intros (s & Hs & Hset)%assign_Ok. split; [|split].
  - by eapply guarded_ratio_series_columns.
  - by eapply setitem_columns.
  - apply guarded_ratio_series_rows in Hs.
    pose proof (setitem_assigns _ _ _ _ _ Hset Hs) as K.
    eapply Forall2_impl; [exact K|]. cbn beta. by intros r r' (? & ? & ?).
Qed.

(** [df[c] = (df[num] / df[den] ...).round(2)], row by row. *)
Lemma assign_ratio_rows df c num den scale df' :
  assign df c (fun df => ratio_series df num den scale) = Ok df' ->
  (num ∈ columns df ∧ den ∈ columns df)
  ∧ columns df' = add_column (columns df) c
  ∧ Forall2 (fun r r' => label r' = label r
               ∧ (∀ c', c' ≠ c -> cell_at r' c' = cell_at r c')
               ∧ ∃ xn xd,
                   cell_at r num = Num xn ∧ cell_at r den = Num xd
                   ∧ cell_at r' c = Num (np_round2 (scaled scale (xn / xd))))
            (rows df) (rows df').
Proof.
  intros (s & Hs & Hset)%assign_Ok. split; [|split].
  - unfold ratio_series in Hs.
    by apply bind_Ok in Hs as (a & [Hn _]%getitem_Ok & (b & [Hd _]%getitem_Ok & _)%bind_Ok).
  - by eapply setitem_columns.
  - apply ratio_series_rows in Hs.
    pose proof (setitem_assigns _ _ _ _ _ Hset Hs) as K.
    eapply Forall2_impl; [exact K|]. cbn beta. by intros r r' (? & ? & ?).
Qed.

(** The date column parsed, the other columns as they were. *)
Lemma assign_date_all df df' :
  assign df "date" (fun df => d ← DataFrame.getitem df "date"; pd.to_datetime d) = Ok df' ->
  "date" ∈ columns df ∧ columns df' = columns df
  ∧ Forall2 (fun r r' => label r' = label r
               ∧ (∀ c', c' ≠ "date" -> cell_at r' c' = cell_at r c')
               ∧ date_of r = Ok (cell_at r' "date"))
            (rows df) (rows df').
Proof.
  intros Ha. destruct (assign_date_rows _ _ Ha) as (Hin & Hcols & _).
  split; [done|]. split; [done|].
  apply assign_Ok in Ha as (s & Hs & Hset).
  apply bind_Ok in Hs as (d & [_ ->]%getitem_Ok & Hs).
  unfold pd.to_datetime in Hs. apply mapM_Ok, Forall2_fmap_l in Hs.
  pose proof (setitem_assigns (fun r v => date_of r = Ok v) _ _ _ _ Hset Hs) as K.
  eapply Forall2_impl; [exact K|]. cbn beta. by intros r r' (? & ? & ?).
Qed.

Lemma coerce_numeric_frame_rows cols c : ∀ df df',
  coerce_numeric_frame df cols = Ok df' ->
  Forall2 (fun r r' => label r' = label r
             ∧ cell_at r' c = if bool_decide (c ∈ cols ∧ c ∈ columns df)
                              then pd.numeric_of (cell_at r c) else cell_at r c)
          (rows df) (rows df').
Proof.
  induction cols as [|col cols IH]; intros df df' H; cbn [coerce_numeric_frame] in H.
  - injection H as <-. apply Forall2_same_length_lookup_2; [done|].
    intros i r r' Hr Hr'. rewrite Hr in Hr'. injection Hr' as <-. split; [done|].
    rewrite bool_decide_eq_false_2; [done|]. intros [[]%elem_of_nil _].
  - apply bind_Ok in H as (d1 & H1 & H).
    pose proof (coerce_step_columns _ _ _ H1) as Hcols.
    apply (coerce_step_rows _ _ _ c) in H1. apply IH in H. rewrite Hcols in H.
    eapply Forall2_compose; [|exact H1|exact H]. cbn beta.
    intros r r1 r' [L1 E1] [L2 E2]. split; [congruence|]. rewrite E2, E1.
    repeat case_bool_decide; try done; [apply numeric_of_idemp|exfalso..].
    all: repeat match goal with
           | H : context [_ ∈ _ :: _] |- _ => rewrite elem_of_cons in H
           end.
    all: intuition (subst; auto).
Qed.

End more_frames.


(** ** The marketing table, row by row *)

Lemma elem_of_add_column cols c x : x ∈ add_column cols c <-> x ∈ cols ∨ x = c.
Proof.
  unfold add_column. case_bool_decide as Hc.
  - split; [by left|]. by intros [?| ->].
  - rewrite elem_of_app, list_elem_of_singleton. done.
Qed.

Lemma fill_zero_num c x : fill (Num 0) c = Num x -> is_nan x = false.
Proof.
  unfold fill. destruct (is_na c) eqn:E.
  - by intros [= <-].
  - intros ->. exact E.
Qed.

Section marketing_rows.
Context {L : Lib}.

(** The frame [clean_marketing_data] holds after [fillna(0)], row by row. *)
Lemma marketing_filled_rows df p d1 d3 :
  assign df "date" (fun df => d ← DataFrame.getitem df "date"; pd.to_datetime d) = Ok d1 ->
  coerce_numeric_frame (DataFrame.setitem_scalar d1 "platform" (Str p)) marketing_numeric
    = Ok d3 ->
  "date" ∈ columns df
  ∧ columns d3 = add_column (columns df) "platform"
  ∧ Forall2 (fun r f => label f = label r
       ∧ date_of r = Ok (cell_at f "date")
       ∧ cell_at f "platform" = Str p
       ∧ (∀ c, c ∈ marketing_numeric -> c ∈ columns df ->
               cell_at f c = fill (Num 0) (pd.numeric_of (cell_at r c)))
       ∧ (∀ c, c ∈ columns df -> c ∉ "date" :: "platform" :: marketing_numeric ->
               cell_at f c = fill (Num 0) (cell_at r c)))
     (rows df) (rows (DataFrame.fillna d3 (Num 0))).
Proof.
  intros H1 H3. apply assign_date_all in H1 as (Hdate & Hc1 & R1).
  pose proof (coerce_numeric_frame_columns _ _ _ H3) as Hc3. cbn [columns DataFrame.setitem_scalar] in Hc3.
  rewrite Hc1 in Hc3. split; [done|]. split; [done|].
  pose proof (Forall2_forall _ _ _
                (fun c => coerce_numeric_frame_rows marketing_numeric c _ _ H3)) as R3.
  cbn [rows columns DataFrame.setitem_scalar] in R3.
  change (map ?f ?l) with (f <$> l) in R3. apply Forall2_fmap_l in R3.
  pose proof (fillna_rows_all d3 (Num 0)) as R4.
  pose proof (Forall2_chain _ _ _ _ _ R1 (Forall2_chain _ _ _ _ _ R3 R4)) as R.
  eapply Forall2_impl; [exact R|]. cbn beta. clear R R1 R3 R4.
  intros r f (r1 & (L1 & K1 & D1) & r3 & H3' & L4 & F4).
  assert (L3 : label r3 = label r1) by (destruct (H3' "date") as [? _]; done).
  assert (E3 : ∀ c, cell_at r3 c
                    = if bool_decide (c ∈ marketing_numeric ∧ c ∈ columns d3)
                      then pd.numeric_of (cell_at (set_cell "platform" (Str p) r1) c)
                      else cell_at (set_cell "platform" (Str p) r1) c).
  { intros c. destruct (H3' c) as [_ ->]. by rewrite Hc1, <- Hc3. }
  clear H3'. split_and!.
  - congruence.
  - rewrite F4, E3, cell_at_set_cell. rewrite D1.
    rewrite (bool_decide_eq_false_2 (_ ∧ _)), (bool_decide_eq_false_2 ("platform" = "date"));
      [|done|by intros [?%(bool_decide_pack _) _]].
    destruct (datetime_of_is_date _ _ D1) as [t ->]. by case_bool_decide.
  - rewrite F4, E3, cell_at_set_cell.
    rewrite (bool_decide_eq_false_2 (_ ∧ _)), (bool_decide_eq_true_2 ("platform" = "platform"));
      [|done|by intros [?%(bool_decide_pack _) _]].
    by case_bool_decide.
  - intros c Hc Hin. rewrite F4, E3, cell_at_set_cell.
    assert (c ∈ columns d3) as Hin3 by (rewrite Hc3; apply elem_of_add_column; by left).
    rewrite (bool_decide_eq_true_2 (c ∈ columns d3)), (bool_decide_eq_true_2 (_ ∧ _)) by done.
    rewrite bool_decide_eq_false_2, K1; [done| |].
    + intros ->. revert Hc. by apply (bool_decide_unpack _).
    + intros <-. revert Hc. by apply (bool_decide_unpack _).
  - intros c Hin Hc. rewrite F4, E3, cell_at_set_cell.
    assert (c ∈ columns d3) as Hin3 by (rewrite Hc3; apply elem_of_add_column; by left).
    rewrite (bool_decide_eq_true_2 (c ∈ columns d3)) by done.
    rewrite !not_elem_of_cons in Hc. destruct Hc as (Hd & Hp & Hc).
    rewrite (bool_decide_eq_false_2 (_ ∧ _)), bool_decide_eq_false_2, K1; [done..| |].
    + by intros <-.
    + by intros [? _].
Qed.

(** The frame [clean_marketing_data] holds before it drops the rows without
    impressions, row by row: where each cell comes from. *)
Lemma derive_marketing_frame_rows df p pre :
  derive_marketing_frame df p = Ok pre ->
  ("date" ∈ columns df ∧ ∀ c, c ∈ marketing_numeric -> c ∈ columns df)
  ∧ columns pre
    = foldl add_column (columns df) ("platform" :: marketing_metrics)
  ∧ Forall2 (fun r o => label o = label r
       ∧ date_of r = Ok (cell_at o "date")
       ∧ cell_at o "platform" = Str p
       ∧ (∀ c, c ∈ marketing_numeric ->
               cell_at o c = fill (Num 0) (pd.numeric_of (cell_at r c)))
       ∧ (∀ c, c ∈ columns df ->
               c ∉ "date" :: "platform" :: marketing_numeric ++ marketing_metrics ->
               cell_at o c = fill (Num 0) (cell_at r c))
       ∧ ∃ i k s a,
           cell_at o "impression" = Num i ∧ cell_at o "clicks" = Num k
           ∧ cell_at o "spend" = Num s ∧ cell_at o "attributed revenue" = Num a
           ∧ cell_at o "ctr"
             = Num (if (0 <? i)%float then np_round2 (k / i * 100) else 0)%float
           ∧ cell_at o "cpc"
             = Num (if (0 <? k)%float then np_round2 (s / k) else 0)%float
           ∧ cell_at o "roas"
             = Num (if (0 <? s)%float then np_round2 (a / s) else 0)%float
           ∧ cell_at o "cpm"
             = Num (if (0 <? i)%float then np_round2 (s / i * 1000) else 0)%float)
     (rows df) (rows pre).
Proof.
  unfold derive_marketing_frame. intros H'. inv_ok H'.
  rename a into d1, a0 into d3, a1 into d5, a2 into d6, a3 into d7.
  destruct (marketing_filled_rows df p d1 d3 Ha Ha0) as (Hdate & Hc3 & R4).
  apply assign_guarded_rows in Ha1 as ((Hi & Hk & _) & Hc5 & R5).
  apply assign_guarded_rows in Ha2 as ((_ & Hs & _) & Hc6 & R6).
  apply assign_guarded_rows in Ha3 as ((_ & Ha' & _) & Hc7 & R7).
  apply assign_guarded_rows in H' as (_ & Hc8 & R8).
  cbn [columns DataFrame.fillna] in Hi, Hk, Hc5. rewrite Hc3 in Hi, Hk, Hc5.
  rewrite Hc5 in Hs. rewrite Hc6, Hc5 in Ha'.
  assert (Hnum : ∀ c, c ∈ marketing_numeric -> c ∈ columns df).
  { intros c. unfold marketing_numeric. rewrite !elem_of_cons, elem_of_nil.
    rewrite !elem_of_add_column in *.
    intros [->|[->|[->|[->|[]]]]]; intuition discriminate. }
  split; [done|]. split.
  { rewrite Hc8, Hc7, Hc6, Hc5. reflexivity. }
  pose proof (Forall2_chain _ _ _ _ _ R4
                (Forall2_chain _ _ _ _ _ R5
                   (Forall2_chain _ _ _ _ _ R6 (Forall2_chain _ _ _ _ _ R7 R8)))) as R.
  eapply Forall2_impl; [exact R|]. cbn beta. clear R R4 R5 R6 R7 R8.
  intros r o (f & (L4 & D4 & P4 & N4 & O4)
              & r5 & (L5 & K5 & xi & xk & xi' & Ei & Ek & Ei' & M5)
              & r6 & (L6 & K6 & xk' & xs & xk'' & Ek' & Es & Ek'' & M6)
              & r7 & (L7 & K7 & xs' & xa & xs'' & Es' & Ea & Es'' & M7)
              & (L8 & K8 & xi2 & xs2 & xi3 & Ei2 & Es2 & Ei3 & M8)).
  assert (E : ∀ c, c ∉ marketing_metrics -> cell_at o c = cell_at f c).
  { intros c. unfold marketing_metrics. rewrite !not_elem_of_cons.
    intros (? & ? & ? & ? & _). rewrite K8, K7, K6, K5; done. }
  rewrite K5 in Ek', Es, Ek'' by done.
  rewrite K6, K5 in Es', Ea, Es'' by done.
  rewrite K7, K6, K5 in Ei2, Es2, Ei3 by done.
  assert (xi' = xi) as -> by congruence.
  assert (xi2 = xi) as -> by congruence.
  assert (xi3 = xi) as -> by congruence.
  assert (xk' = xk) as -> by congruence.
  assert (xk'' = xk) as -> by congruence.
  assert (xs' = xs) as -> by congruence.
  assert (xs'' = xs) as -> by congruence.
  assert (xs2 = xs) as -> by congruence.
  cbn [scaled] in *.
  split_and!.
  - congruence.
  - by rewrite E by (by apply (bool_decide_unpack _)).
  - by rewrite E by (by apply (bool_decide_unpack _)).
  - intros c Hc. rewrite E; [by apply N4; [|apply Hnum]|].
    revert Hc. unfold marketing_numeric. rewrite !elem_of_cons, elem_of_nil.
    intros [->|[->|[->|[->|[]]]]]; by apply (bool_decide_unpack _).
  - intros c Hin Hc. rewrite !not_elem_of_cons, not_elem_of_app in Hc.
    destruct Hc as (? & ? & ? & ?). rewrite E by done. apply O4; [done|].
    rewrite !not_elem_of_cons. done.
  - exists xi, xk, xs, xa. rewrite !E by (by apply (bool_decide_unpack _)).
    split_and!; [done..| | | |].
    + by rewrite K8, K7, K6.
    + by rewrite K8, K7.
    + by rewrite K8.
    + done.
Qed.

End marketing_rows.


(** ** [clean_marketing_data]: what the returned table holds *)

Lemma select_filter_labels (f : Row -> bool) (l l' : list Row) (mask : list bool) :
  Forall2 (fun r o => label o = label r) l l' ->
  Forall2 (fun r (b : bool) => b = f r) l mask ->
  label <$> select mask l' = label <$> filter f l.
Proof.
  intros Hl. revert mask. induction Hl as [|r o l l' Hlab _ IH]; intros mask Hm.
  - inversion Hm; subst. reflexivity.
  - inversion Hm as [|? b ? mask' Hb Hm']; subst. cbn [select].
    rewrite filter_cons. destruct (decide (f r)) as [Hf|Hf].
    + apply Is_true_true in Hf. rewrite Hf. cbn. rewrite Hlab. f_equal. by apply IH.
    + apply Is_true_false in Hf. rewrite Hf. by apply IH.
Qed.

Lemma select_elem_of {A} (l : list A) mask x : x ∈ select mask l -> x ∈ l.
Proof.
  revert mask. induction l as [|y l IH]; intros [|[] mask]; cbn [select];
    try (by intros ?%elem_of_nil).
  - rewrite !elem_of_cons. intros [->|?]; [by left|right; eauto].
  - intros ?. right. eauto.
Qed.

Lemma coerced_number {L : Lib} x :
  fill (Num 0) (pd.numeric_of (Num x)) = Num (if is_nan x then 0%float else x).
Proof. unfold fill. cbn. by destruct (is_nan x). Qed.

Lemma coerced_text {L : Lib} s :
  fill (Num 0) (pd.numeric_of (Str s))
  = Num (match parse_float s with
         | Some x => if is_nan x then 0%float else x
         | None => 0%float
         end).
Proof.
  unfold fill. cbn. destruct (parse_float s) as [x|]; cbn; [|done].
  by destruct (is_nan x).
Qed.

Section marketing.
Context {L : Lib}.

(** What the frame [clean_marketing_data] returns is, in terms of the
    frame it held before the last line. *)
Lemma clean_marketing_frame_rows df p out :
  clean_marketing_frame df p = Ok out ->
  ∃ pre mask,
    derive_marketing_frame df p = Ok pre
    ∧ columns out = columns pre
    ∧ rows out = select mask (rows pre)
    ∧ Forall2 (fun r (b : bool) => b = has_impressions r) (rows df) mask.
Proof.
  intros (pre & mask & Hpre & Hmask & Hrows & Hcols)%clean_marketing_frame_Ok.
  exists pre, mask. split_and!; [done..|].
  apply positive_series_Ok in Hmask as [_ Hmask].
  apply derive_marketing_frame_impression in Hpre.
  apply Forall2_same_length_lookup_2.
  - apply Forall2_length in Hmask, Hpre. lia.
  - intros i r b Hr Hb.
    destruct (Forall2_lookup_l _ _ _ _ _ Hpre Hr) as (o & Ho & _ & Himp).
    destruct (Forall2_lookup_lr _ _ _ _ _ _ Hmask Ho Hb) as (x & Hx & ->).
    unfold has_impressions. by rewrite <- Himp, Hx.
Qed.

(** The derived metrics of every returned record, from the record's own
    impression, clicks, spend and attributed revenue: [ctr] and [cpm] are
    the rounded ratios (the impression count is positive), [cpc] and [roas]
    are 0 when their denominator is not positive. *)
Theorem clean_marketing_data_metrics (h : heap) l d0 p r h' :
  h !! l = Some d0 ->
  clean_marketing_data l p h = (Ok r, h') ->
  ∃ out, h' !! r = Some out
    ∧ ∀ o, o ∈ rows out ->
        ∃ i k s a,
          cell_at o "impression" = Num i ∧ cell_at o "clicks" = Num k
          ∧ cell_at o "spend" = Num s ∧ cell_at o "attributed revenue" = Num a
          ∧ (0 <? i)%float = true
          ∧ cell_at o "ctr" = Num (np_round2 (k / i * 100))
          ∧ cell_at o "cpc"
            = Num (if (0 <? k)%float then np_round2 (s / k) else 0)%float
          ∧ cell_at o "roas"
            = Num (if (0 <? s)%float then np_round2 (a / s) else 0)%float
          ∧ cell_at o "cpm" = Num (np_round2 (s / i * 1000)).
Proof.
  intros Hl Hrun.
  destruct (refines_returns _ _ _ _ _ (clean_marketing_data_refines h l d0 p Hl) Hrun)
    as (out & ext & Hout & -> & Hr).
  exists out. split; [done|].
  destruct (clean_marketing_frame_Ok _ _ _ Hout) as (pre & mask & Hpre & Hmask & Hrows & _).
  apply positive_series_Ok in Hmask as [_ Hmask].
  apply derive_marketing_frame_rows in Hpre as (_ & _ & Hpre).
  intros o Ho. rewrite Hrows in Ho.
  destruct (select_lookup _ _ _ _ Hmask Ho) as (j & Hj & x & Hx & Hpos).
  destruct (Forall2_lookup_r _ _ _ _ _ Hpre Hj)
    as (r0 & _ & _ & _ & _ & _ & _ & i & k & s & a & Ei & Ek & Es & Ea & M1 & M2 & M3 & M4).
  assert (x = i) as -> by congruence.
  exists i, k, s, a. rewrite <- Hpos in M1, M4. done.
Qed.

(** Every returned record carries the platform name it was cleaned under. *)
Theorem clean_marketing_data_platform (h : heap) l d0 p r h' :
  h !! l = Some d0 ->
  clean_marketing_data l p h = (Ok r, h') ->
  ∃ out, h' !! r = Some out
    ∧ "platform" ∈ columns out
    ∧ ∀ o, o ∈ rows out -> cell_at o "platform" = Str p.
Proof.
  intros Hl Hrun.
  destruct (refines_returns _ _ _ _ _ (clean_marketing_data_refines h l d0 p Hl) Hrun)
    as (out & ext & Hout & -> & Hr).
  exists out. split; [done|].
  destruct (clean_marketing_frame_Ok _ _ _ Hout) as (pre & mask & Hpre & _ & Hrows & Hcols).
  apply derive_marketing_frame_rows in Hpre as (_ & Hc & Hpre). split.
  - rewrite Hcols, Hc. cbn [foldl marketing_metrics].
    rewrite !elem_of_add_column. tauto.
  - intros o Ho. rewrite Hrows in Ho. apply select_elem_of in Ho.
    apply list_elem_of_lookup in Ho as [j Hj].
    by destruct (Forall2_lookup_r _ _ _ _ _ Hpre Hj) as (r0 & _ & _ & _ & ? & _).
Qed.

(** Every returned record stems from an input record of the same label,
    and each of its four numeric columns holds that record's value as
    [to_numeric(errors='coerce')] and [fillna(0)] leave it: a number stays,
    text becomes the number it denotes, and a missing value or text that
    denotes no number becomes 0. *)
Theorem clean_marketing_data_coerces (h : heap) l d0 p r h' :
  h !! l = Some d0 ->
  clean_marketing_data l p h = (Ok r, h') ->
  ∃ out, h' !! r = Some out
    ∧ ∀ o, o ∈ rows out ->
        ∃ r0, r0 ∈ rows d0 ∧ label o = label r0
          ∧ ∀ c, c ∈ marketing_numeric ->
              (∀ x, cell_at r0 c = Num x ->
                    cell_at o c = Num (if is_nan x then 0%float else x))
              ∧ (∀ s, cell_at r0 c = Str s ->
                      cell_at o c = Num (match parse_float s with
                                         | Some x => if is_nan x then 0%float else x
                                         | None => 0%float
                                         end)).
Proof.
  intros Hl Hrun.
  destruct (refines_returns _ _ _ _ _ (clean_marketing_data_refines h l d0 p Hl) Hrun)
    as (out & ext & Hout & -> & Hr).
  exists out. split; [done|].
  destruct (clean_marketing_frame_Ok _ _ _ Hout) as (pre & mask & Hpre & _ & Hrows & _).
  apply derive_marketing_frame_rows in Hpre as (_ & _ & Hpre).
  intros o Ho. rewrite Hrows in Ho. apply select_elem_of in Ho.
  apply list_elem_of_lookup in Ho as [j Hj].
  destruct (Forall2_lookup_r _ _ _ _ _ Hpre Hj) as (r0 & Hr0 & Hlab & _ & _ & Hnum & _).
  exists r0. split; [by eapply list_elem_of_lookup_2|]. split; [done|].
  intros c Hc. rewrite (Hnum c Hc). split.
  - intros x ->. apply coerced_number.
  - intros s ->. apply coerced_text.
Qed.

(** The date of every returned record is the parsed date of the input
    record it stems from, and a column the function does not compute holds
    that record's value, 0 where it was missing. *)
Theorem clean_marketing_data_carries (h : heap) l d0 p r h' :
  h !! l = Some d0 ->
  clean_marketing_data l p h = (Ok r, h') ->
  ∃ out, h' !! r = Some out
    ∧ ∀ o, o ∈ rows out ->
        ∃ r0, r0 ∈ rows d0 ∧ label o = label r0
          ∧ date_of r0 = Ok (cell_at o "date")
          ∧ ∀ c, c ∈ columns d0 ->
                 c ∉ "date" :: "platform" :: marketing_numeric ++ marketing_metrics ->
                 cell_at o c = fill (Num 0) (cell_at r0 c).
Proof.
  intros Hl Hrun.
  destruct (refines_returns _ _ _ _ _ (clean_marketing_data_refines h l d0 p Hl) Hrun)
    as (out & ext & Hout & -> & Hr).
  exists out. split; [done|].
  destruct (clean_marketing_frame_Ok _ _ _ Hout) as (pre & mask & Hpre & _ & Hrows & _).
  apply derive_marketing_frame_rows in Hpre as (_ & _ & Hpre).
  intros o Ho. rewrite Hrows in Ho. apply select_elem_of in Ho.
  apply list_elem_of_lookup in Ho as [j Hj].
  destruct (Forall2_lookup_r _ _ _ _ _ Hpre Hj)
    as (r0 & Hr0 & Hlab & Hd & _ & _ & Hother & _).
  exists r0. split; [by eapply list_elem_of_lookup_2|]. done.
Qed.

(** The returned records are the input records with a positive impression
    count, in input order and under their input labels: the index is not
    renumbered. The impression column holds numbers or text. *)
Theorem clean_marketing_data_keeps (h : heap) l d0 p r h' :
  h !! l = Some d0 ->
  Forall (fun r0 => ∀ t, cell_at r0 "impression" ≠ Date t) (rows d0) ->
  clean_marketing_data l p h = (Ok r, h') ->
  ∃ out, h' !! r = Some out
    ∧ label <$> rows out = label <$> filter has_impressions (rows d0).
Proof.
  intros Hl _ Hrun.
  destruct (refines_returns _ _ _ _ _ (clean_marketing_data_refines h l d0 p Hl) Hrun)
    as (out & ext & Hout & -> & Hr).
  exists out. split; [done|].
  apply clean_marketing_frame_rows in Hout as (pre & mask & Hpre & _ & -> & Hmask).
  apply derive_marketing_frame_rows in Hpre as (_ & _ & Hpre).
  apply select_filter_labels; [|done].
  eapply Forall2_impl; [exact Hpre|]. cbn beta. by intros ? ? [? _].
Qed.

(** The columns of the returned table: those of the input in their order,
    then [platform], [ctr], [cpc], [roas] and [cpm], each appended unless
    the input already has a column of that name. *)
Theorem clean_marketing_data_columns (h : heap) l d0 p r h' :
  h !! l = Some d0 ->
  clean_marketing_data l p h = (Ok r, h') ->
  ∃ out, h' !! r = Some out
    ∧ columns out
      = foldl add_column (columns d0) ["platform"; "ctr"; "cpc"; "roas"; "cpm"].
Proof.
  intros Hl Hrun.
  destruct (refines_returns _ _ _ _ _ (clean_marketing_data_refines h l d0 p Hl) Hrun)
    as (out & ext & Hout & -> & Hr).
  exists out. split; [done|].
  destruct (clean_marketing_frame_Ok _ _ _ Hout) as (pre & mask & Hpre & _ & _ & ->).
  by apply derive_marketing_frame_rows in Hpre as (_ & -> & _).
Qed.

End marketing.


(** ** When the library calls return *)

Lemma mapM_total {A B} (f : A -> result B) l :
  Forall (fun x => ∃ y, f x = Ok y) l -> ∃ k, mapM f l = Ok k.
Proof.
  induction 1 as [|x l [y Hy] _ [k Hk]]; [by exists []|].
  exists (y :: k). cbn. rewrite Hy. cbn. by rewrite Hk.
Qed.

Lemma fill_numeric_of {L : Lib} c : ∃ x, fill (Num 0) (pd.numeric_of c) = Num x.
Proof.
  unfold fill. destruct (is_na (pd.numeric_of c)) eqn:E; [by eexists|].
  destruct c; cbn; by eexists.
Qed.

Section running.
Context {L : Lib}.

Lemma getitem_in df c :
  c ∈ columns df -> DataFrame.getitem df c = Ok (map (fun r => cell_at r c) (rows df)).
Proof. intros Hc. unfold DataFrame.getitem, has_column. by rewrite bool_decide_eq_true_2. Qed.

Lemma getitem_missing df c :
  c ∉ columns df -> DataFrame.getitem df c = Raise (KeyError c).
Proof. intros Hc. unfold DataFrame.getitem, has_column. by rewrite bool_decide_eq_false_2. Qed.

Lemma setitem_total df c s :
  length s = length (rows df) -> ∃ df', DataFrame.setitem df c s = Ok df'.
Proof. intros Hs. unfold DataFrame.setitem. rewrite bool_decide_eq_true_2 by done. by eexists. Qed.

Lemma assign_date_total df :
  "date" ∈ columns df ->
  Forall (fun r => ∃ t, date_of r = Ok t) (rows df) ->
  ∃ d1, assign df "date" (fun df => d ← DataFrame.getitem df "date"; pd.to_datetime d)
        = Ok d1.
Proof.
  intros Hc Hd. unfold assign. rewrite getitem_in by done. cbn [mbind result_bind].
  destruct (mapM_total pd.datetime_of (map (fun r => cell_at r "date") (rows df)))
    as [s Hs].
  { apply Forall_fmap. eapply Forall_impl; [exact Hd|]. done. }
  unfold pd.to_datetime. rewrite Hs. cbn [mbind result_bind].
  apply setitem_total. apply mapM_length in Hs. by rewrite Hs, length_map.
Qed.

Lemma positive_series_total df c :
  c ∈ columns df -> numeric_in df c -> ∃ mask, positive_series df c = Ok mask.
Proof.
  intros Hc Hn. unfold positive_series. rewrite getitem_in by done. cbn [mbind result_bind].
  apply mapM_total, Forall_fmap. eapply Forall_impl; [exact Hn|].
  cbn. intros r [x ->]. by eexists.
Qed.

Lemma ratio_series_total df num den scale :
  num ∈ columns df -> den ∈ columns df -> numeric_in df num -> numeric_in df den ->
  ∃ q, ratio_series df num den scale = Ok q.
Proof.
  intros Hn Hd Nn Nd. unfold ratio_series. rewrite !getitem_in by done.
  cbn [mbind result_bind]. unfold Series.truediv.
  change (map ?f ?l) with (f <$> l). rewrite zip_fmap_fmap.
  destruct (mapM_total (Series.num2 PrimFloat.div)
              ((fun r => (cell_at r num, cell_at r den)) <$> rows df)) as [q0 H0].
  { apply Forall_fmap. unfold numeric_in in Nn, Nd.
    rewrite Forall_forall in Nn, Nd. apply Forall_forall. intros r Hr. cbn.
    destruct (Nn r Hr) as [x ->]. destruct (Nd r Hr) as [y ->]. by eexists. }
  rewrite H0. cbn [mbind result_bind].
  assert (Hnum : ∀ q, Forall (fun v => ∃ x, v = Num x) q ->
            ∃ q', Series.round2 q = Ok q').
  { intros q Hq. apply mapM_total. eapply Forall_impl; [exact Hq|].
    cbn. intros v [x ->]. by eexists. }
  assert (H0' : Forall (fun v => ∃ x, v = Num x) q0).
  { apply mapM_Ok in H0. apply Forall2_Forall_r with (l := (fun r => (cell_at r num, cell_at r den)) <$> rows df) (P := fun _ v => ∃ x, v = Num x).
    - eapply Forall2_impl; [exact H0|]. intros [[] []] v Hv; try done.
      injection Hv as <-. by eexists.
    - apply Forall_true. done. }
  destruct scale as [k|]; cbn [mbind result_bind].
  - destruct (mapM_total (Series.num1 (fun x => Num (x * k)%float)) q0) as [q1 H1].
    { eapply Forall_impl; [exact H0'|]. cbn. intros v [x ->]. by eexists. }
    unfold Series.mul. rewrite H1. cbn [mbind result_bind]. apply Hnum.
    apply mapM_Ok in H1.
    apply Forall2_Forall_r with (l := q0) (P := fun _ v => ∃ x, v = Num x).
    + eapply Forall2_impl; [exact H1|]. intros [] v Hv; try done.
      injection Hv as <-. by eexists.
    + by apply Forall_true.
  - by apply Hnum.
Qed.

Lemma assign_guarded_total df c g num den scale :
  g ∈ columns df -> num ∈ columns df -> den ∈ columns df ->
  numeric_in df g -> numeric_in df num -> numeric_in df den ->
  ∃ df', assign df c (fun df => guarded_ratio_series df g num den scale) = Ok df'.
Proof.
  intros Hg Hn Hd Ng Nn Nd. unfold assign, guarded_ratio_series.
  destruct (positive_series_total df g Hg Ng) as [mask Hm].
  destruct (ratio_series_total df num den scale Hn Hd Nn Nd) as [q Hq].
  rewrite Hm, Hq. cbn [mbind result_bind]. apply setitem_total.
  unfold np.where_. rewrite length_zip_with.
  apply positive_series_Ok in Hm as [_ Hm%Forall2_length].
  apply ratio_series_length in Hq. lia.
Qed.

Lemma assign_guarded_no_guard df c g num den scale :
  g ∉ columns df ->
  assign df c (fun df => guarded_ratio_series df g num den scale) = Raise (KeyError g).
Proof.
  intros Hg. unfold assign, guarded_ratio_series, positive_series.
  rewrite (getitem_missing df g Hg). reflexivity.
Qed.

Lemma assign_guarded_no_numerator df c g num den scale :
  g ∈ columns df -> numeric_in df g -> num ∉ columns df ->
  assign df c (fun df => guarded_ratio_series df g num den scale) = Raise (KeyError num).
Proof.
  intros Hg Ng Hn. unfold assign, guarded_ratio_series.
  destruct (positive_series_total df g Hg Ng) as [mask ->]. cbn [mbind result_bind].
  unfold ratio_series. rewrite (getitem_missing df num Hn). reflexivity.
Qed.

Lemma assign_ratio_total df c num den scale :
  num ∈ columns df -> den ∈ columns df -> numeric_in df num -> numeric_in df den ->
  ∃ df', assign df c (fun df => ratio_series df num den scale) = Ok df'.
Proof.
  intros Hn Hd Nn Nd. unfold assign.
  destruct (ratio_series_total df num den scale Hn Hd Nn Nd) as [q Hq].
  rewrite Hq. cbn [mbind result_bind]. apply setitem_total.
  by apply ratio_series_length in Hq.
Qed.

(** A column assignment leaves the other columns numeric. *)
Lemma kept_numeric df df' c c0 :
  Forall2 (fun r r' => label r' = label r
             ∧ (∀ c', c' ≠ c -> cell_at r' c' = cell_at r c')) (rows df) (rows df') ->
  c0 ≠ c -> numeric_in df c0 -> numeric_in df' c0.
Proof.
  intros K Hne Hn. unfold numeric_in in *.
  apply Forall2_Forall_r with (l := rows df) (P := fun _ r' => ∃ x, cell_at r' c0 = Num x);
    [|by apply Forall_true].
  apply Forall2_same_length_lookup_2; [by eapply Forall2_length|].
  intros i r r' Hr Hr'.
  destruct (Forall2_lookup_lr _ _ _ _ _ _ K Hr Hr') as [_ E]. rewrite E by done.
  by eapply (Forall_lookup_1 _ _ _ _ Hn).
Qed.

Lemma assign_guarded_numeric df c g num den scale df' c0 :
  assign df c (fun df => guarded_ratio_series df g num den scale) = Ok df' ->
  c0 ≠ c -> numeric_in df c0 -> numeric_in df' c0.
Proof.
  intros (_ & _ & K)%assign_guarded_rows. apply kept_numeric.
  eapply Forall2_impl; [exact K|]. cbn beta. by intros r r' (? & ? & _).
Qed.

Lemma assign_guarded_mono df c g num den scale df' x :
  assign df c (fun df => guarded_ratio_series df g num den scale) = Ok df' ->
  x ∈ columns df -> x ∈ columns df'.
Proof.
  intros (_ & -> & _)%assign_guarded_rows ?. apply elem_of_add_column. by left.
Qed.

(** How the derivation of [clean_marketing_data] ends on a table whose
    dates parse: with the frame, or with a [KeyError] for the first of the
    four numeric columns the table lacks. *)
Lemma derive_marketing_frame_run df p :
  "date" ∈ columns df ->
  Forall (fun r => ∃ t, date_of r = Ok t) (rows df) ->
  match filter (fun c => c ∉ columns df) marketing_numeric with
  | [] => ∃ pre, derive_marketing_frame df p = Ok pre
  | c :: _ => derive_marketing_frame df p = Raise (KeyError c)
  end.
Proof.
  intros Hdate Hparse. unfold derive_marketing_frame.
  destruct (assign_date_total df Hdate Hparse) as [d1 H1]. rewrite H1.
  cbn [mbind result_bind].
  destruct (coerce_numeric_frame_ok marketing_numeric
              (DataFrame.setitem_scalar d1 "platform" (Str p))) as [d3 H3].
  change ["impression"; "clicks"; "spend"; "attributed revenue"] with marketing_numeric.
  rewrite H3. cbn [mbind result_bind].
  destruct (marketing_filled_rows df p d1 d3 H1 H3) as (_ & Hc3 & R4).
  set (d4 := DataFrame.fillna d3 (Num 0)) in *.
  assert (Hc4 : ∀ x, x ∈ columns df -> x ∈ columns d4).
  { intros x Hx. cbn [d4 columns DataFrame.fillna]. rewrite Hc3.
    apply elem_of_add_column. by left. }
  assert (Hc4' : ∀ x, x ∈ marketing_numeric -> x ∈ columns d4 -> x ∈ columns df).
  { intros x Hx. cbn [d4 columns DataFrame.fillna]. rewrite Hc3.
    rewrite elem_of_add_column. intros [?| ->]; [done|].
    revert Hx. by apply (bool_decide_unpack _). }
  assert (N4 : ∀ c, c ∈ marketing_numeric -> c ∈ columns df -> numeric_in d4 c).
  { intros c Hc Hin. unfold numeric_in.
    apply Forall2_Forall_r with (l := rows df) (P := fun _ r' => ∃ x, cell_at r' c = Num x);
      [|by apply Forall_true].
    eapply Forall2_impl; [exact R4|]. cbn beta.
    intros r f (_ & _ & _ & Hn & _). rewrite (Hn c Hc Hin). apply fill_numeric_of. }
  clearbody d4. clear R4 H1 H3 Hc3.
  assert (Mi : "impression" ∈ marketing_numeric) by (by apply (bool_decide_unpack _)).
  assert (Mk : "clicks" ∈ marketing_numeric) by (by apply (bool_decide_unpack _)).
  assert (Ms : "spend" ∈ marketing_numeric) by (by apply (bool_decide_unpack _)).
  assert (Ma : "attributed revenue" ∈ marketing_numeric)
    by (by apply (bool_decide_unpack _)).
  unfold marketing_numeric at 1. rewrite !filter_cons, filter_nil.
  destruct (decide ("impression" ∈ columns df)) as [Hi|Hi].
  2:{ rewrite decide_True by done.
      rewrite assign_guarded_no_guard; [done|]. intros ?. by apply Hi, Hc4'. }
  rewrite (decide_False (P := "impression" ∉ _)) by (by intros ?).
  destruct (decide ("clicks" ∈ columns df)) as [Hk|Hk].
  2:{ rewrite decide_True by done.
      rewrite assign_guarded_no_numerator; [done|by apply Hc4|by apply N4|].
      intros ?. by apply Hk, Hc4'. }
  rewrite (decide_False (P := "clicks" ∉ _)) by (by intros ?).
  destruct (assign_guarded_total d4 "ctr" "impression" "clicks" "impression"
              (Some 100%float)) as [d5 H5]; [by auto..|].
  rewrite H5. cbn [mbind result_bind].
  destruct (decide ("spend" ∈ columns df)) as [Hs|Hs].
  2:{ rewrite decide_True by done.
      rewrite assign_guarded_no_numerator; [done| | |].
      - eapply assign_guarded_mono; [exact H5|by apply Hc4].
      - eapply assign_guarded_numeric; [exact H5|done|by apply N4].
      - intros Hin. apply assign_guarded_rows in H5 as (_ & Hc5 & _).
        rewrite Hc5, elem_of_add_column in Hin. destruct Hin as [?|?]; [|done].
        by apply Hs, Hc4'. }
  rewrite (decide_False (P := "spend" ∉ _)) by (by intros ?).
  destruct (assign_guarded_total d5 "cpc" "clicks" "spend" "clicks" None) as [d6 H6].
  1-3: eapply assign_guarded_mono; [exact H5|by apply Hc4].
  1-3: eapply assign_guarded_numeric; [exact H5|done|by apply N4].
  rewrite H6. cbn [mbind result_bind].
  destruct (decide ("attributed revenue" ∈ columns df)) as [Hr|Hr].
  2:{ rewrite decide_True by done.
      rewrite assign_guarded_no_numerator; [done| | |].
      - eapply assign_guarded_mono; [exact H6|].
        eapply assign_guarded_mono; [exact H5|by apply Hc4].
      - eapply assign_guarded_numeric; [exact H6|done|].
        eapply assign_guarded_numeric; [exact H5|done|by apply N4].
      - intros Hin. apply assign_guarded_rows in H6 as (_ & Hc6 & _).
        apply assign_guarded_rows in H5 as (_ & Hc5 & _).
        rewrite Hc6, Hc5, !elem_of_add_column in Hin.
        destruct Hin as [[?|?]|?]; [|done..]. by apply Hr, Hc4'. }
  rewrite (decide_False (P := "attributed revenue" ∉ _)) by (by intros ?).
  destruct (assign_guarded_total d6 "roas" "spend" "attributed revenue" "spend" None)
    as [d7 H7].
  1-3: eapply assign_guarded_mono; [exact H6|];
       eapply assign_guarded_mono; [exact H5|by apply Hc4].
  1-3: eapply assign_guarded_numeric; [exact H6|done|];
       eapply assign_guarded_numeric; [exact H5|done|by apply N4].
  rewrite H7. cbn [mbind result_bind].
  apply assign_guarded_total.
  1-3: eapply assign_guarded_mono; [exact H7|];
       eapply assign_guarded_mono; [exact H6|];
       eapply assign_guarded_mono; [exact H5|by apply Hc4].
  1-3: eapply assign_guarded_numeric; [exact H7|done|];
       eapply assign_guarded_numeric; [exact H6|done|];
       eapply assign_guarded_numeric; [exact H5|done|by apply N4].
Qed.

End running.


(** ** [clean_marketing_data]: how a call ends *)

Lemma refines_run_Raise (m : py ref) (h : heap) e l d :
  refines m h (Raise e) -> h !! l = Some d ->
  ∃ h', m h = (Raise e, h') ∧ h' !! l = Some d.
Proof.
  intros (ext & Hrun & _) Hl. exists (h ++ ext). split; [done|].
  by apply lookup_app_l_Some.
Qed.

Lemma refines_run_Ok (m : py ref) (h : heap) out :
  refines m h (Ok out) -> ∃ r h', m h = (Ok r, h') ∧ h' !! r = Some out.
Proof.
  intros (ext & Hrun & Hlast). specialize (Hlast out eq_refl).
  eexists _, _. split; [exact Hrun|]. by apply lookup_last_app.
Qed.

(** A run that computes a frame leaves the store it started from as a
    prefix of the store it ends with, and returns a reference beyond it. *)
Lemma refines_fresh (m : py ref) (h : heap) v x h' :
  refines m h v -> m h = (x, h') ->
  h `prefix_of` h' ∧ ∀ r, x = Ok r -> length h ≤ r < length h'.
Proof.
  intros (ext & Hrun & Hlast) E. rewrite E in Hrun. unfold outcome in Hrun.
  injection Hrun as -> ->. split; [by exists ext|].
  intros r Hr. destruct v as [out|e]; [|done]. injection Hr as <-.
  specialize (Hlast out eq_refl). rewrite length_app.
  destruct ext as [|d ext]; [done|]. cbn [length]. lia.
Qed.

Section outcomes.
Context {L : Lib}.

(** [clean_marketing_data] returns a table for every input that has a date
    column whose every value is a timestamp or text that parses as one, and
    the four numeric columns. Tables with repeated column names are outside
    the model. *)
Theorem clean_marketing_data_returns (h : heap) l d0 p :
  h !! l = Some d0 ->
  NoDup (columns d0) ->
  "date" ∈ columns d0 ->
  Forall (fun r => ∃ t, date_of r = Ok t) (rows d0) ->
  (∀ c, c ∈ marketing_numeric -> c ∈ columns d0) ->
  ∃ r h' out, clean_marketing_data l p h = (Ok r, h') ∧ h' !! r = Some out.
Proof.
  intros Hl _ Hdate Hparse Hnum.
  pose proof (derive_marketing_frame_run d0 p Hdate Hparse) as Hrun.
  assert (filter (fun c => c ∉ columns d0) marketing_numeric = []) as Hnone.
  { destruct (filter _ marketing_numeric) as [|c rest] eqn:E; [done|].
    assert (c ∈ filter (fun c => c ∉ columns d0) marketing_numeric) as Hc
      by (rewrite E; left).
    apply list_elem_of_filter in Hc as [Hno Hc]. destruct Hno. by apply Hnum. }
  rewrite Hnone in Hrun. destruct Hrun as [pre Hpre].
  destruct (derive_marketing_frame_rows _ _ _ Hpre) as (_ & Hcols & Hrows).
  assert (Hi : "impression" ∈ columns pre).
  { rewrite Hcols. cbn [foldl marketing_metrics]. rewrite !elem_of_add_column.
    do 5 left. apply Hnum. by apply (bool_decide_unpack _). }
  destruct (positive_series_total pre "impression" Hi) as [mask Hmask].
  { unfold numeric_in.
    apply Forall2_Forall_r with (l := rows d0)
            (P := fun _ r' => ∃ x, cell_at r' "impression" = Num x);
      [|by apply Forall_true].
    eapply Forall2_impl; [exact Hrows|]. cbn beta.
    intros r o (_ & _ & _ & _ & _ & i & _ & _ & _ & ? & _). by exists i. }
  assert (∃ out, clean_marketing_frame d0 p = Ok out) as [out Hout].
  { unfold clean_marketing_frame. rewrite Hpre. cbn [mbind result_bind].
    rewrite Hmask. cbn [mbind result_bind]. unfold DataFrame.getitem_mask.
    rewrite bool_decide_eq_true_2; [by eexists|].
    apply positive_series_Ok in Hmask as [_ Hm%Forall2_length]. done. }
  pose proof (clean_marketing_data_refines h l d0 p Hl) as R. rewrite Hout in R.
  destruct (refines_run_Ok _ _ _ R) as (r & h' & ? & ?). by exists r, h', out.
Qed.

(** On a table whose dates parse and that lacks some of the four numeric
    columns, [clean_marketing_data] raises a [KeyError] for the first one
    it lacks, in the order impression, clicks, spend, attributed revenue.
    The input table is left as it was. *)
Theorem clean_marketing_data_missing_column (h : heap) l d0 p c rest :
  h !! l = Some d0 ->
  NoDup (columns d0) ->
  "date" ∈ columns d0 ->
  Forall (fun r => ∃ t, date_of r = Ok t) (rows d0) ->
  filter (fun c => c ∉ columns d0) marketing_numeric = c :: rest ->
  ∃ h', clean_marketing_data l p h = (Raise (KeyError c), h') ∧ h' !! l = Some d0.
Proof.
  intros Hl _ Hdate Hparse Hmiss.
  pose proof (derive_marketing_frame_run d0 p Hdate Hparse) as Hrun.
  rewrite Hmiss in Hrun.
  pose proof (clean_marketing_data_refines h l d0 p Hl) as R.
  unfold clean_marketing_frame in R. rewrite Hrun in R. cbn [mbind result_bind] in R.
  by eapply refines_run_Raise.
Qed.

(** On a table that has no [date] column both cleaning functions raise
    [KeyError('date')], and so does [create_unified_dataset] when the table
    is its ad table; the tables are left as they were. *)
Theorem no_date_column_raises (h : heap) l d0 p b db :
  h !! l = Some d0 -> h !! b = Some db ->
  "date" ∉ columns d0 ->
  (∃ h', clean_marketing_data l p h = (Raise (KeyError "date"), h') ∧ h' !! l = Some d0)
  ∧ (∃ h', clean_business_data l h = (Raise (KeyError "date"), h') ∧ h' !! l = Some d0)
  ∧ (∃ h', create_unified_dataset b l h = (Raise (KeyError "date"), h')
           ∧ h' !! b = Some db ∧ h' !! l = Some d0).
Proof.
  intros Hl Hb Hno. split_and!.
  - pose proof (clean_marketing_data_refines h l d0 p Hl) as R.
    unfold clean_marketing_frame, derive_marketing_frame, assign in R.
    rewrite (getitem_missing d0 "date" Hno) in R. cbn [mbind result_bind] in R.
    by eapply refines_run_Raise.
  - pose proof (clean_business_data_refines h l d0 Hl) as R.
    unfold clean_business_frame, assign in R.
    rewrite (getitem_missing d0 "date" Hno) in R. cbn [mbind result_bind] in R.
    by eapply refines_run_Raise.
  - pose proof (create_unified_dataset_refines h b l db d0 Hb Hl) as R.
    unfold create_unified_frame, daily_marketing_frame, DataFrame.groupby_sum,
      DataFrame.keys in R.
    rewrite (getitem_missing d0 "date" Hno) in R. cbn [mbind result_bind] in R.
    destruct R as (ext & Hrun & _). exists (h ++ ext).
    split_and!; [done|by apply lookup_app_l_Some..].
Qed.

(** None of the four functions changes a table that was in the store
    before the call: the store they leave extends the one they found, and
    the table they return is a new object. *)
Theorem inputs_left_unchanged (h : heap) a b c da db dc p x h' :
  h !! a = Some da -> h !! b = Some db -> h !! c = Some dc ->
  (clean_business_data a h = (x, h')
   ∨ clean_marketing_data a p h = (x, h')
   ∨ combine_marketing_data a b c h = (x, h')
   ∨ create_unified_dataset a b h = (x, h')) ->
  h `prefix_of` h' ∧ ∀ r, x = Ok r -> length h ≤ r < length h'.
Proof.
  intros Ha Hb Hc [E|[E|[E|E]]]; (eapply refines_fresh; [|exact E]).
  - by apply clean_business_data_refines.
  - by apply clean_marketing_data_refines.
  - by eapply combine_marketing_data_refines.
  - by eapply create_unified_dataset_refines.
Qed.

End outcomes.


(** ** The business table, row by row *)

Section business_rows_all.
Context {L : Lib}.

Lemma set_columns_Ok df names df' :
  DataFrame.set_columns df names = Ok df' -> NoDup names ∧ columns df' = names.
Proof.
  unfold DataFrame.set_columns. case_bool_decide; [|done].
  case_bool_decide; [|done]. by intros [= <-].
Qed.

Lemma set_columns_rows_all df (f : string -> string) df' :
  DataFrame.set_columns df (f <$> columns df) = Ok df' ->
  Forall2 (fun r r' => ∀ c, c ∈ columns df ->
             label r' = label r ∧ cell_at r' (f c) = cell_at r c)
          (rows df) (rows df').
Proof.
  intros Hset. apply Forall2_forall. intros c.
  destruct (decide (c ∈ columns df)) as [Hc|Hc].
  - destruct (set_columns_rows _ _ _ _ Hset Hc) as [_ K].
    eapply Forall2_impl; [exact K|]. done.
  - apply Forall2_same_length_lookup_2; [|done].
    unfold DataFrame.set_columns in Hset. repeat case_bool_decide; try done.
    injection Hset as <-. cbn [rows]. by rewrite length_map.
Qed.

(** The frame [clean_business_data] holds after [fillna(0)], row by row,
    under the normalised column names. *)
Lemma business_filled_rows df d1 d2 d3 :
  assign df "date" (fun df => d ← DataFrame.getitem df "date"; pd.to_datetime d) = Ok d1 ->
  DataFrame.set_columns d1 (map normalize_name (columns d1)) = Ok d2 ->
  coerce_numeric_frame d2 business_numeric = Ok d3 ->
  "date" ∈ columns df
  ∧ NoDup (normalize_name <$> columns df)
  ∧ columns d3 = normalize_name <$> columns df
  ∧ Forall2 (fun r f => label f = label r
       ∧ date_of r = Ok (cell_at f "date")
       ∧ (∀ c, c ∈ columns df -> normalize_name c ∈ business_numeric ->
               cell_at f (normalize_name c) = fill (Num 0) (pd.numeric_of (cell_at r c)))
       ∧ (∀ c, c ∈ columns df -> normalize_name c ∉ "date" :: business_numeric ->
               cell_at f (normalize_name c) = fill (Num 0) (cell_at r c)))
     (rows df) (rows (DataFrame.fillna d3 (Num 0))).
Proof.
  intros H1 H2 H3. apply assign_date_all in H1 as (Hdate & Hc1 & R1).
  change (map normalize_name (columns d1)) with (normalize_name <$> columns d1) in H2.
  destruct (set_columns_Ok _ _ _ H2) as [Hnd Hc2]. rewrite Hc1 in Hnd, Hc2.
  pose proof (coerce_numeric_frame_columns _ _ _ H3) as Hc3. rewrite Hc2 in Hc3.
  split; [done|]. split; [done|]. split; [done|].
  pose proof (set_columns_rows_all _ _ _ H2) as R2. rewrite Hc1 in R2.
  pose proof (Forall2_forall _ _ _
                (fun c => coerce_numeric_frame_rows business_numeric c _ _ H3)) as R3.
  pose proof (fillna_rows_all d3 (Num 0)) as R4.
  pose proof (Forall2_chain _ _ _ _ _ R1
                (Forall2_chain _ _ _ _ _ R2 (Forall2_chain _ _ _ _ _ R3 R4))) as R.
  eapply Forall2_impl; [exact R|]. cbn beta. clear R R1 R2 R3 R4.
  intros r f (r1 & (L1 & K1 & D1) & r2 & H2' & r3 & H3' & L4 & F4).
  assert (Hin3 : ∀ c, c ∈ columns df -> normalize_name c ∈ columns d3).
  { intros c Hc. rewrite Hc3. apply list_elem_of_fmap. by exists c. }
  assert (Hin2 : ∀ c, c ∈ columns df -> normalize_name c ∈ columns d2).
  { intros c Hc. rewrite Hc2. apply list_elem_of_fmap. by exists c. }
  assert (Hcell : ∀ c, c ∈ columns df ->
            cell_at f (normalize_name c)
            = fill (Num 0)
                (if bool_decide (normalize_name c ∈ business_numeric)
                 then pd.numeric_of (cell_at r1 c) else cell_at r1 c)).
  { intros c Hc. rewrite F4, bool_decide_eq_true_2 by by apply Hin3.
    destruct (H3' (normalize_name c)) as [_ ->].
    destruct (H2' c Hc) as [_ ->]. f_equal.
    repeat case_bool_decide; try done; exfalso; intuition. }
  split_and!.
  - destruct (H2' "date" Hdate) as [L2 _]. destruct (H3' "date") as [L3 _]. congruence.
  - pose proof (Hcell "date" Hdate) as E.
    change (normalize_name "date") with "date" in E.
    rewrite bool_decide_eq_false_2 in E by (by apply (bool_decide_unpack _)).
    rewrite E, D1. destruct (datetime_of_is_date _ _ D1) as [t ->]. done.
  - intros c Hc Hn. rewrite (Hcell c Hc), bool_decide_eq_true_2 by done.
    rewrite K1; [done|]. intros ->. revert Hn. by apply (bool_decide_unpack _).
  - intros c Hc Hn. apply not_elem_of_cons in Hn as [Hd Hn].
    rewrite (Hcell c Hc), bool_decide_eq_false_2 by done.
    rewrite K1; [done|]. by intros ->.
Qed.

(** The frame [clean_business_data] holds before de-duplication, and the
    frame it returns. *)
Lemma clean_business_frame_rows df out :
  clean_business_frame df = Ok out ->
  ∃ pre,
    ("date" ∈ columns df ∧ NoDup (normalize_name <$> columns df)
     ∧ ∀ c, c ∈ business_inputs -> c ∈ normalize_name <$> columns df)
    ∧ columns pre = foldl add_column (normalize_name <$> columns df) business_metrics
    ∧ columns out = columns pre
    ∧ rows out = first_occurrences "date" [] (rows pre)
    ∧ Forall2 (fun r o => label o = label r
         ∧ date_of r = Ok (cell_at o "date")
         ∧ (∀ c, c ∈ columns df -> normalize_name c ∈ business_numeric ->
                 cell_at o (normalize_name c)
                 = fill (Num 0) (pd.numeric_of (cell_at r c)))
         ∧ (∀ c, c ∈ columns df ->
                 normalize_name c ∉ "date" :: business_numeric ++ business_metrics ->
                 cell_at o (normalize_name c) = fill (Num 0) (cell_at r c))
         ∧ ∃ g t n,
             cell_at o "gross_profit" = Num g ∧ cell_at o "total_revenue" = Num t
             ∧ cell_at o "num_of_orders" = Num n
             ∧ cell_at o "profit_margin" = Num (np_round2 (g / t * 100))
             ∧ cell_at o "avg_order_value" = Num (np_round2 (t / n)))
       (rows df) (rows pre).
Proof.
  unfold clean_business_frame. intros H'. inv_ok H'.
  rename a into d1, a0 into d2, a1 into d3, a2 into d5, a3 into d6.
  destruct (business_filled_rows df d1 d2 d3 Ha Ha0 Ha1) as (Hdate & Hnd & Hc3 & R4).
  apply assign_ratio_rows in Ha2 as ((Hg & Ht) & Hc5 & R5).
  apply assign_ratio_rows in Ha3 as ((_ & Hn) & Hc6 & R6).
  cbn [columns DataFrame.fillna] in Hg, Ht, Hc5. rewrite Hc3 in Hg, Ht, Hc5.
  rewrite Hc5, elem_of_add_column in Hn. destruct Hn as [Hn|Hn]; [|done].
  exists d6. split.
  { split; [done|]. split; [done|]. intros c. unfold business_inputs.
    rewrite !elem_of_cons, elem_of_nil. by intros [->|[->|[->|[]]]]. }
  split; [by rewrite Hc6, Hc5|].
  unfold DataFrame.drop_duplicates in H'. destruct (has_column d6 "date"); [|done].
  injection H' as <-. split; [done|]. split; [done|].
  pose proof (Forall2_chain _ _ _ _ _ R4 (Forall2_chain _ _ _ _ _ R5 R6)) as R.
  eapply Forall2_impl; [exact R|]. cbn beta. clear R R4 R5 R6.
  intros r o (f & (L4 & D4 & N4 & O4)
              & r5 & (L5 & K5 & xg & xt & Eg & Et & M5)
              & (L6 & K6 & xt' & xn & Et' & En & M6)).
  assert (E : ∀ c, c ∉ business_metrics -> cell_at o c = cell_at f c).
  { intros c. unfold business_metrics. rewrite !not_elem_of_cons.
    intros (? & ? & _). rewrite K6, K5; done. }
  rewrite K5 in Et', En by done.
  assert (xt' = xt) as -> by congruence. cbn [scaled] in *.
  split_and!.
  - congruence.
  - by rewrite E by (by apply (bool_decide_unpack _)).
  - intros c Hc Hnum. rewrite E; [by apply N4|].
    revert Hnum. unfold business_numeric. rewrite !elem_of_cons, elem_of_nil.
    intros [->|[->|[->|[]]]]; by apply (bool_decide_unpack _).
  - intros c Hc Hno. rewrite !not_elem_of_cons, not_elem_of_app in Hno.
    destruct Hno as (? & ? & ?). rewrite E by done. apply O4; [done|].
    rewrite !not_elem_of_cons. done.
  - exists xg, xt, xn. rewrite !E by (by apply (bool_decide_unpack _)).
    split_and!; [done..| |done]. by rewrite K6.
Qed.

End business_rows_all.


(** ** [clean_business_data]: how the computation ends *)

Lemma mapM_raises {A B} (f : A -> result B) l e x :
  Forall (fun y => (∃ z, f y = Ok z) ∨ f y = Raise e) l ->
  x ∈ l -> f x = Raise e -> mapM f l = Raise e.
Proof.
  induction 1 as [|y l Hy _ IH]; [by intros ?%elem_of_nil|].
  intros Hx Hf. cbn. destruct Hy as [[z Hz]|Hy]; [|by rewrite Hy].
  rewrite Hz. cbn. apply elem_of_cons in Hx as [->|Hx]; [congruence|].
  by rewrite IH.
Qed.

Section business_run.
Context {L : Lib}.

Lemma assign_ratio_no_numerator df c num den scale :
  num ∉ columns df ->
  assign df c (fun df => ratio_series df num den scale) = Raise (KeyError num).
Proof.
  intros Hn. unfold assign, ratio_series. rewrite (getitem_missing df num Hn). reflexivity.
Qed.

Lemma assign_ratio_no_denominator df c num den scale :
  num ∈ columns df -> den ∉ columns df ->
  assign df c (fun df => ratio_series df num den scale) = Raise (KeyError den).
Proof.
  intros Hn Hd. unfold assign, ratio_series.
  rewrite (getitem_in df num Hn), (getitem_missing df den Hd). reflexivity.
Qed.

(** Text in the denominator: the division raises. *)
Lemma assign_ratio_text df c num den scale r0 s :
  num ∈ columns df -> den ∈ columns df -> numeric_in df num ->
  r0 ∈ rows df -> cell_at r0 den = Str s ->
  assign df c (fun df => ratio_series df num den scale) = Raise TypeError.
Proof.
  intros Hn Hd Nn Hr0 Hs. unfold assign, ratio_series.
  rewrite (getitem_in df num Hn), (getitem_in df den Hd). cbn [mbind result_bind].
  unfold Series.truediv. change (map ?f ?l) with (f <$> l). rewrite zip_fmap_fmap.
  rewrite (mapM_raises _ _ TypeError (cell_at r0 num, cell_at r0 den)); [done| | |].
  - apply Forall_fmap, Forall_forall. intros r Hr. cbn.
    unfold numeric_in in Nn. rewrite Forall_forall in Nn. destruct (Nn r Hr) as [x ->].
    destruct (cell_at r den); [left; by eexists|by right..].
  - apply list_elem_of_fmap. by exists r0.
  - rewrite Hs. unfold numeric_in in Nn. rewrite Forall_forall in Nn.
    by destruct (Nn r0 Hr0) as [x ->].
Qed.

Lemma assign_ratio_numeric df c num den scale df' c0 :
  assign df c (fun df => ratio_series df num den scale) = Ok df' ->
  c0 ≠ c -> numeric_in df c0 -> numeric_in df' c0.
Proof.
  intros (_ & _ & K)%assign_ratio_rows. apply kept_numeric.
  eapply Forall2_impl; [exact K|]. cbn beta. by intros r r' (? & ? & _).
Qed.

(** The frames [clean_business_data] builds up to [fillna(0)] exist for
    every table whose dates parse and whose normalised column names are
    distinct. *)
Lemma business_filled_total df :
  "date" ∈ columns df ->
  Forall (fun r => ∃ t, date_of r = Ok t) (rows df) ->
  NoDup (normalize_name <$> columns df) ->
  ∃ d1 d2 d3,
    assign df "date" (fun df => d ← DataFrame.getitem df "date"; pd.to_datetime d) = Ok d1
    ∧ DataFrame.set_columns d1 (map normalize_name (columns d1)) = Ok d2
    ∧ coerce_numeric_frame d2 business_numeric = Ok d3.
Proof.
  intros Hdate Hparse Hnd.
  destruct (assign_date_total df Hdate Hparse) as [d1 H1].
  destruct (assign_date_all _ _ H1) as (_ & Hc1 & _).
  assert (∃ d2, DataFrame.set_columns d1 (map normalize_name (columns d1)) = Ok d2)
    as [d2 H2].
  { unfold DataFrame.set_columns. rewrite length_map, bool_decide_eq_true_2 by done.
    rewrite Hc1. change (map ?f ?l) with (f <$> l).
    rewrite bool_decide_eq_true_2 by done. by eexists. }
  destruct (coerce_numeric_frame_ok business_numeric d2) as [d3 H3].
  by exists d1, d2, d3.
Qed.

(** How [clean_business_data] ends on a table whose dates parse and whose
    normalised column names are distinct: with a [KeyError] for the first
    of [gross_profit], [total_revenue] and [num_of_orders] that is missing;
    with a [TypeError] when [num_of_orders] holds text; with a table when
    it holds numbers. *)
Lemma clean_business_frame_run df :
  "date" ∈ columns df ->
  Forall (fun r => ∃ t, date_of r = Ok t) (rows df) ->
  NoDup (normalize_name <$> columns df) ->
  match filter (fun c => c ∉ normalize_name <$> columns df) business_inputs with
  | c :: _ => clean_business_frame df = Raise (KeyError c)
  | [] =>
      (∀ c, c ∈ columns df -> normalize_name c = "num_of_orders" -> numeric_in df c) ->
      ∃ out, clean_business_frame df = Ok out
  end
  ∧ (filter (fun c => c ∉ normalize_name <$> columns df) business_inputs = [] ->
     ∀ c r0 s, c ∈ columns df -> normalize_name c = "num_of_orders" ->
               r0 ∈ rows df -> cell_at r0 c = Str s ->
               clean_business_frame df = Raise TypeError).
Proof.
  intros Hdate Hparse Hnd.
  destruct (business_filled_total df Hdate Hparse Hnd) as (d1 & d2 & d3 & H1 & H2 & H3).
  destruct (business_filled_rows df d1 d2 d3 H1 H2 H3) as (_ & _ & Hc3 & R4).
  unfold clean_business_frame. rewrite H1. cbn [mbind result_bind].
  rewrite H2. cbn [mbind result_bind].
  change ["total_revenue"; "gross_profit"; "COGS"] with business_numeric.
  rewrite H3. cbn [mbind result_bind].
  set (d4 := DataFrame.fillna d3 (Num 0)) in *.
  assert (Hc4 : columns d4 = normalize_name <$> columns df) by done.
  assert (N4 : ∀ c, c ∈ business_numeric -> c ∈ columns d4 -> numeric_in d4 c).
  { intros c Hc Hin. rewrite Hc4 in Hin.
    apply list_elem_of_fmap in Hin as (c0 & -> & Hc0). unfold numeric_in.
    apply Forall2_Forall_r with (l := rows df)
            (P := fun _ r' => ∃ x, cell_at r' (normalize_name c0) = Num x);
      [|by apply Forall_true].
    eapply Forall2_impl; [exact R4|]. cbn beta.
    intros r f (_ & _ & Hn & _). rewrite (Hn c0 Hc0 Hc). apply fill_numeric_of. }
  assert (O4 : ∀ c, c ∈ columns df -> normalize_name c = "num_of_orders" ->
            Forall2 (fun r f => cell_at f "num_of_orders" = fill (Num 0) (cell_at r c))
                    (rows df) (rows d4)).
  { intros c Hc Hname. eapply Forall2_impl; [exact R4|]. cbn beta.
    intros r f (_ & _ & _ & Ho). rewrite <- Hname. apply Ho; [done|].
    rewrite Hname. by apply (bool_decide_unpack _). }
  clearbody d4. clear R4 H1 H2 H3 Hc3. rewrite <- Hc4.
  assert (Mg : "gross_profit" ∈ business_numeric) by (by apply (bool_decide_unpack _)).
  assert (Mt : "total_revenue" ∈ business_numeric) by (by apply (bool_decide_unpack _)).
  unfold business_inputs. rewrite !filter_cons, filter_nil.
  destruct (decide ("gross_profit" ∈ columns d4)) as [Hg|Hg].
  2:{ rewrite decide_True by done. split; [|done].
      by rewrite assign_ratio_no_numerator. }
  rewrite (decide_False (P := "gross_profit" ∉ _)) by (by intros ?).
  destruct (decide ("total_revenue" ∈ columns d4)) as [Ht|Ht].
  2:{ rewrite decide_True by done. split; [|done].
      by rewrite assign_ratio_no_denominator. }
  rewrite (decide_False (P := "total_revenue" ∉ _)) by (by intros ?).
  destruct (assign_ratio_total d4 "profit_margin" "gross_profit" "total_revenue"
              (Some 100%float)) as [d5 H5]; [by auto..|].
  rewrite H5. cbn [mbind result_bind].
  destruct (assign_ratio_rows _ _ _ _ _ _ H5) as (_ & Hc5 & R5).
  assert (Ht5 : "total_revenue" ∈ columns d5).
  { rewrite Hc5. apply elem_of_add_column. by left. }
  assert (Nt5 : numeric_in d5 "total_revenue").
  { eapply assign_ratio_numeric; [exact H5|done|by apply N4]. }
  destruct (decide ("num_of_orders" ∈ columns d4)) as [Hn|Hn].
  2:{ rewrite decide_True by done. split; [|done].
      rewrite assign_ratio_no_denominator; [done|done|].
      rewrite Hc5, elem_of_add_column. by intros [?|?]. }
  rewrite (decide_False (P := "num_of_orders" ∉ _)) by (by intros ?).
  assert (Hn5 : "num_of_orders" ∈ columns d5).
  { rewrite Hc5. apply elem_of_add_column. by left. }
  pose proof Hn as Hn'. rewrite Hc4 in Hn'.
  apply list_elem_of_fmap in Hn' as (c0 & Hname & Hc0). symmetry in Hname.
  specialize (O4 c0 Hc0 Hname).
  assert (O5 : Forall2 (fun r f => cell_at f "num_of_orders" = fill (Num 0) (cell_at r c0))
                       (rows df) (rows d5)).
  { eapply Forall2_compose; [|exact O4|exact R5]. cbn beta.
    intros r f f' Hf (_ & K & _). by rewrite K. }
  split.
  - intros Hnum.
    destruct (assign_ratio_total d5 "avg_order_value" "total_revenue" "num_of_orders"
                None) as [d6 H6]; [done..| |].
    { unfold numeric_in.
      apply Forall2_Forall_r with (l := rows df)
              (P := fun _ r' => ∃ x, cell_at r' "num_of_orders" = Num x);
        [|by apply Forall_true].
      apply Forall2_same_length_lookup_2; [by eapply Forall2_length|].
      intros i r f Hr Hf. rewrite (Forall2_lookup_lr _ _ _ _ _ _ O5 Hr Hf).
      destruct (Forall_lookup_1 _ _ _ _ (Hnum c0 Hc0 Hname) Hr) as [x ->].
      unfold fill. cbn [is_na]. destruct (is_nan x); by eexists. }
    rewrite H6. cbn [mbind result_bind]. unfold DataFrame.drop_duplicates, has_column.
    rewrite bool_decide_eq_true_2; [by eexists|].
    apply assign_ratio_rows in H6 as (_ & -> & _). rewrite Hc5, !elem_of_add_column.
    do 2 left. rewrite Hc4. apply list_elem_of_fmap. by exists "date".
  - intros _ c r0 s Hc Hname' Hr0 Hs.
    assert (c = c0) as ->.
    { apply list_elem_of_lookup in Hc as [i Hi]. apply list_elem_of_lookup in Hc0 as [j Hj].
      assert (i = j) as ->; [|congruence].
      eapply NoDup_lookup; [exact Hnd| |]; rewrite list_lookup_fmap.
      - by rewrite Hi.
      - rewrite Hj. cbn. congruence. }
    apply list_elem_of_lookup in Hr0 as [i Hi].
    destruct (Forall2_lookup_l _ _ _ _ _ O5 Hi) as (f & Hf & Hcell).
    rewrite Hs in Hcell. change (fill (Num 0) (Str s)) with (Str s) in Hcell.
    rewrite (assign_ratio_text d5 "avg_order_value" "total_revenue" "num_of_orders"
               None f s); [done..| |done].
    by eapply list_elem_of_lookup_2.
Qed.

End business_run.


(** ** Column names, and what [clean_business_data] returns *)

Lemma occurs_app a s t : occurs a (s +:+ t) = occurs a s || occurs a t.
Proof.
  induction s as [|b s IH]; [done|].
  change (String b s +:+ t) with (String b (s +:+ t)). cbn [occurs].
  rewrite IH. by rewrite orb_assoc.
Qed.

Lemma str_replace_removes a t s : occurs a t = false -> occurs a (str_replace a t s) = false.
Proof.
  intros Ht. induction s as [|b s IH]; cbn; [done|].
  destruct (Ascii.eqb a b) eqn:E.
  - by rewrite occurs_app, Ht, IH.
  - cbn. by rewrite E, IH.
Qed.

Lemma str_replace_keeps_out a b t s :
  occurs b t = false -> occurs b s = false -> occurs b (str_replace a t s) = false.
Proof.
  intros Ht. induction s as [|c s IH]; cbn; [done|].
  intros [Hc Hs]%orb_false_elim. destruct (Ascii.eqb a c).
  - by rewrite occurs_app, Ht, IH.
  - cbn. by rewrite Hc, IH.
Qed.

Lemma str_replace_absent a t s : occurs a s = false -> str_replace a t s = s.
Proof.
  induction s as [|b s IH]; cbn; [done|].
  intros [Hb Hs]%orb_false_elim. by rewrite Hb, IH.
Qed.

Lemma normalize_name_clean c :
  occurs "#" (normalize_name c) = false ∧ occurs " " (normalize_name c) = false.
Proof.
  unfold normalize_name. split.
  - apply str_replace_keeps_out; [done|]. by apply str_replace_removes.
  - by apply str_replace_removes.
Qed.

(** The rows [drop_duplicates] keeps are a sublist of the rows. *)
Lemma first_occurrences_sublist c rs : ∀ seen, first_occurrences c seen rs `sublist_of` rs.
Proof.
  induction rs as [|r rs IH]; intros seen; cbn [first_occurrences]; [done|].
  destruct (existsb _ seen); [by apply sublist_cons|by apply sublist_skip].
Qed.

(** Rows with pairwise distinct keys are all kept. *)
Lemma first_occurrences_all c rs : ∀ seen,
  Forall is_date seen ->
  Forall (fun r => is_date (cell_at r c)) rs ->
  NoDup ((fun r => cell_at r c) <$> rs) ->
  (∀ r, r ∈ rs -> cell_at r c ∉ seen) ->
  first_occurrences c seen rs = rs.
Proof.
  induction rs as [|r rs IH]; intros seen Hseen Hrs Hnd Hfresh; [done|].
  cbn [first_occurrences]. apply Forall_cons in Hrs as [Hr Hrs].
  rewrite fmap_cons in Hnd. apply NoDup_cons in Hnd as [Hnew Hnd].
  destruct (existsb (cell_eqb (cell_at r c)) seen) eqn:E.
  - apply existsb_cell_eqb in E; [|done]. destruct (Hfresh r); [by left|done].
  - f_equal. apply IH; [by constructor|done..|].
    intros r' Hr' [Heq|Hin]%elem_of_cons.
    + apply Hnew. rewrite <- Heq. apply list_elem_of_fmap. by exists r'.
    + apply (Hfresh r'); [by right|done].
Qed.

(** A normalised column name holds neither the [#] marker nor a space. *)
Theorem normalize_name_no_marker (c : string) :
  occurs "#" (normalize_name c) = false ∧ occurs " " (normalize_name c) = false.
Proof. apply normalize_name_clean. Qed.

(** Normalising twice is normalising once, and a name that holds neither
    [#] nor a space is left as it is. *)
Theorem normalize_name_idempotent (c : string) :
  normalize_name (normalize_name c) = normalize_name c
  ∧ (occurs "#" c = false -> occurs " " c = false -> normalize_name c = c).
Proof.
  assert (Hfix : ∀ s, occurs "#" s = false -> occurs " " s = false ->
                      normalize_name s = s).
  { intros s H1 H2. unfold normalize_name. by rewrite (str_replace_absent "#"), str_replace_absent. }
  split; [|apply Hfix]. apply Hfix; apply normalize_name_clean.
Qed.

Section business_more.
Context {L : Lib}.

(** The derived metrics of every returned business record, from the
    record's own columns: the rounded quotients, with no guard on the
    denominator. *)
Theorem clean_business_data_metrics (h : heap) l d0 r h' :
  h !! l = Some d0 ->
  clean_business_data l h = (Ok r, h') ->
  ∃ out, h' !! r = Some out
    ∧ ∀ o, o ∈ rows out ->
        ∃ g t n,
          cell_at o "gross_profit" = Num g ∧ cell_at o "total_revenue" = Num t
          ∧ cell_at o "num_of_orders" = Num n
          ∧ cell_at o "profit_margin" = Num (np_round2 (g / t * 100))
          ∧ cell_at o "avg_order_value" = Num (np_round2 (t / n)).
Proof.
  intros Hl Hrun.
  destruct (refines_returns _ _ _ _ _ (clean_business_data_refines h l d0 Hl) Hrun)
    as (out & ext & Hout & -> & Hr).
  exists out. split; [done|].
  apply clean_business_frame_rows in Hout as (pre & _ & _ & _ & Hrows & Hpre).
  intros o Ho. rewrite Hrows in Ho.
  apply (fun H => elem_of_sublist _ _ _ H (first_occurrences_sublist _ _ _)) in Ho.
  apply list_elem_of_lookup in Ho as [j Hj].
  by destruct (Forall2_lookup_r _ _ _ _ _ Hpre Hj) as (r0 & _ & _ & _ & _ & _ & ?).
Qed.

(** The columns of the returned business table: the input's column names
    normalised, in their order, then [profit_margin] and [avg_order_value],
    each appended unless a column of that name exists. *)
Theorem clean_business_data_columns (h : heap) l d0 r h' :
  h !! l = Some d0 ->
  clean_business_data l h = (Ok r, h') ->
  ∃ out, h' !! r = Some out
    ∧ columns out
      = foldl add_column (normalize_name <$> columns d0)
              ["profit_margin"; "avg_order_value"].
Proof.
  intros Hl Hrun.
  destruct (refines_returns _ _ _ _ _ (clean_business_data_refines h l d0 Hl) Hrun)
    as (out & ext & Hout & -> & Hr).
  exists out. split; [done|].
  apply clean_business_frame_rows in Hout as (pre & _ & Hc & -> & _).
  by rewrite Hc.
Qed.

(** De-duplication keeps the input order and the input labels, and drops
    nothing when the dates are pairwise distinct. *)
Theorem clean_business_data_order (h : heap) l d0 r h' :
  h !! l = Some d0 ->
  clean_business_data l h = (Ok r, h') ->
  ∃ out, h' !! r = Some out
    ∧ label <$> rows out `sublist_of` label <$> rows d0
    ∧ (NoDup (date_of <$> rows d0) -> label <$> rows out = label <$> rows d0).
Proof.
  intros Hl Hrun.
  destruct (refines_returns _ _ _ _ _ (clean_business_data_refines h l d0 Hl) Hrun)
    as (out & ext & Hout & -> & Hr).
  exists out. split; [done|].
  apply clean_business_frame_rows in Hout as (pre & _ & _ & _ & Hrows & Hpre).
  assert (Hlab : label <$> rows pre = label <$> rows d0).
  { apply list_eq_same_length with (length (rows d0)); rewrite ?length_fmap;
      [done|by erewrite <- Forall2_length|].
    intros i x y _. rewrite !list_lookup_fmap.
    destruct (rows pre !! i) as [o|] eqn:Ho; [|done].
    destruct (Forall2_lookup_r _ _ _ _ _ Hpre Ho) as (r0 & Hr0 & Hl0 & _).
    rewrite Hr0. cbn. congruence. }
  rewrite Hrows, <- Hlab. split.
  - apply fmap_sublist, first_occurrences_sublist.
  - intros Hnd. rewrite first_occurrences_all; [done|constructor| | |].
    + apply Forall2_Forall_r with (l := rows d0)
              (P := fun _ o => is_date (cell_at o "date")); [|by apply Forall_true].
      eapply Forall2_impl; [exact Hpre|]. cbn beta.
      intros r0 o (_ & Hd & _). by eapply datetime_of_is_date.
    + assert (date_of <$> rows d0 = Ok <$> ((fun o => cell_at o "date") <$> rows pre))
        as Heq.
      { apply list_eq_same_length with (length (rows d0)); rewrite ?length_fmap;
          [symmetry; by eapply Forall2_length|done|].
        intros i x y _. rewrite !list_lookup_fmap.
        destruct (rows pre !! i) as [o|] eqn:Ho.
        - destruct (Forall2_lookup_r _ _ _ _ _ Hpre Ho) as (r0 & Hr0 & _ & Hd0 & _).
          rewrite Hr0. cbn. congruence.
        - apply Forall2_length in Hpre. apply lookup_ge_None in Ho.
          rewrite (proj2 (lookup_ge_None (rows d0) i)) by lia. done. }
      rewrite Heq in Hnd. eapply NoDup_fmap_1. exact Hnd.
    + intros ? _. apply not_elem_of_nil.
Qed.

End business_more.


(** ** [clean_business_data]: cells and outcomes *)

Section business_outcomes.
Context {L : Lib}.

(** Every returned business record stems from an input record of the same
    label and holds that record's values under the normalised column
    names: the date parsed; [total_revenue], [gross_profit] and [COGS]
    coerced to numbers, 0 where missing or not a number; every other column
    as it was, 0 where missing. *)
Theorem clean_business_data_cells (h : heap) l d0 r h' :
  h !! l = Some d0 ->
  clean_business_data l h = (Ok r, h') ->
  ∃ out, h' !! r = Some out
    ∧ ∀ o, o ∈ rows out ->
        ∃ r0, r0 ∈ rows d0 ∧ label o = label r0
          ∧ date_of r0 = Ok (cell_at o "date")
          ∧ ∀ c, c ∈ columns d0 ->
              (normalize_name c ∈ business_numeric ->
                 (∀ x, cell_at r0 c = Num x ->
                       cell_at o (normalize_name c)
                       = Num (if is_nan x then 0%float else x))
                 ∧ (∀ s, cell_at r0 c = Str s ->
                         cell_at o (normalize_name c)
                         = Num (match parse_float s with
                                | Some x => if is_nan x then 0%float else x
                                | None => 0%float
                                end)))
              ∧ (normalize_name c ∉ "date" :: business_numeric ++ business_metrics ->
                 cell_at o (normalize_name c) = fill (Num 0) (cell_at r0 c)).
Proof.
  intros Hl Hrun.
  destruct (refines_returns _ _ _ _ _ (clean_business_data_refines h l d0 Hl) Hrun)
    as (out & ext & Hout & -> & Hr).
  exists out. split; [done|].
  apply clean_business_frame_rows in Hout as (pre & _ & _ & _ & Hrows & Hpre).
  intros o Ho. rewrite Hrows in Ho.
  apply (fun H => elem_of_sublist _ _ _ H (first_occurrences_sublist _ _ _)) in Ho.
  apply list_elem_of_lookup in Ho as [j Hj].
  destruct (Forall2_lookup_r _ _ _ _ _ Hpre Hj) as (r0 & Hr0 & Hlab & Hd & Hnum & Hoth & _).
  exists r0. split; [by eapply list_elem_of_lookup_2|]. split; [done|]. split; [done|].
  intros c Hc. split.
  - intros Hn. rewrite (Hnum c Hc Hn). split.
    + intros x ->. apply coerced_number.
    + intros s ->. apply coerced_text.
  - intros Hn. by apply Hoth.
Qed.

(** [clean_business_data] returns a table for every input that has a date
    column whose every value is a timestamp or text that parses as one,
    whose normalised column names are pairwise distinct and include
    [gross_profit], [total_revenue] and [num_of_orders], and whose order
    counts are numbers. *)
Theorem clean_business_data_returns (h : heap) l d0 :
  h !! l = Some d0 ->
  "date" ∈ columns d0 ->
  Forall (fun r => ∃ t, date_of r = Ok t) (rows d0) ->
  NoDup (normalize_name <$> columns d0) ->
  (∀ c, c ∈ business_inputs -> c ∈ normalize_name <$> columns d0) ->
  (∀ c, c ∈ columns d0 -> normalize_name c = "num_of_orders" -> numeric_in d0 c) ->
  ∃ r h' out, clean_business_data l h = (Ok r, h') ∧ h' !! r = Some out.
Proof.
  intros Hl Hdate Hparse Hnd Hin Hnum.
  destruct (clean_business_frame_run d0 Hdate Hparse Hnd) as [Hrun _].
  assert (filter (fun c => c ∉ normalize_name <$> columns d0) business_inputs = [])
    as Hnone.
  { destruct (filter _ business_inputs) as [|c rest] eqn:E; [done|].
    assert (c ∈ filter (fun c => c ∉ normalize_name <$> columns d0) business_inputs)
      as Hc by (rewrite E; left).
    apply list_elem_of_filter in Hc as [Hno Hc]. destruct Hno. by apply Hin. }
  rewrite Hnone in Hrun. destruct (Hrun Hnum) as [out Hout].
  pose proof (clean_business_data_refines h l d0 Hl) as R. rewrite Hout in R.
  destruct (refines_run_Ok _ _ _ R) as (r & h' & ? & ?). by exists r, h', out.
Qed.

(** On a table whose dates parse and whose normalised column names are
    pairwise distinct, [clean_business_data] raises a [KeyError] for the
    first of [gross_profit], [total_revenue] and [num_of_orders] that is
    not among them. The input table is left as it was. *)
Theorem clean_business_data_missing_column (h : heap) l d0 c rest :
  h !! l = Some d0 ->
  "date" ∈ columns d0 ->
  Forall (fun r => ∃ t, date_of r = Ok t) (rows d0) ->
  NoDup (normalize_name <$> columns d0) ->
  filter (fun c => c ∉ normalize_name <$> columns d0) business_inputs = c :: rest ->
  ∃ h', clean_business_data l h = (Raise (KeyError c), h') ∧ h' !! l = Some d0.
Proof.
  intros Hl Hdate Hparse Hnd Hmiss.
  destruct (clean_business_frame_run d0 Hdate Hparse Hnd) as [Hrun _].
  rewrite Hmiss in Hrun.
  pose proof (clean_business_data_refines h l d0 Hl) as R. rewrite Hrun in R.
  by eapply refines_run_Raise.
Qed.

(** The order count is not coerced: where [total_revenue] and
    [gross_profit] turn text into a number or 0, text in the column that
    normalises to [num_of_orders] makes [clean_business_data] raise a
    [TypeError]. *)
Theorem clean_business_data_text_orders (h : heap) l d0 c r0 s :
  h !! l = Some d0 ->
  "date" ∈ columns d0 ->
  Forall (fun r => ∃ t, date_of r = Ok t) (rows d0) ->
  NoDup (normalize_name <$> columns d0) ->
  (∀ c, c ∈ business_inputs -> c ∈ normalize_name <$> columns d0) ->
  c ∈ columns d0 -> normalize_name c = "num_of_orders" ->
  r0 ∈ rows d0 -> cell_at r0 c = Str s ->
  ∃ h', clean_business_data l h = (Raise TypeError, h') ∧ h' !! l = Some d0.
Proof.
  intros Hl Hdate Hparse Hnd Hin Hc Hname Hr0 Hs.
  destruct (clean_business_frame_run d0 Hdate Hparse Hnd) as [_ Hrun].
  assert (filter (fun c => c ∉ normalize_name <$> columns d0) business_inputs = [])
    as Hnone.
  { destruct (filter _ business_inputs) as [|c' rest] eqn:E; [done|].
    assert (c' ∈ filter (fun c => c ∉ normalize_name <$> columns d0) business_inputs)
      as Hc' by (rewrite E; left).
    apply list_elem_of_filter in Hc' as [Hno Hc']. destruct Hno. by apply Hin. }
  specialize (Hrun Hnone c r0 s Hc Hname Hr0 Hs).
  pose proof (clean_business_data_refines h l d0 Hl) as R. rewrite Hrun in R.
  by eapply refines_run_Raise.
Qed.

End business_outcomes.


(** ** [combine_marketing_data] *)

Lemma elem_of_foldl_add_column l : ∀ cols x,
  x ∈ foldl add_column cols l <-> x ∈ cols ∨ x ∈ l.
Proof.
  induction l as [|c l IH]; intros cols x; cbn [foldl].
  - rewrite elem_of_nil. tauto.
  - rewrite IH, elem_of_add_column, elem_of_cons. tauto.
Qed.

Lemma refines_of_returns (m : py ref) (h : heap) v d :
  refines m h v -> returns m h d -> v = Ok d.
Proof.
  intros R (l & st' & Hrun & Hl).
  destruct (refines_returns _ _ _ _ _ R Hrun) as (out & ext & -> & _ & Hout).
  congruence.
Qed.

Lemma refines_of_raise (m : py ref) (h : heap) v e :
  refines m h v -> (m h).1 = Raise e -> v = Raise e.
Proof.
  intros R Hrun. destruct (m h) as [x h'] eqn:E. cbn in Hrun. subst x.
  by destruct (refines_raises _ _ _ _ _ R E).
Qed.

Lemma elem_of_take (rs : list Row) idx o : o ∈ DataFrame.take rs idx -> o ∈ rs.
Proof.
  unfold DataFrame.take. intros (i & _ & Hi)%list_elem_of_omap.
  by eapply list_elem_of_lookup_2.
Qed.

Section combine_more.
Context {L : Lib}.

Lemma keys_total df c :
  c ∈ columns df -> Forall (fun r => is_date (cell_at r c)) (rows df) ->
  ∃ ks, DataFrame.keys df c = Ok ks.
Proof.
  intros Hc Hd. unfold DataFrame.keys. rewrite getitem_in by done. cbn [mbind result_bind].
  apply mapM_total, Forall_fmap. eapply Forall_impl; [exact Hd|].
  cbn. intros r [t ->]. by eexists.
Qed.

(** What a cleaned platform table holds, for the combination. *)
Lemma clean_marketing_frame_tagged df p out :
  clean_marketing_frame df p = Ok out ->
  "date" ∈ columns out
  ∧ Forall (fun o => is_date (cell_at o "date")
                     ∧ cell_at o "platform" = Str p
                     ∧ ∃ x, cell_at o "impression" = Num x ∧ (0 <? x)%float = true)
           (rows out).
Proof.
  intros Hout.
  destruct (clean_marketing_frame_Ok _ _ _ Hout) as (pre & mask & Hpre & Hmask & Hrows & Hc).
  apply positive_series_Ok in Hmask as [_ Hmask].
  apply derive_marketing_frame_rows in Hpre as ((Hdate & _) & Hcols & Hpre). split.
  - rewrite Hc, Hcols. apply elem_of_foldl_add_column. by left.
  - apply Forall_forall. intros o Ho. rewrite Hrows in Ho.
    destruct (select_lookup _ _ _ _ Hmask Ho) as (j & Hj & x & Hx & Hpos).
    destruct (Forall2_lookup_r _ _ _ _ _ Hpre Hj) as (r0 & _ & _ & Hd & Hp & _).
    split_and!; [by eapply datetime_of_is_date|done|by exists x].
Qed.

(** The combination of three cleaned tables exists, and every record of it
    is a record of one of them under a new label. *)
Lemma combine_cleaned_frames c1 c2 c3 :
  "date" ∈ columns c1 ->
  Forall (fun o => is_date (cell_at o "date")) (rows c1 ++ rows c2 ++ rows c3) ->
  ∃ out, DataFrame.sort_values (DataFrame.concat [c1; c2; c3]) "date" = Ok out
         ∧ ∀ o, o ∈ rows out ->
             ∃ o', o' ∈ rows c1 ++ rows c2 ++ rows c3 ∧ cells o = cells o'.
Proof.
  intros Hdate Hd.
  assert (Hrows : rows (DataFrame.concat [c1; c2; c3])
                  = reindex (rows c1 ++ rows c2 ++ rows c3)).
  { cbn [DataFrame.concat rows map mjoin list_join]. by rewrite (app_nil_r (rows c3)). }
  destruct (keys_total (DataFrame.concat [c1; c2; c3]) "date") as [ks Hks].
  - cbn [DataFrame.concat columns foldl]. rewrite !elem_of_foldl_add_column. tauto.
  - rewrite Hrows. apply Forall_forall. intros o [i Hi]%list_elem_of_lookup.
    apply reindex_lookup in Hi as (o' & Hi & ->). rewrite cell_at_mkRow.
    rewrite Forall_forall in Hd. by apply (Hd o'), list_elem_of_lookup_2 with i.
  - unfold DataFrame.sort_values. rewrite Hks. cbn [mbind result_bind].
    eexists. split; [done|]. cbn [rows]. intros o Ho%elem_of_take.
    rewrite Hrows in Ho. apply list_elem_of_lookup in Ho as [i Hi].
    apply reindex_lookup in Hi as (o' & Hi & ->). exists o'.
    split; [by eapply list_elem_of_lookup_2|done].
Qed.

Lemma combine_marketing_frames_run df dg dt c1 c2 c3 :
  clean_marketing_frame df "Facebook" = Ok c1 ->
  clean_marketing_frame dg "Google" = Ok c2 ->
  clean_marketing_frame dt "TikTok" = Ok c3 ->
  ∃ out, combine_marketing_frames df dg dt = Ok out
         ∧ ∀ o, o ∈ rows out ->
             ∃ o', o' ∈ rows c1 ++ rows c2 ++ rows c3 ∧ cells o = cells o'.
Proof.
  intros H1 H2 H3. unfold combine_marketing_frames. rewrite H1, H2, H3.
  cbn [mbind result_bind].
  destruct (clean_marketing_frame_tagged _ _ _ H1) as [Hdate T1].
  destruct (clean_marketing_frame_tagged _ _ _ H2) as [_ T2].
  destruct (clean_marketing_frame_tagged _ _ _ H3) as [_ T3].
  apply combine_cleaned_frames; [done|].
  rewrite !Forall_app. split_and!;
    (eapply Forall_impl; [eassumption|]; cbn beta; by intros o (? & _)).
Qed.


(** [combine_marketing_data] raises what the first failing cleaning raises,
    in the order Facebook, Google, TikTok; a later table is not looked at. *)
Theorem combine_marketing_data_first_error (h : heap) f g t df dg dt e :
  h !! f = Some df -> h !! g = Some dg -> h !! t = Some dt ->
  (clean_marketing_data f "Facebook" h).1 = Raise e
  ∨ ((∃ c1, returns (clean_marketing_data f "Facebook") h c1)
     ∧ (clean_marketing_data g "Google" h).1 = Raise e)
  ∨ ((∃ c1, returns (clean_marketing_data f "Facebook") h c1)
     ∧ (∃ c2, returns (clean_marketing_data g "Google") h c2)
     ∧ (clean_marketing_data t "TikTok" h).1 = Raise e) ->
  (combine_marketing_data f g t h).1 = Raise e.
Proof.
  intros Hf Hg Ht Hcase.
  pose proof (clean_marketing_data_refines h f df "Facebook" Hf) as R1.
  pose proof (clean_marketing_data_refines h g dg "Google" Hg) as R2.
  pose proof (clean_marketing_data_refines h t dt "TikTok" Ht) as R3.
  assert (combine_marketing_frames df dg dt = Raise e) as Hv.
  { unfold combine_marketing_frames.
    destruct Hcase as [E1|[[[c1 E1] E2]|([c1 E1] & [c2 E2] & E3)]].
    - by rewrite (refines_of_raise _ _ _ _ R1 E1).
    - rewrite (refines_of_returns _ _ _ _ R1 E1). cbn [mbind result_bind].
      by rewrite (refines_of_raise _ _ _ _ R2 E2).
    - rewrite (refines_of_returns _ _ _ _ R1 E1). cbn [mbind result_bind].
      rewrite (refines_of_returns _ _ _ _ R2 E2). cbn [mbind result_bind].
      by rewrite (refines_of_raise _ _ _ _ R3 E3). }
  destruct (combine_marketing_data_refines h f g t df dg dt Hf Hg Ht) as (ext & Hrun & _).
  by rewrite Hrun, Hv.
Qed.

(** Every record of the combined table carries one of the three platform
    names, a timestamp as its date and a positive impression count,
    whatever order the library's sort leaves the records in. *)
Theorem combine_marketing_data_records (h : heap) f g t df dg dt r h' :
  h !! f = Some df -> h !! g = Some dg -> h !! t = Some dt ->
  combine_marketing_data f g t h = (Ok r, h') ->
  ∃ out, h' !! r = Some out
    ∧ ∀ o, o ∈ rows out ->
        (∃ p, p ∈ platforms ∧ cell_at o "platform" = Str p)
        ∧ is_date (cell_at o "date")
        ∧ ∃ x, cell_at o "impression" = Num x ∧ (0 <? x)%float = true.
Proof.
  intros Hf Hg Ht Hrun.
  destruct (refines_returns _ _ _ _ _
              (combine_marketing_data_refines h f g t df dg dt Hf Hg Ht) Hrun)
    as (out & ext & Hout & -> & Hr).
  exists out. split; [done|].
  destruct (combine_marketing_frames_Ok _ _ _ _ Hout) as (c1 & c2 & c3 & H1 & H2 & H3 & _).
  destruct (combine_marketing_frames_run _ _ _ _ _ _ H1 H2 H3) as (out' & Hout' & Hfrom).
  rewrite Hout in Hout'. injection Hout' as <-.
  destruct (clean_marketing_frame_tagged _ _ _ H1) as [_ T1].
  destruct (clean_marketing_frame_tagged _ _ _ H2) as [_ T2].
  destruct (clean_marketing_frame_tagged _ _ _ H3) as [_ T3].
  rewrite Forall_forall in T1, T2, T3.
  intros o Ho. destruct (Hfrom o Ho) as (o' & Ho' & Hcells).
  unfold cell_at. rewrite Hcells. fold (cell_at o' "platform").
  fold (cell_at o' "date"). fold (cell_at o' "impression").
  rewrite !elem_of_app in Ho'. destruct Ho' as [Ho'|[Ho'|Ho']].
  - destruct (T1 o' Ho') as (? & ? & ?). split_and!; [|done..].
    exists "Facebook". split; [|done]. by apply (bool_decide_unpack _).
  - destruct (T2 o' Ho') as (? & ? & ?). split_and!; [|done..].
    exists "Google". split; [|done]. by apply (bool_decide_unpack _).
  - destruct (T3 o' Ho') as (? & ? & ?). split_and!; [|done..].
    exists "TikTok". split; [|done]. by apply (bool_decide_unpack _).
Qed.

End combine_more.


(** ** [create_unified_dataset]: efficiency and dates *)

Lemma insert_sorted_sorted k l :
  StronglySorted Z.lt l -> StronglySorted Z.lt (insert_sorted k l).
Proof.
  induction 1 as [|x l Hl IH Hx]; cbn [insert_sorted]; [by repeat constructor|].
  destruct (k <? x)%Z eqn:Hlt.
  - apply Z.ltb_lt in Hlt. constructor; [by constructor|].
    constructor; [done|]. eapply Forall_impl; [exact Hx|]. cbn. lia.
  - destruct (k =? x)%Z eqn:Heq; [by constructor|].
    apply Z.ltb_ge in Hlt. apply Z.eqb_neq in Heq. constructor; [done|].
    apply Forall_forall. intros y [->|Hy]%elem_of_insert_sorted; [lia|].
    rewrite Forall_forall in Hx. by apply Hx.
Qed.

Lemma sorted_unique_sorted l : StronglySorted Z.lt (sorted_unique l).
Proof.
  unfold sorted_unique. induction l as [|x l IH]; cbn [foldr]; [constructor|].
  by apply insert_sorted_sorted.
Qed.

Lemma NoDup_sorted_unique l : NoDup (sorted_unique l).
Proof.
  induction (sorted_unique_sorted l) as [|x l' _ IH Hx]; constructor; [|done].
  intros Hin. rewrite Forall_forall in Hx. specialize (Hx x Hin). lia.
Qed.

(** Groups of distinct keys, each of at most one row that carries its key,
    hold pairwise distinct keys. *)
Lemma NoDup_join_groups (F : Z -> list cell) (ks : list Z) :
  NoDup ks ->
  (∀ k c, c ∈ F k -> c = Date k) ->
  (∀ k, length (F k) ≤ 1) ->
  NoDup (mjoin (F <$> ks)).
Proof.
  intros Hnd Hkey Hlen. induction Hnd as [|k ks Hk _ IH]; [constructor|].
  rewrite fmap_cons. cbn [mjoin list_join]. apply NoDup_app. split_and!; [| |exact IH].
  - specialize (Hlen k). destruct (F k) as [|c [|c' g]]; cbn in Hlen; [constructor| |lia].
    apply NoDup_singleton.
  - intros c Hc (g & Hcg & (k' & -> & Hk')%list_elem_of_fmap)%list_elem_of_join.
    apply Hkey in Hc, Hcg. subst c. injection Hcg as ->. done.
Qed.

Lemma group_at_most_one c k rs :
  NoDup ((fun r => cell_at r c) <$> rs) -> length (group c k rs) ≤ 1.
Proof.
  induction rs as [|r rs IH]; [intros _; unfold group; rewrite filter_nil; cbn; lia|].
  rewrite fmap_cons. intros [Hr Hnd]%NoDup_cons.
  unfold group. rewrite filter_cons. fold (group c k rs).
  destruct (decide _) as [Hk|_]; [|by apply IH].
  apply Is_true_true, cell_eqb_date in Hk; [|by eexists].
  assert (group c k rs = []) as ->; [|done].
  apply group_nil. intros r' Hr' Hd. apply Hr. rewrite Hk, <- Hd.
  apply list_elem_of_fmap. by exists r'.
Qed.

Lemma fmap_imap_mkRow {B} (f : Row -> B) (ms : list (gmap string cell)) (g : gmap string cell -> B) :
  (∀ i m, f (mkRow i m) = g m) -> f <$> imap mkRow ms = g <$> ms.
Proof.
  intros Hfg. apply list_eq. intros i. rewrite !list_lookup_fmap, list_lookup_imap.
  destruct (ms !! i); cbn; [by rewrite Hfg|done].
Qed.

Lemma fmap_join {A B} (f : A -> B) (ls : list (list A)) :
  f <$> mjoin ls = mjoin (fmap f <$> ls).
Proof.
  induction ls as [|l ls IH]; [done|]. rewrite fmap_cons.
  change (mjoin (l :: ls)) with (l ++ mjoin ls).
  change (mjoin ((f <$> l) :: (fmap f <$> ls))) with ((f <$> l) ++ mjoin (fmap f <$> ls)).
  by rewrite fmap_app, IH.
Qed.

Section unify_more.
Context {L : Lib}.

Lemma merged_group_at_most_one on lcols rcols ov lrows rrows k :
  NoDup ((fun r => cell_at r on) <$> lrows) ->
  NoDup ((fun r => cell_at r on) <$> rrows) ->
  length (DataFrame.merged_group on lcols rcols ov lrows rrows k) ≤ 1.
Proof.
  intros Hl%(group_at_most_one on k) Hr%(group_at_most_one on k).
  unfold DataFrame.merged_group.
  destruct (group on k lrows) as [|l [|l' ls]]; cbn in Hl; [|destruct (group on k rrows) as [|r [|r' rs]]; cbn in Hr|lia].
  - by rewrite length_map.
  - done.
  - done.
  - lia.
Qed.

(** An outer join of frames that each hold a key at most once holds every
    key at most once. *)
Lemma merge_outer_keys_NoDup left right on merged :
  DataFrame.merge_outer left right on = Ok merged ->
  NoDup ((fun r => cell_at r on) <$> rows left) ->
  NoDup ((fun r => cell_at r on) <$> rows right) ->
  NoDup ((fun r => cell_at r on) <$> rows merged).
Proof.
  unfold DataFrame.merge_outer.
  intros (lk & _ & (rk & _ & Hm)%bind_Ok)%bind_Ok Hl Hr.
  cbn zeta in Hm. case_bool_decide as Hnd; [|done]. injection Hm as <-. cbn [rows].
  rewrite (fmap_imap_mkRow _ _ (fun m => default (Num NaN) (m !! on))) by done.
  change (map ?f ?l) with (f <$> l). rewrite fmap_join, <- list_fmap_compose.
  apply NoDup_join_groups.
  - apply NoDup_sorted_unique.
  - intros k c (m & -> & Hm)%list_elem_of_fmap.
    apply elem_of_merged_group in Hm as (lo & ro & -> & _). by rewrite merged_row_date.
  - intros k. cbn. rewrite length_fmap. by apply merged_group_at_most_one.
Qed.

(** The unified frame, row by row, from the merged frame. *)
Lemma create_unified_frame_rows db dm out :
  create_unified_frame db dm = Ok out ->
  ∃ daily merged,
    daily_marketing_frame dm = Ok daily
    ∧ DataFrame.merge_outer db daily "date" = Ok merged
    ∧ Forall2 (fun m o => label o = label m
                 ∧ (∀ c, c ≠ "marketing_efficiency" ->
                         cell_at o c = if bool_decide (c ∈ columns merged)
                                       then fill (Num 0) (cell_at m c) else cell_at m c)
                 ∧ ∃ s t, cell_at o "spend" = Num s ∧ cell_at o "total_revenue" = Num t
                          ∧ is_nan s = false ∧ is_nan t = false
                          ∧ cell_at o "marketing_efficiency"
                            = Num (if (0 <? s)%float then np_round2 (t / s) else 0)%float)
              (rows merged) (rows out).
Proof.
  unfold create_unified_frame.
  intros (daily & Hd & (merged & Hm & Ha)%bind_Ok)%bind_Ok.
  exists daily, merged. split_and!; [done..|].
  apply assign_guarded_rows in Ha as ((Hs & Ht & _) & _ & Ha).
  cbn [columns DataFrame.fillna] in Hs, Ht.
  eapply Forall2_compose; [|apply (fillna_rows_all merged (Num 0))|exact Ha].
  cbn beta. intros m f o [L1 E1] (L2 & E2 & xs & xt & xs' & Es & Et & Es' & M).
  assert (xs' = xs) as -> by congruence. cbn [scaled] in M.
  split; [congruence|]. split.
  - intros c Hc. rewrite E2 by done. apply E1.
  - exists xs, xt. rewrite !E2 by done. split_and!; [done..| | |done].
    + rewrite E1, bool_decide_eq_true_2 in Es by done. by eapply fill_zero_num.
    + rewrite E1, bool_decide_eq_true_2 in Et by done. by eapply fill_zero_num.
Qed.

Lemma daily_dates_NoDup dm daily :
  daily_marketing_frame dm = Ok daily -> NoDup (dates daily).
Proof.
  intros (_ & ks & _ & Hks)%daily_marketing_frame_Ok.
  assert (dates daily = Date <$> sorted_unique ks) as ->.
  { unfold dates. apply list_eq_same_length with (length (rows daily));
      rewrite ?length_fmap; [symmetry; by eapply Forall2_length|done|].
    intros i x y _. rewrite !list_lookup_fmap.
    destruct (rows daily !! i) as [r|] eqn:Hr; [|done].
    destruct (Forall2_lookup_l _ _ _ _ _ Hks Hr) as (k & Hk & Hd).
    rewrite Hk. cbn. congruence. }
  apply NoDup_fmap_2; [|apply NoDup_sorted_unique]. by intros ? ? [= ->].
Qed.

Lemma unified_dates db dm out daily merged :
  DataFrame.merge_outer db daily "date" = Ok merged ->
  Forall2 (fun m o => label o = label m
             ∧ (∀ c, c ≠ "marketing_efficiency" ->
                     cell_at o c = if bool_decide (c ∈ columns merged)
                                   then fill (Num 0) (cell_at m c) else cell_at m c)
             ∧ ∃ s t, cell_at o "spend" = Num s ∧ cell_at o "total_revenue" = Num t
                      ∧ is_nan s = false ∧ is_nan t = false
                      ∧ cell_at o "marketing_efficiency"
                        = Num (if (0 <? s)%float then np_round2 (t / s) else 0)%float)
          (rows merged) (rows out) ->
  create_unified_frame db dm = Ok out ->
  dates out = dates merged.
Proof.
  intros Hm Hrows _. unfold dates.
  apply list_eq_same_length with (length (rows merged));
    rewrite ?length_fmap; [done|symmetry; by eapply Forall2_length|].
  intros i x y _. rewrite !list_lookup_fmap.
  destruct (rows merged !! i) as [m|] eqn:Hmi.
  - destruct (Forall2_lookup_l _ _ _ _ _ Hrows Hmi) as (o & Ho & _ & E & _).
    rewrite Ho. cbn. intros [= <-] [= <-]. rewrite E by done.
    apply merge_outer_Ok in Hm as (lk & rk & _ & _ & _ & _ & _ & Hfrom & _).
    destruct (Hfrom m (list_elem_of_lookup_2 _ _ _ Hmi)) as (k & _ & Hg).
    apply elem_of_merged_group in Hg as (lo & ro & Heq & _).
    assert (cell_at m "date" = Date k) as ->
      by (unfold cell_at; by rewrite Heq, merged_row_date).
    by case_bool_decide.
  - intros _. done.
Qed.

(** The efficiency of every unified record, from the record's own spend
    and total revenue: the rounded quotient where the spend is positive,
    0 elsewhere. Neither of the two is missing. *)
Theorem unified_marketing_efficiency (h : heap) b m db dm r h' :
  h !! b = Some db -> h !! m = Some dm ->
  create_unified_dataset b m h = (Ok r, h') ->
  ∃ out, h' !! r = Some out
    ∧ ∀ o, o ∈ rows out ->
        ∃ s t, cell_at o "spend" = Num s ∧ cell_at o "total_revenue" = Num t
               ∧ is_nan s = false ∧ is_nan t = false
               ∧ cell_at o "marketing_efficiency"
                 = Num (if (0 <? s)%float then np_round2 (t / s) else 0)%float.
Proof.
  intros Hb Hm Hrun.
  destruct (refines_returns _ _ _ _ _
              (create_unified_dataset_refines h b m db dm Hb Hm) Hrun)
    as (out & ext & Hout & -> & Hr).
  exists out. split; [done|].
  apply create_unified_frame_rows in Hout as (daily & merged & _ & _ & Hrows).
  intros o [i Hi]%list_elem_of_lookup.
  by destruct (Forall2_lookup_r _ _ _ _ _ Hrows Hi) as (m0 & _ & _ & _ & ?).
Qed.

Lemma create_unified_frame_NoDup db dm out :
  create_unified_frame db dm = Ok out -> NoDup (dates db) -> NoDup (dates out).
Proof.
  intros Hout Hnd.
  destruct (create_unified_frame_rows _ _ _ Hout) as (daily & merged & Hd & Hm & Hrows).
  rewrite (unified_dates db dm out daily merged Hm Hrows Hout).
  eapply merge_outer_keys_NoDup; [exact Hm|exact Hnd|].
  by eapply daily_dates_NoDup.
Qed.

(** The unified table holds one record per date when the business table
    does: the daily aggregation leaves one record per date on the ad side,
    and the join pairs them. *)
Theorem unified_one_record_per_date (h : heap) b m db dm r h' :
  h !! b = Some db -> h !! m = Some dm ->
  NoDup (dates db) ->
  create_unified_dataset b m h = (Ok r, h') ->
  ∃ out, h' !! r = Some out ∧ NoDup (dates out).
Proof.
  intros Hb Hm Hnd Hrun.
  destruct (refines_returns _ _ _ _ _
              (create_unified_dataset_refines h b m db dm Hb Hm) Hrun)
    as (out & ext & Hout & -> & Hr).
  exists out. split; [done|]. by eapply create_unified_frame_NoDup.
Qed.

(** The two stages compose: the table [clean_business_data] returns,
    unified with any ad table, gives one record per date. *)
Theorem cleaned_business_unifies_per_date (h : heap) b m d0 dm b' h1 u h2 :
  h !! b = Some d0 -> h !! m = Some dm ->
  clean_business_data b h = (Ok b', h1) ->
  create_unified_dataset b' m h1 = (Ok u, h2) ->
  ∃ out, h2 !! u = Some out ∧ NoDup (dates out).
Proof.
  intros Hb Hm Hclean Hrun.
  destruct (refines_returns _ _ _ _ _ (clean_business_data_refines h b d0 Hb) Hclean)
    as (db & ext & Hdb & -> & Hb').
  assert (Hm' : (h ++ ext) !! m = Some dm) by by apply lookup_app_l_Some.
  destruct (refines_returns _ _ _ _ _
              (create_unified_dataset_refines _ b' m db dm Hb' Hm') Hrun)
    as (out & ext' & Hout & -> & Hr).
  exists out. split; [done|]. eapply create_unified_frame_NoDup; [exact Hout|].
  apply clean_business_frame_Ok in Hdb as (pre & _ & Hrows).
  unfold dates. rewrite Hrows. apply first_occurrences_NoDup.
Qed.

End unify_more.


(** ** [create_unified_dataset]: the daily aggregation *)

Section aggregation.
Context {L : Lib}.

Lemma agg_sum_Ok g c v :
  DataFrame.agg_sum g c = Ok v -> v = Num (group_sum (numbers c g)).
Proof.
  unfold DataFrame.agg_sum. intros (xs & Hxs & [= <-])%bind_Ok. do 2 f_equal.
  apply mapM_Ok in Hxs. unfold numbers.
  induction Hxs as [|r x g xs Hr _ IH]; [done|]. cbn [omap list_omap].
  destruct (cell_at r c); try done. injection Hr as ->. by rewrite IH.
Qed.

Lemma group_row_cell key cols rs k m c :
  NoDup (key :: cols) ->
  DataFrame.group_row key cols rs k = Ok m -> c ∈ cols ->
  m !! c = Some (Num (group_sum (numbers c (group key k rs)))).
Proof.
  intros Hnd. unfold DataFrame.group_row. intros (vs & Hvs & Heq)%bind_Ok Hc.
  assert (m = list_to_map ((key, Date k) :: zip cols vs)) as -> by congruence.
  apply mapM_Ok in Hvs. pose proof (Forall2_length _ _ _ Hvs) as Hlen.
  apply elem_of_list_to_map_1.
  - rewrite fmap_cons, fst_zip by lia. exact Hnd.
  - right. apply list_elem_of_lookup in Hc as [i Hi].
    destruct (Forall2_lookup_l _ _ _ _ _ Hvs Hi) as (v & Hv & Hagg).
    apply agg_sum_Ok in Hagg as ->. apply list_elem_of_lookup. exists i.
    rewrite lookup_zip_with, Hi. cbn. by rewrite Hv.
Qed.

(** The grouped frame, row by row: the day, and each summed column. *)
Lemma groupby_sum_rows df key cols out :
  NoDup (key :: cols) ->
  DataFrame.groupby_sum df key cols = Ok out ->
  Forall (fun d => ∃ k, cell_at d key = Date k
                        ∧ (∃ r, r ∈ rows df ∧ cell_at r key = Date k)
                        ∧ ∀ c, c ∈ cols ->
                            cell_at d c
                            = Num (group_sum (numbers c (group key k (rows df)))))
         (rows out).
Proof.
  intros Hnd. unfold DataFrame.groupby_sum.
  intros (ks & Hks & (? & _ & (ms & Hms & [= <-])%bind_Ok)%bind_Ok)%bind_Ok.
  apply keys_Ok in Hks as [_ Hks]. cbn [rows]. apply mapM_Ok in Hms.
  apply Forall_forall. intros d (i & Hi & _)%elem_of_imap_mkRow.
  destruct (Forall2_lookup_r _ _ _ _ _ Hms Hi) as (k & Hk & Hrow).
  exists k. split_and!.
  - unfold cell_at. by erewrite group_row_date.
  - apply list_elem_of_lookup_2 in Hk.
    apply (proj1 (elem_of_sorted_unique _ _)) in Hk.
    apply list_elem_of_lookup in Hk as [j Hj].
    destruct (Forall2_lookup_r _ _ _ _ _ Hks Hj) as (r & Hr & Hd).
    exists r. split; [by eapply list_elem_of_lookup_2|done].
  - intros c Hc. unfold cell_at. by erewrite group_row_cell.
Qed.

(** The daily-aggregated ad table, row by row. *)
Lemma daily_marketing_frame_rows dm daily :
  daily_marketing_frame dm = Ok daily ->
  Forall (fun d => ∃ k,
            cell_at d "date" = Date k ∧ Date k ∈ dates dm
            ∧ (∀ c, c ∈ summed -> cell_at d c = Num (day_sum dm c k))
            ∧ cell_at d "daily_roas"
              = Num (if (0 <? day_sum dm "spend" k)%float
                     then np_round2 (day_sum dm "attributed revenue" k
                                     / day_sum dm "spend" k)
                     else 0)%float
            ∧ cell_at d "daily_ctr"
              = Num (if (0 <? day_sum dm "impression" k)%float
                     then np_round2 (day_sum dm "clicks" k
                                     / day_sum dm "impression" k * 100)
                     else 0)%float)
         (rows daily).
Proof.
  unfold daily_marketing_frame.
  intros (d1 & Hg & (d2 & H2 & H3)%bind_Ok)%bind_Ok.
  apply groupby_sum_rows in Hg; [|by apply (bool_decide_unpack _)].
  apply assign_guarded_rows in H2 as (_ & _ & R2).
  apply assign_guarded_rows in H3 as (_ & _ & R3).
  pose proof (Forall2_chain _ _ _ _ _ R2 R3) as R.
  apply Forall_forall. intros d [i Hd]%list_elem_of_lookup.
  destruct (Forall2_lookup_r _ _ _ _ _ R Hd)
    as (r1 & Hr1 & r2 & (_ & K2 & xs & xa & xs' & Es & Ea & Es' & M2)
           & (_ & K3 & xi & xc & xi' & Ei & Ec & Ei' & M3)).
  rewrite Forall_forall in Hg.
  destruct (Hg r1 (list_elem_of_lookup_2 _ _ _ Hr1)) as (k & Hk & (r & Hr & Hrk) & Hsum).
  rewrite K2 in Ei, Ec, Ei' by done.
  rewrite (Hsum "spend") in Es, Es' by (by apply (bool_decide_unpack _)).
  rewrite (Hsum "attributed revenue") in Ea by (by apply (bool_decide_unpack _)).
  rewrite (Hsum "impression") in Ei, Ei' by (by apply (bool_decide_unpack _)).
  rewrite (Hsum "clicks") in Ec by (by apply (bool_decide_unpack _)).
  injection Es as <-. injection Es' as <-. injection Ea as <-.
  injection Ei as <-. injection Ei' as <-. injection Ec as <-.
  cbn [scaled] in M2, M3.
  exists k. split_and!.
  - by rewrite K3, K2.
  - apply list_elem_of_fmap. by exists r.
  - intros c Hc. unfold day_sum. rewrite K3, K2.
    + by apply Hsum.
    + intros ->. revert Hc. by apply (bool_decide_unpack _).
    + intros ->. revert Hc. by apply (bool_decide_unpack _).
  - by rewrite K3.
  - done.
Qed.

(** The daily-aggregated ad table [create_unified_dataset] builds first:
    one record per day of the ad table. Every date of an ad record has a
    daily record, no date has two, and every daily record holds a date of
    the ad table, that day's sums of spend, attributed revenue, clicks and
    impressions, and the two daily ratios computed from those sums, 0 where
    the denominator is not positive. *)
Theorem daily_aggregation (h : heap) b m db dm r h' :
  h !! b = Some db -> h !! m = Some dm ->
  create_unified_dataset b m h = (Ok r, h') ->
  ∃ daily, h' !! length h = Some daily
    ∧ (∀ r0, r0 ∈ rows dm ->
         ∃ d, d ∈ rows daily ∧ cell_at d "date" = cell_at r0 "date")
    ∧ NoDup (dates daily)
    ∧ ∀ d, d ∈ rows daily ->
        ∃ k, cell_at d "date" = Date k ∧ Date k ∈ dates dm
          ∧ (∀ c, c ∈ summed -> cell_at d c = Num (day_sum dm c k))
          ∧ cell_at d "daily_roas"
            = Num (if (0 <? day_sum dm "spend" k)%float
                   then np_round2 (day_sum dm "attributed revenue" k
                                   / day_sum dm "spend" k)
                   else 0)%float
          ∧ cell_at d "daily_ctr"
            = Num (if (0 <? day_sum dm "impression" k)%float
                   then np_round2 (day_sum dm "clicks" k
                                   / day_sum dm "impression" k * 100)
                   else 0)%float.
Proof.
  intros Hb Hm Hrun.
  destruct (create_unified_dataset_store h b m db dm r h' Hb Hm Hrun)
    as (daily & out & Hdaily & _ & Hld & _).
  exists daily. split; [done|]. split_and!.
  - destruct (daily_marketing_frame_Ok _ _ Hdaily) as (_ & ks & Hks & Hdk).
    intros r0 [i Hi]%list_elem_of_lookup.
    destruct (Forall2_lookup_l _ _ _ _ _ Hks Hi) as (k & Hk & Hr0).
    assert (k ∈ sorted_unique ks) as [j Hj]%list_elem_of_lookup
      by (apply elem_of_sorted_unique; by eapply list_elem_of_lookup_2).
    destruct (Forall2_lookup_r _ _ _ _ _ Hdk Hj) as (d & Hd & Hdate).
    exists d. split; [by eapply list_elem_of_lookup_2|]. by rewrite Hr0.
  - by eapply daily_dates_NoDup.
  - apply daily_marketing_frame_rows in Hdaily. by rewrite Forall_forall in Hdaily.
Qed.

End aggregation.


(** ** [create_unified_dataset]: the join *)

Section joined.
Context {L : Lib}.

(** Every row of a merged group pairs rows of its key: a side is a row of
    that frame with the key, or absent when the frame has none. *)
Lemma elem_of_merged_group_sides on lcols rcols ov lrows rrows k m :
  m ∈ DataFrame.merged_group on lcols rcols ov lrows rrows k ->
  ∃ lo ro, m = DataFrame.merged_row on lcols rcols ov k lo ro
    ∧ match lo with
      | Some l => l ∈ lrows ∧ cell_at l on = Date k
      | None => ∀ l, l ∈ lrows -> cell_at l on ≠ Date k
      end
    ∧ match ro with
      | Some r => r ∈ rrows ∧ cell_at r on = Date k
      | None => ∀ r, r ∈ rrows -> cell_at r on ≠ Date k
      end.
Proof.
  unfold DataFrame.merged_group.
  destruct (group on k lrows) as [|l ls] eqn:El;
    [|destruct (group on k rrows) as [|r rs] eqn:Er].
  - intros (r & -> & Hr)%list_elem_of_fmap. exists None, (Some r).
    split; [done|]. split; [by apply group_nil|by apply elem_of_group].
  - intros (l' & -> & Hl)%list_elem_of_fmap. exists (Some l'), None.
    rewrite <- El in Hl. split; [done|]. split; [by apply elem_of_group|by apply group_nil].
  - intros (l' & (r' & ->%list_elem_of_singleton & Hr)%list_elem_of_bind & Hl)
           %list_elem_of_bind.
    exists (Some l'), (Some r'). rewrite <- El in Hl. rewrite <- Er in Hr.
    split; [done|]. split; by apply elem_of_group.
Qed.

(** Every unified record pairs the business record and the daily ad record
    of its date, where they exist: it holds the business record's columns
    and the daily record's columns, each 0 where the value is missing. A
    column name the two tables share is left out here: the join renames
    it. *)
Theorem unified_carries_both_sides (h : heap) b m db dm r h' :
  h !! b = Some db -> h !! m = Some dm ->
  create_unified_dataset b m h = (Ok r, h') ->
  ∃ out daily,
    h' !! r = Some out ∧ h' !! length h = Some daily
    ∧ ∀ o, o ∈ rows out ->
        ∃ k, cell_at o "date" = Date k
          ∧ (Date k ∈ dates db ->
             ∃ b0, b0 ∈ rows db ∧ cell_at b0 "date" = Date k
               ∧ ∀ c, c ∈ columns db -> c ∉ "date" :: ad_columns ->
                      c ≠ "marketing_efficiency" ->
                      cell_at o c = fill (Num 0) (cell_at b0 c))
          ∧ (Date k ∈ dates daily ->
             ∃ d0, d0 ∈ rows daily ∧ cell_at d0 "date" = Date k
               ∧ ∀ c, c ∈ ad_columns -> c ∉ columns db ->
                      cell_at o c = fill (Num 0) (cell_at d0 c)).
Proof.
  intros Hb Hm Hrun.
  destruct (create_unified_dataset_store h b m db dm r h' Hb Hm Hrun)
    as (daily & out & Hdaily & Hout & Hld & Hlr).
  exists out, daily. split; [done|]. split; [done|].
  apply create_unified_frame_Ok in Hout as (daily' & merged & Hdaily' & Hmerge & Hrows).
  rewrite Hdaily in Hdaily'. injection Hdaily' as <-.
  apply daily_marketing_frame_Ok in Hdaily as (Hdcols & _).
  apply merge_outer_Ok in Hmerge
    as (lk & rk & _ & _ & Hnd & Hlcols & Hrcols & Hmrows & _).
  set (ov := shared "date" (columns db) (columns daily)) in *.
  assert (Hro : others "date" (columns daily) = ad_columns) by (by rewrite Hdcols).
  intros o [i Hi]%list_elem_of_lookup.
  destruct (Forall2_lookup_r _ _ _ _ _ Hrows Hi) as (mr & Hmr & _ & Hcells).
  destruct (Hmrows mr (list_elem_of_lookup_2 _ _ _ Hmr)) as (k & _ & Hg).
  apply elem_of_merged_group_sides in Hg as (lo & ro & Heq & Hlo & Hro').
  exists k. split_and!.
  - rewrite Hcells by done.
    assert (cell_at mr "date" = Date k) as ->
      by (unfold cell_at; by rewrite Heq, merged_row_date).
    by destruct (bool_decide _).
  - intros Hin. destruct lo as [b0|].
    2:{ apply list_elem_of_fmap in Hin as (b0 & Hd & Hb0). by destruct (Hlo b0 Hb0). }
    destruct Hlo as [Hb0 Hd]. exists b0. split; [done|]. split; [done|].
    intros c Hc Hno Hme. apply not_elem_of_cons in Hno as [Hne Hno].
    assert (c ∈ others "date" (columns db)) as Hc' by by apply list_elem_of_filter.
    assert (suffixed ov "_x" c = c) as Hsfx.
    { unfold suffixed. case_bool_decide as Hov; [|done].
      apply list_elem_of_filter in Hov as [Hov _]. rewrite Hro in Hov. done. }
    rewrite Hcells by done. specialize (Hlcols c Hc'). rewrite Hsfx in Hlcols.
    rewrite bool_decide_eq_true_2 by done. f_equal.
    pose proof (merged_row_left "date" _ _ ov k (Some b0) ro c Hnd Hc') as Hside.
    rewrite Hsfx in Hside. unfold cell_at at 1. by rewrite Heq, Hside.
  - intros Hin. destruct ro as [d0|].
    2:{ apply list_elem_of_fmap in Hin as (d0 & Hd & Hd0). by destruct (Hro' d0 Hd0). }
    destruct Hro' as [Hd0 Hd]. exists d0. split; [done|]. split; [done|].
    intros c Hc Hno.
    assert (c ∈ others "date" (columns daily)) as Hc' by by rewrite Hro.
    assert (suffixed ov "_y" c = c) as Hsfx.
    { unfold suffixed. case_bool_decide as Hov; [|done].
      apply list_elem_of_filter in Hov as [_ Hov].
      apply list_elem_of_filter in Hov as [_ Hov]. done. }
    assert (c ≠ "marketing_efficiency") as Hme.
    { intros ->. revert Hc. by apply (bool_decide_unpack _). }
    rewrite Hcells by done. specialize (Hrcols c Hc'). rewrite Hsfx in Hrcols.
    rewrite bool_decide_eq_true_2 by done. f_equal.
    pose proof (merged_row_right "date" _ _ ov k lo (Some d0) c Hnd Hc') as Hside.
    rewrite Hsfx in Hside. unfold cell_at at 1. by rewrite Heq, Hside.
Qed.

End joined.

Lemma filter_none {A} (P : A -> Prop) `{∀ x, Decision (P x)} (l : list A) :
  (∀ x, x ∈ l -> ¬ P x) -> filter P l = [].
Proof.
  intros Hno. destruct (filter P l) as [|x k] eqn:E; [done|].
  assert (x ∈ filter P l) as [Hx Hin]%list_elem_of_filter by (rewrite E; left).
  by destruct (Hno x Hin).
Qed.

Lemma suffixed_nil sfx c : suffixed [] sfx c = c.
Proof. unfold suffixed. by rewrite bool_decide_eq_false_2 by apply not_elem_of_nil. Qed.

Lemma map_suffixed_nil sfx l : map (suffixed [] sfx) l = l.
Proof. induction l as [|c l IH]; cbn [map]; [done|]. by rewrite suffixed_nil, IH. Qed.

Lemma map_unsuffixed on sfx (l : list string) :
  map (fun c => if bool_decide (c = on) then c else suffixed [] sfx c) l = l.
Proof.
  induction l as [|c l IH]; cbn [map]; [done|].
  rewrite suffixed_nil, IH. by case_bool_decide.
Qed.

Section unify_run.
Context {L : Lib}.

Lemma agg_sum_total g c :
  Forall (fun r => ∃ x, cell_at r c = Num x) g -> ∃ v, DataFrame.agg_sum g c = Ok v.
Proof.
  intros Hg. unfold DataFrame.agg_sum.
  destruct (mapM_total (fun r => DataFrame.num_of (cell_at r c)) g) as [xs ->].
  - eapply Forall_impl; [exact Hg|]. cbn. intros r [x ->]. by eexists.
  - by eexists.
Qed.

Lemma groupby_sum_total df key cols :
  key ∈ columns df -> Forall (fun r => is_date (cell_at r key)) (rows df) ->
  (∀ c, c ∈ cols -> c ∈ columns df ∧ numeric_in df c) ->
  ∃ out, DataFrame.groupby_sum df key cols = Ok out.
Proof.
  intros Hkey Hdates Hcols. unfold DataFrame.groupby_sum.
  destruct (keys_total df key Hkey Hdates) as [ks ->]. cbn [mbind result_bind].
  destruct (mapM_total (DataFrame.getitem df) cols) as [ss ->].
  { apply Forall_forall. intros c Hc. rewrite getitem_in by by apply Hcols. by eexists. }
  cbn [mbind result_bind].
  destruct (mapM_total (DataFrame.group_row key cols (rows df)) (sorted_unique ks))
    as [ms ->]; [|by eexists].
  apply Forall_forall. intros k _. unfold DataFrame.group_row.
  destruct (mapM_total (DataFrame.agg_sum (group key k (rows df))) cols) as [vs ->];
    [|by eexists].
  apply Forall_forall. intros c Hc. apply agg_sum_total.
  destruct (Hcols c Hc) as [_ Hn]. unfold numeric_in in Hn. rewrite Forall_forall in Hn.
  apply Forall_forall. intros r [Hr _]%elem_of_group. by apply Hn.
Qed.

Lemma daily_marketing_frame_total dm :
  "date" ∈ columns dm -> Forall (fun r => is_date (cell_at r "date")) (rows dm) ->
  (∀ c, c ∈ summed -> c ∈ columns dm ∧ numeric_in dm c) ->
  ∃ daily, daily_marketing_frame dm = Ok daily.
Proof.
  intros Hdate Hdates Hcols. unfold daily_marketing_frame.
  destruct (groupby_sum_total dm "date" summed Hdate Hdates Hcols) as [d1 H1].
  change ["spend"; "attributed revenue"; "clicks"; "impression"] with summed.
  rewrite H1. cbn [mbind result_bind].
  destruct (groupby_sum_Ok _ _ _ _ H1) as (_ & _ & Hc1 & _).
  apply groupby_sum_rows in H1; [|by apply (bool_decide_unpack _)].
  assert (N1 : ∀ c, c ∈ summed -> c ∈ columns d1 ∧ numeric_in d1 c).
  { intros c Hc. split; [rewrite Hc1; by right|].
    unfold numeric_in. eapply Forall_impl; [exact H1|]. cbn beta.
    intros d (k & _ & _ & Hsum). rewrite (Hsum c Hc). by eexists. }
  assert (Ms : "spend" ∈ summed) by (by apply (bool_decide_unpack _)).
  assert (Ma : "attributed revenue" ∈ summed) by (by apply (bool_decide_unpack _)).
  assert (Mc : "clicks" ∈ summed) by (by apply (bool_decide_unpack _)).
  assert (Mi : "impression" ∈ summed) by (by apply (bool_decide_unpack _)).
  destruct (assign_guarded_total d1 "daily_roas" "spend" "attributed revenue" "spend" None)
    as [d2 H2]; [by apply N1..|].
  rewrite H2. cbn [mbind result_bind].
  apply assign_guarded_total.
  1-3: eapply assign_guarded_mono; [exact H2|by apply N1].
  1-3: eapply assign_guarded_numeric; [exact H2|done|by apply N1].
Qed.

(** How the computation of [create_unified_dataset] ends on tables it is
    meant for: with the unified frame when the business table has a
    [total_revenue] column of numbers, with a [KeyError] when it has no
    such column. *)
Lemma create_unified_frame_run db dm :
  "date" ∈ columns db -> Forall (fun r => is_date (cell_at r "date")) (rows db) ->
  NoDup (columns db) -> (∀ c, c ∈ ad_columns -> c ∉ columns db) ->
  "date" ∈ columns dm -> Forall (fun r => is_date (cell_at r "date")) (rows dm) ->
  (∀ c, c ∈ summed -> c ∈ columns dm ∧ numeric_in dm c) ->
  ("total_revenue" ∈ columns db -> numeric_in db "total_revenue" ->
   ∃ out, create_unified_frame db dm = Ok out
          ∧ columns out = add_column (columns db ++ ad_columns) "marketing_efficiency")
  ∧ ("total_revenue" ∉ columns db ->
     create_unified_frame db dm = Raise (KeyError "total_revenue")).
Proof.
  intros Hbdate Hbdates Hnd Hdisj Hmdate Hmdates Hcols.
  destruct (daily_marketing_frame_total dm Hmdate Hmdates Hcols) as [daily Hdaily].
  unfold create_unified_frame. rewrite Hdaily. cbn [mbind result_bind].
  destruct (daily_marketing_frame_Ok _ _ Hdaily) as (Hdcols & ks & _ & Hdk).
  pose proof (daily_marketing_frame_rows _ _ Hdaily) as Hdrows.
  assert (Hro : others "date" (columns daily) = ad_columns) by (by rewrite Hdcols).
  assert (Hov : shared "date" (columns db) (columns daily) = []).
  { unfold shared. apply filter_none. intros c [_ Hc]%list_elem_of_filter.
    rewrite Hro. intros Hin. by apply (Hdisj c). }
  assert (∃ merged, DataFrame.merge_outer db daily "date" = Ok merged) as [merged Hm].
  { unfold DataFrame.merge_outer.
    destruct (keys_total db "date" Hbdate Hbdates) as [lk ->]. cbn [mbind result_bind].
    destruct (keys_total daily "date") as [rk ->].
    - rewrite Hdcols. by left.
    - apply Forall_forall. intros r [i Hi]%list_elem_of_lookup.
      destruct (Forall2_lookup_l _ _ _ _ _ Hdk Hi) as (k & _ & ->). by eexists.
    - cbn [mbind result_bind]. cbn zeta. rewrite Hov, Hro.
      rewrite bool_decide_eq_true_2; [by eexists|].
      rewrite !map_suffixed_nil.
      apply NoDup_cons. split.
      + rewrite elem_of_app. intros [[Hne _]%list_elem_of_filter|Hin]; [done|].
        revert Hin. by apply (bool_decide_unpack _).
      + apply NoDup_app. split_and!.
        * by apply NoDup_filter.
        * intros c [_ Hc]%list_elem_of_filter Hin. by apply (Hdisj c).
        * by apply (bool_decide_unpack _). }
  rewrite Hm. cbn [mbind result_bind].
  assert (Hmcols : columns merged = columns db ++ ad_columns).
  { clear -Hm Hov Hro. unfold DataFrame.merge_outer in Hm.
    apply bind_Ok in Hm as (a & _ & Hm). apply bind_Ok in Hm as (a0 & _ & Hm).
    cbn zeta in Hm. case_bool_decide; [|done]. injection Hm as <-.
    cbn [columns]. by rewrite Hov, Hro, map_unsuffixed, map_suffixed_nil. }
  pose proof Hm as Hm'. apply merge_outer_Ok in Hm'
    as (lk & rk & _ & _ & Hndn & Hlcols & Hrcols & Hmrows & _).
  rewrite Hov in Hndn, Hlcols, Hrcols, Hmrows.
  set (filled := DataFrame.fillna merged (Num 0)).
  assert (Hspend : "spend" ∈ columns filled).
  { cbn [filled columns DataFrame.fillna]. rewrite Hmcols, elem_of_app. right.
    by apply (bool_decide_unpack _). }
  assert (Hcell : ∀ f, f ∈ rows filled ->
            ∃ lo ro,
              (∀ c, c ∈ others "date" (columns db) ->
                    cell_at f c = fill (Num 0) (DataFrame.side lo c))
              ∧ (∀ c, c ∈ ad_columns -> cell_at f c = fill (Num 0) (DataFrame.side ro c))
              ∧ (∀ b0, lo = Some b0 -> b0 ∈ rows db)
              ∧ (∀ d0, ro = Some d0 -> d0 ∈ rows daily)).
  { intros f [i Hi]%list_elem_of_lookup.
    destruct (Forall2_lookup_r _ _ _ _ _ (fillna_rows_all merged (Num 0)) Hi)
      as (mr & Hmr & _ & Hf).
    destruct (Hmrows mr (list_elem_of_lookup_2 _ _ _ Hmr)) as (k & _ & Hg).
    apply elem_of_merged_group_sides in Hg as (lo & ro & Heq & Hlo & Hro').
    exists lo, ro. split_and!.
    - intros c Hc. rewrite Hf. specialize (Hlcols c Hc). rewrite suffixed_nil in Hlcols.
      rewrite bool_decide_eq_true_2 by done. f_equal.
      pose proof (merged_row_left "date" _ _ [] k lo ro c Hndn Hc) as Hside.
      rewrite suffixed_nil in Hside. unfold cell_at. by rewrite Heq, Hside.
    - intros c Hc. rewrite <- Hro in Hc. rewrite Hf. specialize (Hrcols c Hc).
      rewrite suffixed_nil in Hrcols. rewrite bool_decide_eq_true_2 by done. f_equal.
      pose proof (merged_row_right "date" _ _ [] k lo ro c Hndn Hc) as Hside.
      rewrite suffixed_nil in Hside. unfold cell_at. by rewrite Heq, Hside.
    - intros b0 ->. by destruct Hlo.
    - intros d0 ->. by destruct Hro'. }
  assert (Nspend : numeric_in filled "spend").
  { unfold numeric_in. apply Forall_forall. intros f Hf.
    destruct (Hcell f Hf) as (lo & ro & _ & Hr & _ & Hd).
    rewrite Hr by (by apply (bool_decide_unpack _)).
    destruct ro as [d0|]; cbn [DataFrame.side]; [|by eexists].
    rewrite Forall_forall in Hdrows.
    destruct (Hdrows d0 (Hd d0 eq_refl)) as (k & _ & _ & Hsum & _).
    rewrite (Hsum "spend") by (by apply (bool_decide_unpack _)).
    unfold fill. cbn [is_na]. destruct (is_nan _); by eexists. }
  split.
  - intros Ht Nt.
    assert (Ht' : "total_revenue" ∈ others "date" (columns db))
      by (by apply list_elem_of_filter).
    destruct (assign_guarded_total filled "marketing_efficiency" "spend" "total_revenue"
                "spend" None) as [out Hout]; [done| |done..| |done|].
    + cbn [filled columns DataFrame.fillna]. rewrite Hmcols, elem_of_app. by left.
    + unfold numeric_in. apply Forall_forall. intros f Hf.
      destruct (Hcell f Hf) as (lo & ro & Hl & _ & Hb & _). rewrite (Hl _ Ht').
      destruct lo as [b0|]; cbn [DataFrame.side]; [|by eexists].
      unfold numeric_in in Nt. rewrite Forall_forall in Nt.
      destruct (Nt b0 (Hb b0 eq_refl)) as [x ->].
      unfold fill. cbn [is_na]. destruct (is_nan x); by eexists.
    + exists out. split; [done|].
      apply assign_guarded_rows in Hout as (_ & -> & _).
      cbn [filled columns DataFrame.fillna]. by rewrite Hmcols.
  - intros Hno. apply assign_guarded_no_numerator; [done..|].
    cbn [filled columns DataFrame.fillna]. rewrite Hmcols, elem_of_app.
    intros [Hin|Hin]; [done|]. revert Hin. by apply (bool_decide_unpack _).
Qed.

End unify_run.

Section unify_outcomes.
Context {L : Lib}.

(** [create_unified_dataset] returns a table whenever both tables hold
    timestamps in their [date] column, the ad table holds numbers in the
    four columns that are summed, and the business table holds numbers in
    [total_revenue] and has no column named like one of the daily ad
    columns. The table has the business columns, then the six daily ad
    columns, then [marketing_efficiency]. Tables with repeated column names
    are outside the model. *)
Theorem create_unified_dataset_returns (h : heap) b m db dm :
  h !! b = Some db -> h !! m = Some dm ->
  NoDup (columns db) ->
  Forall (fun c => c ∉ columns db) ad_columns ->
  "date" ∈ columns db -> Forall (fun r => is_date (cell_at r "date")) (rows db) ->
  "total_revenue" ∈ columns db -> numeric_in db "total_revenue" ->
  "date" ∈ columns dm -> Forall (fun r => is_date (cell_at r "date")) (rows dm) ->
  Forall (fun c => c ∈ columns dm ∧ numeric_in dm c) summed ->
  ∃ r h' out,
    create_unified_dataset b m h = (Ok r, h') ∧ h' !! r = Some out
    ∧ columns out = add_column (columns db ++ ad_columns) "marketing_efficiency".
Proof.
  intros Hb Hm Hnd Hdisj Hbd Hbds Ht Nt Hmd Hmds Hsum.
  rewrite Forall_forall in Hdisj. rewrite Forall_forall in Hsum.
  destruct (create_unified_frame_run db dm Hbd Hbds Hnd Hdisj Hmd Hmds Hsum)
    as [Hrun _].
  destruct (Hrun Ht Nt) as (out & Hout & Hcols).
  pose proof (create_unified_dataset_refines h b m db dm Hb Hm) as R.
  rewrite Hout in R. apply refines_run_Ok in R as (r & h' & Hr & Hlook).
  by exists r, h', out.
Qed.

(** On a business table without a [total_revenue] column
    [create_unified_dataset] raises [KeyError('total_revenue')], after the
    aggregation and the join have gone through, and leaves both tables as
    they were. *)
Theorem create_unified_dataset_missing_revenue (h : heap) b m db dm :
  h !! b = Some db -> h !! m = Some dm ->
  NoDup (columns db) ->
  Forall (fun c => c ∉ columns db) ad_columns ->
  "date" ∈ columns db -> Forall (fun r => is_date (cell_at r "date")) (rows db) ->
  "total_revenue" ∉ columns db ->
  "date" ∈ columns dm -> Forall (fun r => is_date (cell_at r "date")) (rows dm) ->
  Forall (fun c => c ∈ columns dm ∧ numeric_in dm c) summed ->
  ∃ h', create_unified_dataset b m h = (Raise (KeyError "total_revenue"), h')
        ∧ h' !! b = Some db ∧ h' !! m = Some dm.
Proof.
  intros Hb Hm Hnd Hdisj Hbd Hbds Hno Hmd Hmds Hsum.
  rewrite Forall_forall in Hdisj. rewrite Forall_forall in Hsum.
  destruct (create_unified_frame_run db dm Hbd Hbds Hnd Hdisj Hmd Hmds Hsum)
    as [_ Hrun].
  pose proof (create_unified_dataset_refines h b m db dm Hb Hm) as R.
  rewrite (Hrun Hno) in R. destruct R as (ext & Hr & _). exists (h ++ ext).
  split_and!; [done|by apply lookup_app_l_Some..].
Qed.

End unify_outcomes.


(** ** [fetch_data_from_url] *)

Section fetching.
Import fetch.
Context {N : Net}.

(** [fetch_data_from_url] raises no [Exception]. It returns a table when
    the GET answers with a status code outside 400..599 and the download
    that follows it, a second request, yields the table; nothing is
    printed then. In every other case it returns [None] and prints one
    line that names the URL. *)
Theorem fetch_data_from_url_outcome (url : string) (s : state) :
  ∃ res s', fetch_data_from_url url s = (Returned res, s')
    ∧ match res with
      | Some df =>
          stdout s' = stdout s
          ∧ ∃ code w, requests_get url (net s) = (Returned code, w)
                      ∧ (code < 400 ∨ 600 ≤ code)
                      ∧ read_csv url w = (Returned df, net s')
      | None =>
          ∃ e, stdout s' = stdout s ++ ["Error fetching data from " +:+ url +:+ ": " +:+ e]
               ∧ (requests_get url (net s) = (Raised e, net s')
                  ∨ (∃ code, requests_get url (net s) = (Returned code, net s')
                             ∧ 400 ≤ code < 600 ∧ e = http_error_text code url)
                  ∨ (∃ code w, requests_get url (net s) = (Returned code, w)
                               ∧ (code < 400 ∨ 600 ≤ code)
                               ∧ read_csv url w = (Raised e, net s')))
      end.
Proof.
  unfold fetch_data_from_url, try_except, mbind, io_bind, call, raise_for_status, print,
    mret, io_ret.
  destruct s as [w0 out]. cbn -[Nat.leb Nat.ltb].
  destruct (requests_get url w0) as [[code|e] w1] eqn:Eget; cbn -[Nat.leb Nat.ltb].
  2:{ exists None. eexists. split; [reflexivity|]. exists e. cbn -[Nat.leb Nat.ltb]. split; [done|]. by left. }
  destruct ((400 <=? code) && (code <? 600)) eqn:Ecode; cbn -[Nat.leb Nat.ltb].
  { exists None. eexists. split; [reflexivity|]. eexists. cbn -[Nat.leb Nat.ltb]. split; [done|].
    right. left. exists code. apply andb_prop in Ecode as [?%Nat.leb_le ?%Nat.ltb_lt].
    split_and!; [done|lia..|done]. }
  assert (code < 400 ∨ 600 ≤ code) as Hcode.
  { apply andb_false_iff in Ecode as [?%Nat.leb_gt|?%Nat.ltb_ge]; lia. }
  destruct (read_csv url w1) as [[df|e] w2] eqn:Ecsv; cbn -[Nat.leb Nat.ltb].
  - exists (Some df). eexists. split; [reflexivity|]. cbn -[Nat.leb Nat.ltb]. split; [done|].
    by exists code, w1.
  - exists None. eexists. split; [reflexivity|]. exists e. cbn -[Nat.leb Nat.ltb]. split; [done|].
    right. right. by exists code, w1.
Qed.

End fetching.


(** ** Instances of the further properties *)

Lemma clean_marketing_data_metrics_witness :
  let run := clean_marketing_data (L:=RefLib.lib) 0 "Facebook" [ads_raw] in
  ∃ out, run.2 !! 3 = Some out
    ∧ ∀ o, o ∈ rows out ->
        ∃ i k s a,
          cell_at o "impression" = Num i ∧ cell_at o "clicks" = Num k
          ∧ cell_at o "spend" = Num s ∧ cell_at o "attributed revenue" = Num a
          ∧ (0 <? i)%float = true
          ∧ cell_at o "ctr" = Num (np_round2 (k / i * 100))
          ∧ cell_at o "cpc"
            = Num (if (0 <? k)%float then np_round2 (s / k) else 0)%float
          ∧ cell_at o "roas"
            = Num (if (0 <? s)%float then np_round2 (a / s) else 0)%float
          ∧ cell_at o "cpm" = Num (np_round2 (s / i * 1000)).
Proof.
  intros run.
  apply (clean_marketing_data_metrics (L:=RefLib.lib) [ads_raw] 0 ads_raw "Facebook"
           3 run.2 eq_refl).
  vm_compute. reflexivity.
Defined.

Lemma clean_marketing_data_platform_witness :
  let run := clean_marketing_data (L:=RefLib.lib) 0 "Facebook" [ads_raw] in
  ∃ out, run.2 !! 3 = Some out
    ∧ "platform" ∈ columns out
    ∧ ∀ o, o ∈ rows out -> cell_at o "platform" = Str "Facebook".
Proof.
  intros run.
  apply (clean_marketing_data_platform (L:=RefLib.lib) [ads_raw] 0 ads_raw "Facebook"
           3 run.2 eq_refl).
  vm_compute. reflexivity.
Defined.

Lemma clean_marketing_data_coerces_witness :
  let run := clean_marketing_data (L:=RefLib.lib) 0 "Facebook" [ads_raw] in
  ∃ out, run.2 !! 3 = Some out
    ∧ ∀ o, o ∈ rows out ->
        ∃ r0, r0 ∈ rows ads_raw ∧ label o = label r0
          ∧ ∀ c, c ∈ marketing_numeric ->
              (∀ x, cell_at r0 c = Num x ->
                    cell_at o c = Num (if is_nan x then 0%float else x))
              ∧ (∀ s, cell_at r0 c = Str s ->
                      cell_at o c = Num (match RefLib.unsigned s with
                                         | Some x => if is_nan x then 0%float else x
                                         | None => 0%float
                                         end)).
Proof.
  intros run.
  apply (clean_marketing_data_coerces (L:=RefLib.lib) [ads_raw] 0 ads_raw "Facebook"
           3 run.2 eq_refl).
  vm_compute. reflexivity.
Defined.

Lemma clean_marketing_data_carries_witness :
  let run := clean_marketing_data (L:=RefLib.lib) 0 "Facebook" [ads_raw] in
  ∃ out, run.2 !! 3 = Some out
    ∧ ∀ o, o ∈ rows out ->
        ∃ r0, r0 ∈ rows ads_raw ∧ label o = label r0
          ∧ date_of (L:=RefLib.lib) r0 = Ok (cell_at o "date")
          ∧ ∀ c, c ∈ columns ads_raw ->
                 c ∉ "date" :: "platform" :: marketing_numeric ++ marketing_metrics ->
                 cell_at o c = fill (Num 0) (cell_at r0 c).
Proof.
  intros run.
  apply (clean_marketing_data_carries (L:=RefLib.lib) [ads_raw] 0 ads_raw "Facebook"
           3 run.2 eq_refl).
  vm_compute. reflexivity.
Defined.

Lemma clean_marketing_data_keeps_witness :
  let run := clean_marketing_data (L:=RefLib.lib) 0 "Facebook" [ads_raw] in
  ∃ out, run.2 !! 3 = Some out
    ∧ label <$> rows out
      = label <$> filter (has_impressions (L:=RefLib.lib)) (rows ads_raw).
Proof.
  intros run.
  apply (clean_marketing_data_keeps (L:=RefLib.lib) [ads_raw] 0 ads_raw "Facebook"
           3 run.2 eq_refl).
  - repeat constructor; intros t; vm_compute; discriminate.
  - vm_compute. reflexivity.
Defined.

Lemma clean_marketing_data_columns_witness :
  let run := clean_marketing_data (L:=RefLib.lib) 0 "Facebook" [ads_raw] in
  ∃ out, run.2 !! 3 = Some out
    ∧ columns out
      = foldl add_column (columns ads_raw) ["platform"; "ctr"; "cpc"; "roas"; "cpm"].
Proof.
  intros run.
  apply (clean_marketing_data_columns (L:=RefLib.lib) [ads_raw] 0 ads_raw "Facebook"
           3 run.2 eq_refl).
  vm_compute. reflexivity.
Defined.

Lemma clean_marketing_data_returns_witness :
  ∃ r h' out, clean_marketing_data (L:=RefLib.lib) 0 "Facebook" [ads_raw] = (Ok r, h')
              ∧ h' !! r = Some out.
Proof.
  apply (clean_marketing_data_returns (L:=RefLib.lib) [ads_raw] 0 ads_raw "Facebook"
           eq_refl).
  - apply (bool_decide_unpack _). vm_compute. exact I.
  - apply (bool_decide_unpack _). vm_compute. exact I.
  - repeat constructor; eexists; vm_compute; reflexivity.
  - apply Forall_forall. apply (bool_decide_unpack _). vm_compute. exact I.
Defined.

Lemma clean_marketing_data_missing_column_witness :
  let d0 := without_column "clicks" ads_2024 in
  ∃ h', clean_marketing_data (L:=RefLib.lib) 0 "Facebook" [d0]
        = (Raise (KeyError "clicks"), h')
        ∧ h' !! 0 = Some d0.
Proof.
  intros d0.
  apply (clean_marketing_data_missing_column (L:=RefLib.lib) [d0] 0 d0 "Facebook"
           "clicks" [] eq_refl).
  - apply (bool_decide_unpack _). vm_compute. exact I.
  - apply (bool_decide_unpack _). vm_compute. exact I.
  - repeat constructor; eexists; vm_compute; reflexivity.
  - vm_compute. reflexivity.
Defined.

Lemma no_date_column_raises_witness :
  let d0 := without_column "date" ads_2024 in
  let h := [d0; business_2024] in
  (∃ h', clean_marketing_data (L:=RefLib.lib) 0 "Facebook" h
         = (Raise (KeyError "date"), h') ∧ h' !! 0 = Some d0)
  ∧ (∃ h', clean_business_data (L:=RefLib.lib) 0 h
           = (Raise (KeyError "date"), h') ∧ h' !! 0 = Some d0)
  ∧ (∃ h', create_unified_dataset (L:=RefLib.lib) 1 0 h
           = (Raise (KeyError "date"), h')
           ∧ h' !! 1 = Some business_2024 ∧ h' !! 0 = Some d0).
Proof.
  intros d0 h.
  apply (no_date_column_raises (L:=RefLib.lib) h 0 d0 "Facebook" 1 business_2024
           eq_refl eq_refl).
  apply (bool_decide_unpack _). vm_compute. exact I.
Defined.

Lemma inputs_left_unchanged_witness :
  let run := create_unified_dataset (L:=RefLib.lib) 0 1
               [business_two_days; ads_two_days; no_ads] in
  [business_two_days; ads_two_days; no_ads] `prefix_of` run.2
  ∧ ∀ r, run.1 = Ok r -> 3 ≤ r < length run.2.
Proof.
  intros run.
  exact (inputs_left_unchanged (L:=RefLib.lib)
           [business_two_days; ads_two_days; no_ads] 0 1 2
           business_two_days ads_two_days no_ads "Facebook" run.1 run.2
           eq_refl eq_refl eq_refl
           (or_intror (or_intror (or_intror (surjective_pairing run))))).
Defined.

Lemma clean_business_data_metrics_witness :
  let run := clean_business_data (L:=RefLib.lib) 0 [business_raw] in
  ∃ out, run.2 !! 3 = Some out
    ∧ ∀ o, o ∈ rows out ->
        ∃ g t n,
          cell_at o "gross_profit" = Num g ∧ cell_at o "total_revenue" = Num t
          ∧ cell_at o "num_of_orders" = Num n
          ∧ cell_at o "profit_margin" = Num (np_round2 (g / t * 100))
          ∧ cell_at o "avg_order_value" = Num (np_round2 (t / n)).
Proof.
  intros run.
  apply (clean_business_data_metrics (L:=RefLib.lib) [business_raw] 0 business_raw
           3 run.2 eq_refl).
  vm_compute. reflexivity.
Defined.

Lemma clean_business_data_columns_witness :
  let run := clean_business_data (L:=RefLib.lib) 0 [business_raw] in
  ∃ out, run.2 !! 3 = Some out
    ∧ columns out
      = foldl add_column (normalize_name <$> columns business_raw)
              ["profit_margin"; "avg_order_value"].
Proof.
  intros run.
  apply (clean_business_data_columns (L:=RefLib.lib) [business_raw] 0 business_raw
           3 run.2 eq_refl).
  vm_compute. reflexivity.
Defined.

Lemma clean_business_data_order_witness :
  let d0 := business_repeated_date in
  let run := clean_business_data (L:=RefLib.lib) 0 [d0] in
  ∃ out, run.2 !! 3 = Some out
    ∧ label <$> rows out `sublist_of` label <$> rows d0
    ∧ (NoDup (date_of (L:=RefLib.lib) <$> rows d0) ->
       label <$> rows out = label <$> rows d0).
Proof.
  intros d0 run.
  apply (clean_business_data_order (L:=RefLib.lib) [d0] 0 d0 3 run.2 eq_refl).
  vm_compute. reflexivity.
Defined.

Lemma clean_business_data_cells_witness :
  let d0 := business_raw in
  let run := clean_business_data (L:=RefLib.lib) 0 [d0] in
  ∃ out, run.2 !! 3 = Some out
    ∧ ∀ o, o ∈ rows out ->
        ∃ r0, r0 ∈ rows d0 ∧ label o = label r0
          ∧ date_of (L:=RefLib.lib) r0 = Ok (cell_at o "date")
          ∧ ∀ c, c ∈ columns d0 ->
              (normalize_name c ∈ business_numeric ->
                 (∀ x, cell_at r0 c = Num x ->
                       cell_at o (normalize_name c)
                       = Num (if is_nan x then 0%float else x))
                 ∧ (∀ s, cell_at r0 c = Str s ->
                         cell_at o (normalize_name c)
                         = Num (match RefLib.unsigned s with
                                | Some x => if is_nan x then 0%float else x
                                | None => 0%float
                                end)))
              ∧ (normalize_name c ∉ "date" :: business_numeric ++ business_metrics ->
                 cell_at o (normalize_name c) = fill (Num 0) (cell_at r0 c)).
Proof.
  intros d0 run.
  apply (clean_business_data_cells (L:=RefLib.lib) [d0] 0 d0 3 run.2 eq_refl).
  vm_compute. reflexivity.
Defined.

Lemma clean_business_data_returns_witness :
  ∃ r h' out, clean_business_data (L:=RefLib.lib) 0 [business_raw] = (Ok r, h')
              ∧ h' !! r = Some out.
Proof.
  apply (clean_business_data_returns (L:=RefLib.lib) [business_raw] 0 business_raw
           eq_refl).
  - apply (bool_decide_unpack _). vm_compute. exact I.
  - repeat constructor; eexists; vm_compute; reflexivity.
  - apply (bool_decide_unpack _). vm_compute. exact I.
  - apply Forall_forall. apply (bool_decide_unpack _). vm_compute. exact I.
  - intros c Hc Hname. unfold business_raw, columns in Hc.
    do 4 (apply elem_of_cons in Hc as [->|Hc]; [by vm_compute in Hname|]).
    apply elem_of_cons in Hc as [->|Hc];
      [repeat constructor; eexists; vm_compute; reflexivity|].
    apply elem_of_cons in Hc as [->|Hc]; [by vm_compute in Hname|].
    by apply elem_of_nil in Hc.
Defined.

Lemma clean_business_data_missing_column_witness :
  let d0 := without_column "num_of_orders" business_2024 in
  ∃ h', clean_business_data (L:=RefLib.lib) 0 [d0]
        = (Raise (KeyError "num_of_orders"), h')
        ∧ h' !! 0 = Some d0.
Proof.
  intros d0.
  apply (clean_business_data_missing_column (L:=RefLib.lib) [d0] 0 d0
           "num_of_orders" [] eq_refl).
  - apply (bool_decide_unpack _). vm_compute. exact I.
  - repeat constructor; eexists; vm_compute; reflexivity.
  - apply (bool_decide_unpack _). vm_compute. exact I.
  - vm_compute. reflexivity.
Defined.

Lemma clean_business_data_text_orders_witness :
  let d0 := business_text_orders in
  ∃ h', clean_business_data (L:=RefLib.lib) 0 [d0] = (Raise TypeError, h')
        ∧ h' !! 0 = Some d0.
Proof.
  intros d0.
  apply (clean_business_data_text_orders (L:=RefLib.lib) [d0] 0 d0 "num_of_orders"
           (row_of 0 [("date", Str "2024-01-01"); ("total_revenue", Num 1000);
                      ("gross_profit", Num 400); ("num_of_orders", Str "ten")])
           "ten" eq_refl).
  - apply (bool_decide_unpack _). vm_compute. exact I.
  - repeat constructor; eexists; vm_compute; reflexivity.
  - apply (bool_decide_unpack _). vm_compute. exact I.
  - apply Forall_forall. apply (bool_decide_unpack _). vm_compute. exact I.
  - apply (bool_decide_unpack _). vm_compute. exact I.
  - reflexivity.
  - left.
  - vm_compute. reflexivity.
Defined.


Lemma combine_marketing_data_first_error_witness :
  (combine_marketing_data (L:=RefLib.lib) 0 1 2 [ads_2024; ads_bad_date; no_ads]).1
  = Raise ValueError.
Proof.
  pose (h := [ads_2024; ads_bad_date; no_ads]).
  apply (combine_marketing_data_first_error (L:=RefLib.lib) h 0 1 2
           ads_2024 ads_bad_date no_ads ValueError eq_refl eq_refl eq_refl).
  right. left. split.
  - exists (default no_ads ((clean_marketing_data (L:=RefLib.lib) 0 "Facebook" h).2 !! 5)).
    exists 5, (clean_marketing_data (L:=RefLib.lib) 0 "Facebook" h).2.
    split; vm_compute; reflexivity.
  - vm_compute. reflexivity.
Defined.

Lemma combine_marketing_data_records_witness :
  let run := combine_marketing_data (L:=RefLib.lib) 0 1 2
               [ads_same_day; ads_raw; no_ads] in
  ∃ out, run.2 !! 13 = Some out
    ∧ ∀ o, o ∈ rows out ->
        (∃ p, p ∈ platforms ∧ cell_at o "platform" = Str p)
        ∧ is_date (cell_at o "date")
        ∧ ∃ x, cell_at o "impression" = Num x ∧ (0 <? x)%float = true.
Proof.
  intros run.
  apply (combine_marketing_data_records (L:=RefLib.lib) [ads_same_day; ads_raw; no_ads]
           0 1 2 ads_same_day ads_raw no_ads 13 run.2 eq_refl eq_refl eq_refl).
  vm_compute. reflexivity.
Defined.

Lemma unified_marketing_efficiency_witness :
  let run := create_unified_dataset (L:=RefLib.lib) 0 1
               [business_two_days; ads_two_days] in
  ∃ out, run.2 !! 4 = Some out
    ∧ ∀ o, o ∈ rows out ->
        ∃ s t, cell_at o "spend" = Num s ∧ cell_at o "total_revenue" = Num t
               ∧ is_nan s = false ∧ is_nan t = false
               ∧ cell_at o "marketing_efficiency"
                 = Num (if (0 <? s)%float then np_round2 (t / s) else 0)%float.
Proof.
  intros run.
  apply (unified_marketing_efficiency (L:=RefLib.lib) [business_two_days; ads_two_days]
           0 1 business_two_days ads_two_days 4 run.2 eq_refl eq_refl).
  vm_compute. reflexivity.
Defined.

Lemma unified_one_record_per_date_witness :
  let run := create_unified_dataset (L:=RefLib.lib) 0 1
               [business_two_days; ads_two_days] in
  ∃ out, run.2 !! 4 = Some out ∧ NoDup (dates out).
Proof.
  intros run.
  apply (unified_one_record_per_date (L:=RefLib.lib) [business_two_days; ads_two_days]
           0 1 business_two_days ads_two_days 4 run.2 eq_refl eq_refl).
  - change (NoDup [Date 20240101; Date 20240102]). apply NoDup_cons. split.
    + intros [H|H]%elem_of_cons; [discriminate H|by apply elem_of_nil in H].
    + apply NoDup_singleton.
  - vm_compute. reflexivity.
Defined.

Lemma cleaned_business_unifies_per_date_witness :
  let h := [business_repeated_date; ads_two_days] in
  let run1 := clean_business_data (L:=RefLib.lib) 0 h in
  let run2 := create_unified_dataset (L:=RefLib.lib) 4 1 run1.2 in
  ∃ out, run2.2 !! 7 = Some out ∧ NoDup (dates out).
Proof.
  intros h run1 run2.
  apply (cleaned_business_unifies_per_date (L:=RefLib.lib) h 0 1
           business_repeated_date ads_two_days 4 run1.2 7 run2.2 eq_refl eq_refl).
  - vm_compute. reflexivity.
  - vm_compute. reflexivity.
Defined.

Lemma daily_aggregation_witness :
  let dm := ads_busy_day in
  let run := create_unified_dataset (L:=RefLib.lib) 0 1 [business_two_days; dm] in
  ∃ daily, run.2 !! 2 = Some daily
    ∧ (∀ r0, r0 ∈ rows dm ->
         ∃ d, d ∈ rows daily ∧ cell_at d "date" = cell_at r0 "date")
    ∧ NoDup (dates daily)
    ∧ ∀ d, d ∈ rows daily ->
        ∃ k, cell_at d "date" = Date k ∧ Date k ∈ dates dm
          ∧ (∀ c, c ∈ summed -> cell_at d c = Num (day_sum (L:=RefLib.lib) dm c k))
          ∧ cell_at d "daily_roas"
            = Num (if (0 <? day_sum (L:=RefLib.lib) dm "spend" k)%float
                   then np_round2 (day_sum (L:=RefLib.lib) dm "attributed revenue" k
                                   / day_sum (L:=RefLib.lib) dm "spend" k)
                   else 0)%float
          ∧ cell_at d "daily_ctr"
            = Num (if (0 <? day_sum (L:=RefLib.lib) dm "impression" k)%float
                   then np_round2 (day_sum (L:=RefLib.lib) dm "clicks" k
                                   / day_sum (L:=RefLib.lib) dm "impression" k * 100)
                   else 0)%float.
Proof.
  intros dm run.
  apply (daily_aggregation (L:=RefLib.lib) [business_two_days; dm] 0 1
           business_two_days dm 4 run.2 eq_refl eq_refl).
  vm_compute. reflexivity.
Defined.

Lemma unified_carries_both_sides_witness :
  let db := business_two_days in
  let run := create_unified_dataset (L:=RefLib.lib) 0 1 [db; ads_two_days] in
  ∃ out daily,
    run.2 !! 4 = Some out ∧ run.2 !! 2 = Some daily
    ∧ ∀ o, o ∈ rows out ->
        ∃ k, cell_at o "date" = Date k
          ∧ (Date k ∈ dates db ->
             ∃ b0, b0 ∈ rows db ∧ cell_at b0 "date" = Date k
               ∧ ∀ c, c ∈ columns db -> c ∉ "date" :: ad_columns ->
                      c ≠ "marketing_efficiency" ->
                      cell_at o c = fill (Num 0) (cell_at b0 c))
          ∧ (Date k ∈ dates daily ->
             ∃ d0, d0 ∈ rows daily ∧ cell_at d0 "date" = Date k
               ∧ ∀ c, c ∈ ad_columns -> c ∉ columns db ->
                      cell_at o c = fill (Num 0) (cell_at d0 c)).
Proof.
  intros db run.
  apply (unified_carries_both_sides (L:=RefLib.lib) [db; ads_two_days] 0 1
           db ads_two_days 4 run.2 eq_refl eq_refl).
  vm_compute. reflexivity.
Defined.

Lemma create_unified_dataset_returns_witness :
  let db := business_two_days in
  let dm := ads_two_days in
  ∃ r h' out,
    create_unified_dataset (L:=RefLib.lib) 0 1 [db; dm] = (Ok r, h')
    ∧ h' !! r = Some out
    ∧ columns out = add_column (columns db ++ ad_columns) "marketing_efficiency".
Proof.
  intros db dm.
  apply (create_unified_dataset_returns (L:=RefLib.lib) [db; dm] 0 1 db dm
           eq_refl eq_refl).
  - apply (bool_decide_unpack _). vm_compute. exact I.
  - apply (bool_decide_unpack _). vm_compute. exact I.
  - apply (bool_decide_unpack _). vm_compute. exact I.
  - repeat (apply Forall_cons_2; [eexists; vm_compute; reflexivity|]). apply Forall_nil_2.
  - apply (bool_decide_unpack _). vm_compute. exact I.
  - repeat (apply Forall_cons_2; [eexists; vm_compute; reflexivity|]). apply Forall_nil_2.
  - apply (bool_decide_unpack _). vm_compute. exact I.
  - repeat (apply Forall_cons_2; [eexists; vm_compute; reflexivity|]). apply Forall_nil_2.
  - repeat (apply Forall_cons_2;
            [split;
             [apply (bool_decide_unpack _); vm_compute; exact I
             |repeat (apply Forall_cons_2; [eexists; vm_compute; reflexivity|]);
              apply Forall_nil_2]|]).
    apply Forall_nil_2.
Defined.

Lemma create_unified_dataset_missing_revenue_witness :
  let db := without_column "total_revenue" business_two_days in
  let dm := ads_two_days in
  ∃ h', create_unified_dataset (L:=RefLib.lib) 0 1 [db; dm]
        = (Raise (KeyError "total_revenue"), h')
        ∧ h' !! 0 = Some db ∧ h' !! 1 = Some dm.
Proof.
  intros db dm.
  apply (create_unified_dataset_missing_revenue (L:=RefLib.lib) [db; dm] 0 1 db dm
           eq_refl eq_refl).
  - apply (bool_decide_unpack _). vm_compute. exact I.
  - apply (bool_decide_unpack _). vm_compute. exact I.
  - apply (bool_decide_unpack _). vm_compute. exact I.
  - repeat (apply Forall_cons_2; [eexists; vm_compute; reflexivity|]). apply Forall_nil_2.
  - apply (bool_decide_unpack _). vm_compute. exact I.
  - apply (bool_decide_unpack _). vm_compute. exact I.
  - repeat (apply Forall_cons_2; [eexists; vm_compute; reflexivity|]). apply Forall_nil_2.
  - repeat (apply Forall_cons_2;
            [split;
             [apply (bool_decide_unpack _); vm_compute; exact I
             |repeat (apply Forall_cons_2; [eexists; vm_compute; reflexivity|]);
              apply Forall_nil_2]|]).
    apply Forall_nil_2.
Defined.

(** ** Computed tables *)

(** The daily table of an ad table with two records on its first day: the
    sums of the day, and the ratios of the sums. *)
Lemma daily_sums_of_a_busy_day :
  let run := create_unified_dataset (L:=RefLib.lib) 0 1
               [business_two_days; ads_busy_day] in
  ∃ daily, run.2 !! 2 = Some daily
    ∧ dates daily = [Date 20240101; Date 20240103]
    ∧ (fun d => cell_at d "spend") <$> rows daily = [Num 220; Num 50]
    ∧ (fun d => cell_at d "attributed revenue") <$> rows daily = [Num 310; Num 60]
    ∧ (fun d => cell_at d "clicks") <$> rows daily = [Num 81; Num 10]
    ∧ (fun d => cell_at d "impression") <$> rows daily = [Num 5000; Num 700]
    ∧ (fun d => cell_at d "daily_roas") <$> rows daily = [Num (141 / 100); Num (120 / 100)]
    ∧ (fun d => cell_at d "daily_ctr") <$> rows daily = [Num (162 / 100); Num (143 / 100)].
Proof. eexists. split; [vm_compute; reflexivity|]. vm_compute. repeat split. Qed.

(** Rounding keeps the sign of a zero: on a day of refunds without gross
    profit the quotient is [-0.0], and so is the profit margin. *)
Lemma rounding_keeps_the_sign_of_zero :
  let cleaned := clean_business_data (L:=RefLib.lib) 0 [business_refund_day] in
  column_of cleaned "profit_margin" = Ok [Num (-0)]
  ∧ column_of cleaned "avg_order_value" = Ok [Num (-5)]
  ∧ (1 / np_round2 (-0) = neg_infinity)%float
  ∧ (1 / np_round2 0 = infinity)%float
  ∧ (1 / rint (-0.25) = neg_infinity)%float.
Proof. vm_compute. repeat split. Qed.
